(** * SGO-FIG figure scripts: data transforms and figure assembly

    A shallow embedding of the three plotting scripts
    [death_model.py], [geo_model.py] and [pk_model.py].

    The scripts are straight-line code over two libraries, numpy and
    matplotlib.pyplot.  The numpy calls are embedded as functions on
    arrays; the pyplot calls as commands of a small state-and-error monad
    whose state is the figure under construction and the figures already
    shown.  Array elements are taken from a numeric interface [Num] with
    two instances: exact rationals [Q], in which the statements about
    arithmetic are proved, and IEEE binary64 [float], in which the
    transforms are evaluated on concrete inputs.  (The two differ on a
    division by zero, which the scripts reach only in the mean of an
    empty file.)

    Part I is the embedding: numpy, pyplot, the three scripts, and the
    numpy calls once more on arrays in memory.  Part II holds the
    vocabulary of the statements and the sample inputs, Part III the
    properties. *)

From Stdlib Require Import ZArith QArith Lia PrimFloat Uint63.
From stdpp Require Import base list strings gmap.

Set Default Proof Using "Type".
Local Open Scope nat_scope.

(** * Part I: the embedding *)

(** ** Numbers *)

(** What the scripts ask of array elements: literals, the four arithmetic
    operations used by [np.linspace], equality and the strict comparison
    of [d > 8]. *)
Class Num (A : Type) := {
  of_Z : Z → A;
  nadd : A → A → A;
  nsub : A → A → A;
  nmul : A → A → A;
  ndiv : A → A → A;
  neqb : A → A → bool;
  ngtb : A → A → bool
}.

#[export] Instance Q_Num : Num Q := {|
  of_Z := inject_Z;
  nadd := Qplus;
  nsub := Qminus;
  nmul := Qmult;
  ndiv := Qdiv;
  neqb := Qeq_bool;
  ngtb := fun a b => negb (Qle_bool a b)
|}.

Definition float_of_Z (z : Z) : float :=
  match z with
  | Zneg p => PrimFloat.opp (PrimFloat.of_uint63 (Uint63.of_Z (Zpos p)))
  | _ => PrimFloat.of_uint63 (Uint63.of_Z z)
  end.

#[export] Instance float_Num : Num float := {|
  of_Z := float_of_Z;
  nadd := PrimFloat.add;
  nsub := PrimFloat.sub;
  nmul := PrimFloat.mul;
  ndiv := PrimFloat.div;
  neqb := PrimFloat.eqb;
  ngtb := fun a b => PrimFloat.ltb b a
|}.

Definition of_nat `{Num A} (n : nat) : A := of_Z (Z.of_nat n).

(** ** Exceptions *)

Inductive exn : Type :=
  | IndexError
  | ValueError
  | OSError.

Inductive result (A : Type) : Type :=
  | Ok (a : A)
  | Raise (e : exn).
Arguments Ok {A} a.
Arguments Raise {A} e.

#[export] Instance result_ret : MRet result := fun A a => Ok a.

#[export] Instance result_bind : MBind result := fun A B k r =>
  match r with
  | Ok a => k a
  | Raise e => Raise e
  end.

(** ** Arrays *)

(** A numpy array of dimension at most two.  [Mat c rows] has shape
    [(length rows, c)]; it is well formed when every row has [c]
    entries. *)
Inductive ndarray (A : Type) : Type :=
  | Scalar (v : A)
  | Vec (v : list A)
  | Mat (ncols : nat) (rows : list (list A)).
Arguments Scalar {A} v.
Arguments Vec {A} v.
Arguments Mat {A} ncols rows.

Definition wf_array {A} (a : ndarray A) : Prop :=
  match a with
  | Mat c rows => Forall (fun r => length r = c) rows
  | _ => True
  end.

(** [np.shape(a)] *)
Definition shape {A} (a : ndarray A) : list nat :=
  match a with
  | Scalar _ => []
  | Vec v => [length v]
  | Mat c rows => [length rows; c]
  end.

(** [np.size(a)] *)
Definition size {A} (a : ndarray A) : nat :=
  match a with
  | Scalar _ => 1
  | Vec v => length v
  | Mat c rows => length rows * c
  end.

(** [t[k]] on a tuple *)
Definition tuple_get (t : list nat) (k : nat) : result nat :=
  match t !! k with
  | Some n => Ok n
  | None => Raise IndexError
  end.

(** [a[i]] with [i >= 0] *)
Definition getitem {A} (a : ndarray A) (i : nat) : result (ndarray A) :=
  match a with
  | Scalar _ => Raise IndexError
  | Vec v =>
      match v !! i with
      | Some x => Ok (Scalar x)
      | None => Raise IndexError
      end
  | Mat _ rows =>
      match rows !! i with
      | Some r => Ok (Vec r)
      | None => Raise IndexError
      end
  end.

(** The entries of column [k], one per row; a row too short for [k]
    contributes nothing (no such row in a well-formed array). *)
Definition column {A} (k : nat) (rows : list (list A)) : list A :=
  omap (fun r => r !! k) rows.

(** [a[:,k]] with [k >= 0] *)
Definition getcol {A} (a : ndarray A) (k : nat) : result (list A) :=
  match a with
  | Mat c rows => if decide (k < c) then Ok (column k rows) else Raise IndexError
  | _ => Raise IndexError
  end.

(** [a[:,-1]] *)
Definition getcol_last {A} (a : ndarray A) : result (list A) :=
  match a with
  | Mat c rows => if decide (0 < c) then Ok (column (c - 1) rows) else Raise IndexError
  | _ => Raise IndexError
  end.

(** [np.transpose(a)], [a.T] *)
Definition transpose {A} (a : ndarray A) : ndarray A :=
  match a with
  | Mat c rows => Mat (length rows) (map (fun k => column k rows) (seq 0 c))
  | _ => a
  end.

(** ** Files *)

(** A text file as [np.loadtxt] tokenises it: the numeric fields of each
    non-blank line. *)
Definition file (A : Type) : Type := list (list A).

Definition rectangular {A} (c : nat) (rows : list (list A)) : bool :=
  forallb (fun r => Nat.eqb (length r) c) rows.

(** [np.loadtxt] on the contents of a file: rows of unequal length are an
    error; the array read is squeezed, so a one-line or one-column file
    loads as a vector and a single number as a scalar.  An empty file
    loads as the empty vector. *)
Definition loadtxt_contents {A} (f : file A) : result (ndarray A) :=
  match f with
  | [] => Ok (Vec [])
  | r0 :: rest =>
      let c := length r0 in
      if rectangular c rest then
        match rest, r0 with
        | [], [x] => Ok (Scalar x)
        | [], _ => Ok (Vec r0)
        | _, [_] => Ok (Vec (column 0 f))
        | _, _ => Ok (Mat c f)
        end
      else Raise ValueError
  end.

(** The data directory: path to contents. *)
Definition loadtxt {A} (fs : gmap string (file A)) (path : string)
  : result (ndarray A) :=
  match fs !! path with
  | Some f => loadtxt_contents f
  | None => Raise OSError
  end.

(** ** [np.linspace] *)

Section Linspace.
Context {A : Type} `{Num A}.

(** [np.arange(0, num)] as array elements *)
Definition arange0 (num : nat) : list A := map of_nat (seq 0 num).

(** [np.linspace(start, stop, num)] with the default [endpoint=True]:
    the indices scaled by [step = (stop - start) / (num - 1)], shifted
    by [start], and the last entry overwritten with [stop]. *)
Definition linspace (start stop : A) (num : nat) : list A :=
  let div := num - 1 in
  let delta := nsub stop start in
  let y := arange0 num in
  let y :=
    if decide (0 < div) then
      let step := ndiv delta (of_nat div) in
      if neqb step (of_Z 0)
      then map (fun v => nmul (ndiv v (of_nat div)) delta) y
      else map (fun v => nmul v step) y
    else map (fun v => nmul v delta) y in
  let y := map (fun v => nadd v start) y in
  if decide (1 < num) then <[num - 1 := stop]> y else y.

End Linspace.

(** ** Elementwise operations and reductions *)

Definition amap {A B} (f : A → B) (a : ndarray A) : ndarray B :=
  match a with
  | Scalar v => Scalar (f v)
  | Vec v => Vec (map f v)
  | Mat c rows => Mat c (map (map f) rows)
  end.

(** [a.ravel()]: the entries in row-major order *)
Definition ravel {A} (a : ndarray A) : list A :=
  match a with
  | Scalar v => [v]
  | Vec v => v
  | Mat _ rows => concat rows
  end.

(** [a > t] *)
Definition gt `{Num A} (a : ndarray A) (t : A) : ndarray bool :=
  amap (fun v => ngtb v t) a.

(** [np.sum(b, 0)] on a boolean array: the rows added up entry by entry,
    each [True] counting one.  A scalar has no axis 0. *)
Definition sum_axis0 (b : ndarray bool) : result (ndarray Z) :=
  match b with
  | Scalar _ => Raise ValueError
  | Vec v => Ok (Scalar (foldr Z.add 0%Z (map Z.b2z v)))
  | Mat c rows =>
      Ok (Vec (foldr (zip_with Z.add) (replicate c 0%Z) (map (map Z.b2z) rows)))
  end.

(** [np.mean(a)] *)
Definition mean `{Num A} (a : ndarray A) : A :=
  ndiv (foldr nadd (of_Z 0) (ravel a)) (of_nat (size a)).

(** [np.arange(lo, hi)] on integers *)
Definition arange (lo hi : Z) : list Z :=
  map (fun k => (lo + Z.of_nat k)%Z) (seq 0 (Z.to_nat (hi - lo))).

(** [np.repeat(v, n)]: each entry [n] times in a row *)
Definition repeat_each {A} (v : list A) (n : nat) : list A :=
  flat_map (replicate n) v.

Fixpoint chunks {A} (r c : nat) (flat : list A) : list (list A) :=
  match r with
  | 0 => []
  | S r' => take c flat :: chunks r' c (drop c flat)
  end.

(** [v.reshape((r, c))] on a vector *)
Definition reshape {A} (v : list A) (r c : nat) : result (ndarray A) :=
  if decide (length v = r * c) then Ok (Mat c (chunks r c v))
  else Raise ValueError.

(** A decimal literal [n/d], such as [0.05] *)
Definition dec `{Num A} (n d : Z) : A := ndiv (of_Z n) (of_Z d).

(** ** pyplot *)

Definition color : Type := string.

(** The third argument of [plt.text]: a string, or an integer array
    element, printed as it is. *)
Inductive label : Type :=
  | LStr (s : string)
  | LNum (n : ndarray Z).

(** What the scripts draw.  Axis limits, ticks, axis labels, legends and
    figure sizes are set by the scripts too; they carry no data and are
    not recorded. *)
Inductive artist (A : Type) : Type :=
  | Line2D (xs ys : list A) (c : color) (alpha : option A)
  | RefLine (vertical : bool) (pos : A) (c : option color)
  | PathCollection (xs ys : list A) (c : option color) (alpha : option A)
  | Text (x y : A) (s : label) (c : color)
  | BoxPatch (data : list A) (facecolor : option color).
Arguments Line2D {A} xs ys c alpha.
Arguments RefLine {A} vertical pos c.
Arguments PathCollection {A} xs ys c alpha.
Arguments Text {A} x y s c.
Arguments BoxPatch {A} data facecolor.

(** The axes of a figure are named by their [subplot] triple; a figure
    is its artists in drawing order, each with the axes it was drawn
    on. *)
Definition axes_id : Type := nat * nat * nat.

Record figure (A : Type) : Type := Figure {
  gca : axes_id;
  artists : list (axes_id * artist A)
}.
Arguments Figure {A} gca artists.
Arguments gca {A} f.
Arguments artists {A} f.

Definition new_figure {A} : figure A := Figure (1, 1, 1) [].

(** The state of pyplot: the open figures, the current one first, and
    the figures already displayed by [plt.show()], oldest first. *)
Record pyplot (A : Type) : Type := Pyplot {
  open_figs : list (figure A);
  shown : list (figure A)
}.
Arguments Pyplot {A} open_figs shown.
Arguments open_figs {A} p.
Arguments shown {A} p.

Definition pyplot_init {A} : pyplot A := Pyplot [] [].

(** A computation over a state [S]: it ends normally or with an uncaught
    exception, and in both cases leaves a state behind. *)
Definition st (S T : Type) : Type := S → result T * S.

#[export] Instance st_ret {S} : MRet (st S) := fun T t s => (Ok t, s).

#[export] Instance st_bind {S} : MBind (st S) := fun T U k m s =>
  match m s with
  | (Ok t, s') => k t s'
  | (Raise e, s') => (Raise e, s')
  end.

Definition lift {S T} (r : result T) : st S T := fun s => (r, s).

(** [for x in l: body(x)] *)
Fixpoint for_ {S T} (l : list T) (body : T → st S ()) : st S () :=
  match l with
  | [] => mret ()
  | x :: l' => body x ;; for_ l' body
  end.

(** A script is a computation over the state of pyplot. *)
Abbreviation plt A := (st (pyplot A)).

Section Pyplot.
Context {A : Type} `{Num A}.

(** The current figure, made on demand *)
Definition gcf (s : pyplot A) : figure A * list (figure A) :=
  match open_figs s with
  | f :: fs => (f, fs)
  | [] => (new_figure, [])
  end.

(** The state after the artists [l] are added to the current axes *)
Definition drawn (l : list (artist A)) (s : pyplot A) : pyplot A :=
  let '(f, fs) := gcf s in
  Pyplot (Figure (gca f) (artists f ++ map (pair (gca f)) l) :: fs) (shown s).

Definition draw_all (l : list (artist A)) : plt A () := fun s =>
  (Ok (), drawn l s).

Definition draw (a : artist A) : plt A () := draw_all [a].

(** [plt.figure()] *)
Definition plt_figure : plt A () := fun s =>
  (Ok (), Pyplot (new_figure :: open_figs s) (shown s)).

(** [plt.subplot(r, c, i)] *)
Definition subplot (r c i : nat) : plt A () := fun s =>
  let '(f, fs) := gcf s in
  (Ok (), Pyplot (Figure (r, c, i) (artists f) :: fs) (shown s)).

(** [plt.show()]: every open figure is displayed, in the order of
    creation, and closed. *)
Definition show : plt A () := fun s =>
  (Ok (), Pyplot [] (shown s ++ reverse (open_figs s))).

(** [plt.plot(x, y, color=c, alpha=al)] with a vector [x]: [x] and [y]
    must agree in their first dimension; a matrix [y] gives one line
    per column. *)
Definition plot_xy (x : list A) (y : ndarray A) (c : color)
    (alpha : option A) : plt A () :=
  match y with
  | Scalar v =>
      if decide (length x = 1) then draw (Line2D x [v] c alpha)
      else lift (Raise ValueError)
  | Vec v =>
      if decide (length x = length v) then draw (Line2D x v c alpha)
      else lift (Raise ValueError)
  | Mat ncols rows =>
      if decide (length x = length rows)
      then draw_all (map (fun k => Line2D x (column k rows) c alpha) (seq 0 ncols))
      else lift (Raise ValueError)
  end.

(** [plt.plot(y, color=c)]: the x-values are the indices [0, 1, ...]
    of the first dimension. *)
Definition plot_y (y : ndarray A) (c : color) : plt A () :=
  match y with
  | Scalar _ => plot_xy (arange0 1) y c None
  | Vec v => plot_xy (arange0 (length v)) y c None
  | Mat _ rows => plot_xy (arange0 (length rows)) y c None
  end.

(** [plt.scatter(x, y, color=c, alpha=al)]: both arguments are
    flattened and must have the same number of entries. *)
Definition scatter (x y : ndarray A) (c : option color)
    (alpha : option A) : plt A () :=
  if decide (size x = size y)
  then draw (PathCollection (ravel x) (ravel y) c alpha)
  else lift (Raise ValueError).

(** [plt.text(x, y, s, color=c)] *)
Definition text (x y : A) (s : label) (c : color) : plt A () :=
  draw (Text x y s c).

(** [plt.axvline(x, color=c)], [plt.axhline(y, color=c)] *)
Definition axvline (x : A) (c : option color) : plt A () :=
  draw (RefLine true x c).
Definition axhline (y : A) (c : option color) : plt A () :=
  draw (RefLine false y c).

(** How [plt.boxplot] reads a list of arrays: a matrix among them is
    an error, a list of scalars is one data set, and otherwise every
    array is a data set of its own. *)
Definition is_mat (a : ndarray A) : bool :=
  match a with Mat _ _ => true | _ => false end.
Definition is_scalar (a : ndarray A) : bool :=
  match a with Scalar _ => true | _ => false end.

Definition boxplot_data (X : list (ndarray A)) : result (list (list A)) :=
  match X with
  | [] => Ok [[]]
  | _ =>
      if existsb is_mat X then Raise ValueError
      else if forallb is_scalar X then Ok [flat_map ravel X]
      else Ok (map ravel X)
  end.

(** [bp = plt.boxplot(X, patch_artist=True)]: one box per data set,
    drawn on the current axes.  [bp['boxes']] refers to the boxes in
    the figure; the reference is the position of the box among the
    figure's artists. *)
Definition boxplot (X : list (ndarray A)) : plt A (list nat) := fun s =>
  match boxplot_data X with
  | Raise e => (Raise e, s)
  | Ok data =>
      let '(f, fs) := gcf s in
      let boxes := map (fun d => (gca f, BoxPatch d None)) data in
      (Ok (seq (length (artists f)) (length data)),
       Pyplot (Figure (gca f) (artists f ++ boxes) :: fs) (shown s))
  end.

(** [patch.set_facecolor(c)]: the box is changed where it is, in the
    figure. *)
Definition paint (c : color) (a : artist A) : artist A :=
  match a with
  | BoxPatch d _ => BoxPatch d (Some c)
  | _ => a
  end.

Definition set_facecolor (patch : nat) (c : color) : plt A () := fun s =>
  let '(f, fs) := gcf s in
  (Ok (),
   Pyplot (Figure (gca f) (alter (prod_map id (paint c)) patch (artists f)) :: fs)
          (shown s)).
End Pyplot.

(** [col[k]] on the colour cycle *)
Definition palette_get (col : list color) (k : nat) : result color :=
  match col !! k with
  | Some c => Ok c
  | None => Raise IndexError
  end.

(** ** death_model.py *)

Module death_model.
Section Script.
Context {A : Type} `{Num A}.
Variable col : list color.
Variable fs : gmap string (file A).

(** Figure 1a: the utility surface, with the optimum marked *)
Definition figure_1a : plt A () :=
  util_surf ← lift (loadtxt fs "../data/death_model/simpledeath_1d_util.txt");
  c0 ← lift (palette_get col 0);
  axvline (dec 161 100) (Some c0);;
  xs ← lift (getcol util_surf 0);
  ys ← lift (getcol util_surf 1);
  c3 ← lift (palette_get col 3);
  plot_xy xs (Vec ys) c3 None;;
  c0 ← lift (palette_get col 0);
  text (dec 18 10) (of_Z 1) (LStr "$\tau* \approx 1.61$") c0;;
  show.

(** Figure 1b: eleven design traces, each in a colour of its own turn
    of the cycle, against the column index *)
Definition figure_1b : plt A () :=
  design_traces ← lift (loadtxt fs "../data/death_model/simpledeath_traces.txt");
  plt_figure;;
  for_ (seq 0 11) (fun i =>
    row ← lift (getitem design_traces i);
    c ← lift (palette_get col (i mod 6 + 1));
    plot_y row c);;
  c0 ← lift (palette_get col 0);
  axhline (dec 161 100) (Some c0);;
  c0 ← lift (palette_get col 0);
  text (of_Z 95) (of_Z 1) (LStr "$\tau^*$") c0;;
  show.

Definition main : plt A () := figure_1a;; figure_1b.
End Script.
End death_model.

(** ** geo_model.py *)

Module geo_model.
Section Script.
Context {A : Type} `{Num A}.
Variable col : list color.
Variable fs : gmap string (file A).
(** What [os.listdir] answers for each directory: the names in it, in
    an order of the system's choosing *)
Variable dirs : gmap string (list string).

Definition listdir (d : string) : result (list string) :=
  match dirs !! d with
  | Some names => Ok names
  | None => Raise OSError
  end.

(** [for patch, color in zip(bp['boxes'], bp_cols)] *)
Definition color_boxes (boxes : list nat) (bp_cols : list color) : plt A () :=
  for_ (zip boxes bp_cols) (fun pc => set_facecolor pc.1 pc.2).

(** Figure 7a: final utilities of the two methods *)
Definition figure_7a (Scol Acol : color) (tr_sgd tr_ace : ndarray A) : plt A () :=
  plt_figure;;
  s ← lift (getcol_last tr_sgd);
  a ← lift (getcol_last tr_ace);
  bp ← boxplot [Vec s; Vec a];
  let bp_cols := [Scol; Acol] in
  color_boxes bp bp_cols;;
  show.

Definition x_sgd (tr_sgd : ndarray A) : result (list A) :=
  r0 ← getitem tr_sgd 0;
  mret (linspace (of_Z 0) (of_Z 50000) (size r0)).

Definition x_ace (tr_ace : ndarray A) : result (list A) :=
  r0 ← getitem tr_ace 0;
  mret (linspace (of_Z 0) (of_Z 85000) (size r0)).

(** Figure 7b: all traces of both methods *)
Definition figure_7b (Scol Acol : color) (tr_sgd tr_ace : ndarray A) : plt A () :=
  xs ← lift (x_sgd tr_sgd);
  xa ← lift (x_ace tr_ace);
  c5 ← lift (palette_get col 5);
  axhline (dec 2037012 100000) (Some c5);;
  plot_xy xs (transpose tr_sgd) Scol (Some (dec 5 100));;
  plot_xy xa (transpose tr_ace) Acol (Some (dec 5 100));;
  _ ← lift (palette_get col 5);
  show.

(** Figure 6: one figure per file of the sweep directory *)
Definition sweep_file (files : list string) (i : nat) : plt A () :=
  name ← lift (match files !! i with Some n => Ok n | None => Raise IndexError end);
  x ← lift (loadtxt fs ("../data/geo_model/change_l_gamma/" +:+ name));
  xs ← lift (getcol x 0);
  ys ← lift (getcol x 1);
  scatter (Vec xs) (Vec ys) None None;;
  show.

Definition sweep : plt A () :=
  files ← lift (listdir "../data/geo_model/change_l_gamma");
  for_ (seq 0 (length files)) (sweep_file files).

Definition main : plt A () :=
  Scol ← lift (palette_get col 0);
  Acol ← lift (palette_get col 3);
  tr_sgd ← lift (loadtxt fs "../data/geo_model/sgd_traces.txt");
  tr_ace ← lift (loadtxt fs "../data/geo_model/ace_traces.txt");
  figure_7a Scol Acol tr_sgd tr_ace;;
  figure_7b Scol Acol tr_sgd tr_ace;;
  sweep.
End Script.
End geo_model.

(** ** pk_model.py *)

Module pk_model.
Section Script.
Context {A : Type} `{Num A}.
Variable col : list color.
Variable fs : gmap string (file A).

Definition color_boxes (boxes : list nat) (bp_cols : list color) : plt A () :=
  for_ (zip boxes bp_cols) (fun pc => set_facecolor pc.1 pc.2).

(** Figure 2: expected utilities of all methods, one box each *)
Definition figure_2 (Scol Acol Mcol Mcol2 : color)
    (m2_ph2 m1_ph2 s_ph2 a_ph2 m2 m1 s a init unif : ndarray A) : plt A () :=
  plt_figure;;
  bp ← boxplot [m2_ph2; m1_ph2; s_ph2; a_ph2; m2; m1; s; a; init];
  axvline (mean unif) None;;
  let bp_cols := [Mcol2; Mcol; Scol; Acol; Mcol2; Mcol; Scol; Acol; "lightsteelblue"] in
  color_boxes bp bp_cols;;
  show.

Definition x_ace18 (ace18 : ndarray A) : result (list A) :=
  n ← tuple_get (shape ace18) 1;
  mret (linspace (of_Z 0) (of_Z 18700000) n).

Definition x_sgd18 (sgd18 : ndarray A) : result (list A) :=
  n ← tuple_get (shape sgd18) 1;
  mret (linspace (of_Z 0) (of_Z 18700000) n).

(** Figure 3: the utility traces of ACE, then those of SGO-FIG *)
Definition figure_3 (Scol Acol : color) (sgd18 ace18 : ndarray A) : plt A () :=
  xa ← lift (x_ace18 ace18);
  plot_xy xa (transpose ace18) Acol (Some (dec 2 10));;
  show;;
  xs ← lift (x_sgd18 sgd18);
  plot_xy xs (transpose sgd18) Scol (Some (dec 1 10));;
  show.

(** [x = np.repeat(np.arange(1,16),100).reshape((15,100)).transpose()] *)
Definition x : result (ndarray Z) :=
  m ← reshape (repeat_each (arange 1 16) 100) 15 100;
  mret (transpose m).

(** [num_at_8_2 = np.sum(d > 8, 0)] *)
Definition num_at_8_2 (d : ndarray A) : result (ndarray Z) :=
  sum_axis0 (gt d (of_Z 8)).

(** The fifteen labels under a design scatter *)
Definition count_labels (Scol : color) (num : ndarray Z) : plt A () :=
  for_ (seq 0 15) (fun i =>
    if decide (i mod 2 = 0) then
      n ← lift (getitem num i);
      text (nadd (of_nat i) (dec 7 10)) (dec 95 10) (LNum n) Scol
    else
      n ← lift (getitem num i);
      text (nadd (of_nat i) (dec 7 10)) (dec 62 10) (LNum n) Scol).

Definition design_scatter (x : ndarray Z) (d : ndarray A) (c : color) : plt A () :=
  scatter (amap of_Z x) d (Some c) (Some (dec 5 100)).

(** Figure 4: the returned designs, six panels *)
Definition figure_4 (Scol Acol Mcol : color)
    (d_a18m d_s18m d_m18m d2_a18m d2_s18m d2_m18m : ndarray A) : plt A () :=
  x ← lift x;
  plt_figure;;
  subplot 2 3 1;;
  design_scatter x d_s18m Scol;;
  num ← lift (num_at_8_2 d_s18m);
  count_labels Scol num;;
  subplot 2 3 2;;
  design_scatter x d_a18m Acol;;
  subplot 2 3 3;;
  design_scatter x d_m18m Mcol;;
  subplot 2 3 4;;
  design_scatter x d2_s18m Scol;;
  num ← lift (num_at_8_2 d2_s18m);
  count_labels Scol num;;
  subplot 2 3 5;;
  design_scatter x d2_a18m Acol;;
  subplot 2 3 6;;
  design_scatter x d2_m18m Mcol;;
  show.

Definition x_of_trace (total : Z) (tr : ndarray A) : result (list A) :=
  n ← tuple_get (shape tr) 1;
  mret (linspace (of_Z 0) (of_Z total) n).

Definition scaled (xs : list A) (k : Z) : list A :=
  map (fun v => ndiv v (of_Z k)) xs.

(** Figure 5: SGO-FIG traces for three batch sizes, against iterations
    and against utility evaluations *)
Definition figure_5 (sgd1_first100k : ndarray A)
    (x_sgd1_first100k : list A) (sgd1 sgd10 sgd100 : ndarray A)
    (x_sgd1 x_sgd10 x_sgd100 : list A) : plt A () :=
  plt_figure;;
  subplot 2 3 1;;
  c ← lift (palette_get col 0);
  plot_xy x_sgd1_first100k (transpose sgd1_first100k) c (Some (dec 2 10));;
  subplot 2 3 2;;
  c ← lift (palette_get col 3);
  plot_xy (scaled x_sgd10 10) (transpose sgd10) c (Some (dec 2 10));;
  subplot 2 3 3;;
  c ← lift (palette_get col 6);
  plot_xy (scaled x_sgd100 100) (transpose sgd100) c (Some (dec 2 10));;
  subplot 2 3 4;;
  c ← lift (palette_get col 0);
  plot_xy x_sgd1 (transpose sgd1) c (Some (dec 2 10));;
  subplot 2 3 5;;
  c ← lift (palette_get col 3);
  plot_xy x_sgd10 (transpose sgd10) c (Some (dec 2 10));;
  subplot 2 3 6;;
  c ← lift (palette_get col 6);
  plot_xy x_sgd100 (transpose sgd100) c (Some (dec 2 10));;
  show.

Definition load (path : string) : plt A (ndarray A) :=
  lift (loadtxt fs path).

Definition main : plt A () :=
  Scol ← lift (palette_get col 0);
  Acol ← lift (palette_get col 3);
  Mcol ← lift (palette_get col 6);
  Mcol2 ← lift (palette_get col 5);
  a ← load "../data/pk_model/ace_utils_18m.txt";
  s ← load "../data/pk_model/sgd_m1_utils_18m.txt";
  m1 ← load "../data/pk_model/muller_J1_utils_18m.txt";
  m2 ← load "../data/pk_model/muller_J2_utils_18m.txt";
  a_ph2 ← load "../data/pk_model/ace_utils_ph2_18m.txt";
  s_ph2 ← load "../data/pk_model/sgd_utils_ph2_18m.txt";
  m1_ph2 ← load "../data/pk_model/muller_J1_utils_ph2_18m.txt";
  m2_ph2 ← load "../data/pk_model/muller_J2_utils_ph2_18m.txt";
  init ← load "../data/pk_model/init_utils.txt";
  unif ← load "../data/pk_model/unif_utils.txt";
  figure_2 Scol Acol Mcol Mcol2 m2_ph2 m1_ph2 s_ph2 a_ph2 m2 m1 s a init unif;;
  sgd18 ← load "../data/pk_model/sgd_m1_trace_18m.txt";
  ace18 ← load "../data/pk_model/ace_trace_18m.txt";
  figure_3 Scol Acol sgd18 ace18;;
  d_a18m ← load "../data/pk_model/ace_designs_18m.txt";
  d_s18m ← load "../data/pk_model/sgd_designs_18m.txt";
  d_m18m ← load "../data/pk_model/muller_J1_designs_18m.txt";
  d2_a18m ← load "../data/pk_model/ace_designs_ph2_18m.txt";
  d2_s18m ← load "../data/pk_model/sgd_designs_ph2_18m.txt";
  d2_m18m ← load "../data/pk_model/muller_J1_designs_ph2_18m.txt";
  figure_4 Scol Acol Mcol d_a18m d_s18m d_m18m d2_a18m d2_s18m d2_m18m;;
  sgd1_first100k ← load "../data/pk_model/sgd_m1_trace_first100k.txt";
  x_sgd1_first100k ← lift (x_of_trace 100000 sgd1_first100k);
  sgd1 ← load "../data/pk_model/sgd_m1_trace_18m.txt";
  sgd10 ← load "../data/pk_model/sgd_m10_trace_18m.txt";
  sgd100 ← load "../data/pk_model/sgd_m100_trace_18m.txt";
  x_sgd1 ← lift (x_of_trace 18700000 sgd1);
  x_sgd10 ← lift (x_of_trace 18700000 sgd10);
  x_sgd100 ← lift (x_of_trace 18700000 sgd100);
  figure_5 sgd1_first100k x_sgd1_first100k sgd1 sgd10 sgd100 x_sgd1 x_sgd10 x_sgd100.
End Script.
End pk_model.

(** ** numpy, in memory *)

(** The numpy calls once more, now on arrays that live in memory.  An
    array object refers to a buffer of elements; [np.transpose] gives
    a second object on the same buffer, the other calls allocate a buffer
    for their result, and [np.linspace] fills its result in place. *)
Module store.
Section Store.
Context {A : Type} `{Num A}.

Inductive buffer : Type :=
  | Floats (d : list A)
  | Bools (d : list bool)
  | Ints (d : list Z).

(** Memory: the buffers allocated so far, by address *)
Local Abbreviation heap := (list buffer).

(** An array object: the address of its buffer, its shape, and whether
    it reads the buffer transposed *)
Record array : Type := Array {
  base : nat;
  ashape : list nat;
  transposed : bool
}.

Definition alloc (b : buffer) : st heap nat := fun h =>
  (Ok (length h), h ++ [b]).

Definition fetch (l : nat) : st heap buffer := fun h =>
  match h !! l with
  | Some b => (Ok b, h)
  | None => (Raise IndexError, h)
  end.

Definition fetch_floats (l : nat) : st heap (list A) :=
  b ← fetch l;
  match b with
  | Floats d => mret d
  | _ => lift (Raise ValueError)
  end.

(** Writing into the buffer at [l] *)
Definition overwrite (l : nat) (b : buffer) : st heap () := fun h =>
  (Ok (), <[l := b]> h).

(** The array that a buffer, a shape and a reading direction stand for *)
Definition view {B} (d : list B) (sh : list nat) (tr : bool)
    : result (ndarray B) :=
  match sh, d with
  | [], [v] => Ok (Scalar v)
  | [n], _ => Ok (Vec d)
  | [r; c], _ =>
      if tr then Ok (transpose (Mat r (chunks c r d)))
      else Ok (Mat c (chunks r c d))
  | _, _ => Raise ValueError
  end.

(** [np.loadtxt]: the array read is put into a new buffer. *)
Definition np_loadtxt (f : file A) : st heap array :=
  a ← lift (loadtxt_contents f);
  l ← alloc (Floats (ravel a));
  mret (Array l (shape a) false).

(** [np.transpose(a)]: a view, no buffer is made or written. *)
Definition np_transpose (a : array) : array :=
  Array (base a) (reverse (ashape a)) (negb (transposed a)).

(** [a > t]: a new buffer of booleans *)
Definition np_gt (a : array) (t : A) : st heap array :=
  d ← fetch_floats (base a);
  l ← alloc (Bools (map (fun v => ngtb v t) d));
  mret (Array l (ashape a) (transposed a)).

(** [np.sum(m, 0)]: a new buffer of integers *)
Definition np_sum0 (m : array) : st heap array :=
  b ← fetch (base m);
  match b with
  | Bools d =>
      v ← lift (view d (ashape m) (transposed m));
      r ← lift (sum_axis0 v);
      l ← alloc (Ints (ravel r));
      mret (Array l (shape r) false)
  | _ => lift (Raise ValueError)
  end.

(** [y op= ...]: the buffer of [y] is rewritten where it is. *)
Definition update_floats (l : nat) (g : list A → list A) : st heap () :=
  d ← fetch_floats l;
  overwrite l (Floats (g d)).

(** [np.linspace(start, stop, num)] with scalar [start] and [stop], step
    by step as numpy does it: [y = arange(0, num)]; for [num > 1],
    [y *= step] (or, for a zero step, [y /= div; y *= delta]), and
    otherwise [y = y * delta]; then [y += start] and, for [num > 1],
    [y[-1] = stop].  All but [y = y * delta] work in place. *)
Definition np_linspace (start stop : A) (num : nat) : st heap array :=
  let div := num - 1 in
  let delta := nsub stop start in
  y ← alloc (Floats (arange0 num));
  y ← (if decide (0 < div) then
         let step := ndiv delta (of_nat div) in
         (if neqb step (of_Z 0) then
            update_floats y (map (fun v => ndiv v (of_nat div)));;
            update_floats y (map (fun v => nmul v delta))
          else
            update_floats y (map (fun v => nmul v step)));;
         mret y
       else
         d ← fetch_floats y;
         alloc (Floats (map (fun v => nmul v delta) d)));
  update_floats y (map (fun v => nadd v start));;
  (if decide (1 < num) then update_floats y (fun d => <[num - 1 := stop]> d)
   else mret ());;
  mret (Array y [num] false).

(** The transforms of a trace matrix in pk_model.py, from the loaded
    array to the arguments of [plt.plot]:
    [x = np.linspace(0, total, np.shape(a)[1])] and [np.transpose(a)] *)
Definition trace_transforms (total : Z) (a : array) : st heap (array * array) :=
  n ← lift (tuple_get (ashape a) 1);
  x ← np_linspace (of_Z 0) (of_Z total) n;
  mret (x, np_transpose a).

(** The transforms of a design matrix: [num_at_8_2 = np.sum(d > 8, 0)] *)
Definition design_transforms (d : array) : st heap array :=
  m ← np_gt d (of_Z 8);
  np_sum0 m.

(** What [plt.plot] and [plt.scatter] are given: the array read out of
    memory *)
Definition read (a : array) : st heap (ndarray A) :=
  d ← fetch_floats (base a);
  lift (view d (ashape a) (transposed a)).

Definition read_ints (a : array) : st heap (ndarray Z) :=
  b ← fetch (base a);
  match b with
  | Ints d => lift (view d (ashape a) (transposed a))
  | _ => lift (Raise ValueError)
  end.
End Store.
Arguments buffer A : clear implicits.
Abbreviation heap A := (list (buffer A)).
End store.

(** * Part II: the vocabulary of the statements *)

Section Vocabulary.
Context {A : Type} `{Num A}.

(** Row [r] has, in column [c], a value above [t] *)
Definition exceeds (t : A) (c : nat) (r : list A) : bool :=
  match r !! c with
  | Some v => ngtb v t
  | None => false
  end.

(** The number of rows whose value in column [c] is above [t] *)
Definition count_exceeding (t : A) (c : nat) (rows : list (list A)) : nat :=
  length (List.filter (exceeds t c) rows).

(** The label of column [i] showing the count [z]: a little right of
    the column, high for an even [i] and low for an odd one. *)
Definition count_label (Scol : color) (i : nat) (z : Z) : artist A :=
  Text (nadd (of_nat i) (dec 7 10))
       (if Nat.even i then dec 95 10 else dec 62 10)
       (LNum (Scalar z)) Scol.

(** The face colours of the boxes of a figure, in drawing order *)
Definition facecolors (f : figure A) : list (option color) :=
  omap (fun p => match p.2 with BoxPatch _ c => Some c | _ => None end)
       (artists f).

(** The face colours of the boxes of the current figure *)
Definition current_facecolors (s : pyplot A) : list (option color) :=
  facecolors (gcf s).1.

(** One line per row of a trace matrix, all over the same x-values,
    in the same colour and with the same opacity *)
Definition overlay (xs : list A) (c : color) (alpha : A)
    (rows : list (list A)) : list (artist A) :=
  map (fun r => Line2D xs r c (Some alpha)) rows.

(** The lines of a figure, in drawing order *)
Definition lines (f : figure A) : list (artist A) :=
  List.filter (fun a => match a with Line2D _ _ _ _ => true | _ => false end)
              (map snd (artists f)).

(** What the claim asks of the figure drawn for a trace matrix *)
Definition is_trace_overlay (rows : list (list A)) (f : figure A) : Prop :=
  ∃ xs c alpha, lines f = overlay xs c alpha rows.

(** The figure of one file: its first column against its second *)
Definition scatter_figure (rows : list (list A)) : figure A :=
  Figure (1, 1, 1)
    [((1, 1, 1), PathCollection (column 0 rows) (column 1 rows) None None)].

(** The number of fields on the first line of a file *)
Definition file_columns (f : file A) : nat :=
  match f with
  | [] => 0
  | r :: _ => length r
  end.

End Vocabulary.

(** An x-vector that spreads [n] columns over [0 .. total]: column 0 at
    0, column [n - 1] at [total], and column [i] at [i] steps of
    [total / (n - 1)]. *)
Definition rescaled (total : Z) (n : nat) (r : result (list Q)) : Prop :=
  ∃ xs, r = Ok xs ∧ length xs = n ∧
    (∃ x0, xs !! 0 = Some x0 ∧ (x0 == 0)%Q) ∧
    xs !! (n - 1) = Some (inject_Z total) ∧
    ∀ i, i < n →
      ∃ x, xs !! i = Some x ∧
           (x == inject_Z (Z.of_nat i) * (inject_Z total / inject_Z (Z.of_nat (n - 1))))%Q.

Definition sweep_path (name : string) : string :=
  "../data/geo_model/change_l_gamma/" +:+ name.

(** A file of the sweep that the loop can draw: it loads as a matrix
    with at least two columns. *)
Definition point_set {A : Type} (fs : gmap string (file A)) (name : string) : Prop :=
  ∃ n rows, loadtxt fs (sweep_path name) = Ok (Mat n rows) ∧ 2 ≤ n.

(** The figure [f] is the scatter of the file [name]. *)
Definition figure_of {A : Type} (fs : gmap string (file A)) (name : string)
    (f : figure A) : Prop :=
  ∃ n rows, loadtxt fs (sweep_path name) = Ok (Mat n rows) ∧
            f = scatter_figure rows.

(** The number of figures displayed by a run *)
Definition figure_count {A T} (r : result T * pyplot A) : nat :=
  length (shown r.2).

(** The files that the scripts read *)
Definition death_inputs : list string :=
  ["../data/death_model/simpledeath_1d_util.txt";
   "../data/death_model/simpledeath_traces.txt"].

Definition geo_inputs (dirs : gmap string (list string)) : list string :=
  ["../data/geo_model/sgd_traces.txt"; "../data/geo_model/ace_traces.txt"]
  ++ match dirs !! "../data/geo_model/change_l_gamma" with
     | Some names => map sweep_path names
     | None => []
     end.

Definition pk_inputs : list string :=
  ["../data/pk_model/ace_utils_18m.txt";
   "../data/pk_model/sgd_m1_utils_18m.txt";
   "../data/pk_model/muller_J1_utils_18m.txt";
   "../data/pk_model/muller_J2_utils_18m.txt";
   "../data/pk_model/ace_utils_ph2_18m.txt";
   "../data/pk_model/sgd_utils_ph2_18m.txt";
   "../data/pk_model/muller_J1_utils_ph2_18m.txt";
   "../data/pk_model/muller_J2_utils_ph2_18m.txt";
   "../data/pk_model/init_utils.txt";
   "../data/pk_model/unif_utils.txt";
   "../data/pk_model/sgd_m1_trace_18m.txt";
   "../data/pk_model/ace_trace_18m.txt";
   "../data/pk_model/ace_designs_18m.txt";
   "../data/pk_model/sgd_designs_18m.txt";
   "../data/pk_model/muller_J1_designs_18m.txt";
   "../data/pk_model/ace_designs_ph2_18m.txt";
   "../data/pk_model/sgd_designs_ph2_18m.txt";
   "../data/pk_model/muller_J1_designs_ph2_18m.txt";
   "../data/pk_model/sgd_m1_trace_first100k.txt";
   "../data/pk_model/sgd_m10_trace_18m.txt";
   "../data/pk_model/sgd_m100_trace_18m.txt"].

(** Two file systems that hold the same contents at the given paths *)
Definition unchanged {A : Type} (paths : list string)
    (fs fs' : gmap string (file A)) : Prop :=
  Forall (fun p => fs !! p = fs' !! p) paths.

(** ** Sample inputs *)

Definition two_traces : file Q := [[1; 2; 3]; [4; 5; 6]]%Q.

Definition two_designs : list (list Q) :=
  [[1; 9; 3; 9; 5; 9; 7; 9; 9; 10; 11; 12; 13; 14; 15];
   [1; 2; 3; 4; 5; 6; 7; 8; 9; 10; 11; 12; 13; 14; 15]]%Q.

(** The default colour cycle of matplotlib *)
Definition tab10 : list color :=
  ["#1f77b4"; "#ff7f0e"; "#2ca02c"; "#d62728"; "#9467bd";
   "#8c564b"; "#e377c2"; "#7f7f7f"; "#bcbd22"; "#17becf"].

(** Twelve design traces of two steps each *)
Definition twelve_traces : file Q :=
  [[1; 2]; [3; 4]; [5; 6]; [7; 8]; [9; 10]; [11; 12];
   [13; 14]; [15; 16]; [17; 18]; [19; 20]; [21; 22]; [23; 24]]%Q.

Definition death_data : gmap string (file Q) :=
  {[ "../data/death_model/simpledeath_traces.txt" := twelve_traces ]}.

Definition sweep_dir_1 : gmap string (list string) :=
  {[ "../data/geo_model/change_l_gamma" := ["l1_g1.txt"] ]}.
Definition sweep_dir_2 : gmap string (list string) :=
  {[ "../data/geo_model/change_l_gamma" := ["l2_g1.txt"; "l1_g1.txt"] ]}.
Definition sweep_data : gmap string (file Q) :=
  {[ "../data/geo_model/change_l_gamma/l1_g1.txt" := [[0; 1]; [1; 0]]%Q;
     "../data/geo_model/change_l_gamma/l2_g1.txt" := [[0; 0]; [1; 1]; [1; 0]]%Q ]}.

(** A sweep file that holds a single point *)
Definition one_point_data : gmap string (file Q) :=
  {[ "../data/geo_model/change_l_gamma/l1_g1.txt" := [[0.5; 0.25]]%Q ]}.

Definition one_column : file Q := [[1]; [2]; [3]]%Q.

Definition one_column_data : gmap string (file Q) :=
  {[ "../data/geo_model/change_l_gamma/l1_g1.txt" := one_column;
     "../data/death_model/simpledeath_1d_util.txt" := one_column ]}.

(** Two states of the data directory with the same input files: the
    second holds one more file, which no script reads. *)
Definition rerun_data : gmap string (file Q) :=
  {[ "../data/pk_model/ace_trace_18m.txt" := two_traces;
     "../data/geo_model/sgd_traces.txt" := two_traces;
     "../data/geo_model/ace_traces.txt" := two_traces;
     "../data/geo_model/change_l_gamma/l1_g1.txt" := [[0; 1]; [1; 0]]%Q;
     "../data/death_model/simpledeath_1d_util.txt" := [[0; 1]; [1; 2]]%Q ]}.

Definition rerun_data' : gmap string (file Q) :=
  <[ "../data/notes.txt" := [[1]]%Q ]> rerun_data.

Definition hundred_designs : list (list Q) :=
  replicate 100 [1; 2; 3; 4; 5; 6; 7; 8; 9; 10; 11; 12; 13; 14; 15]%Q.

Definition util_data : gmap string (file Q) :=
  {[ "../data/death_model/simpledeath_1d_util.txt" := [[0; 1]; [1; 2]; [2; 1]]%Q ]}.

Definition three_traces_data : gmap string (file Q) :=
  {[ "../data/death_model/simpledeath_traces.txt" := [[1; 2]; [3; 4]; [5; 6]]%Q ]}.

(** The figure of a sweep file, when the loop can draw it *)
Definition sweep_figure {A : Type} (fs : gmap string (file A)) (name : string)
    : option (figure A) :=
  match loadtxt fs (sweep_path name) with
  | Ok (Mat _ rows) => Some (scatter_figure rows)
  | _ => None
  end.

Definition sweep_dir_3 : gmap string (list string) :=
  {[ "../data/geo_model/change_l_gamma" := ["l1_g1.txt"; "l1_g2.txt"; "l2_g1.txt"] ]}.

(** The sweep files of [sweep_data], and between them one that holds a
    single column *)
Definition sweep_data_bad : gmap string (file Q) :=
  <[ "../data/geo_model/change_l_gamma/l1_g2.txt" := [[1]; [2]]%Q ]> sweep_data.

Definition sweep_dir_2r : gmap string (list string) :=
  {[ "../data/geo_model/change_l_gamma" := ["l1_g1.txt"; "l2_g1.txt"] ]}.

(** A trace file of a single run, beside a trace file of two *)
Definition single_run_data : gmap string (file Q) :=
  {[ "../data/geo_model/sgd_traces.txt" := [[1; 2; 3]]%Q;
     "../data/geo_model/ace_traces.txt" := two_traces ]}.

(** A design matrix as figure 4 presumes it: a hundred trials of
    fifteen observation times *)
Definition is_design {A : Type} (d : list (list A)) : Prop :=
  length d = 100 ∧ Forall (fun r => length r = 15) d.

Section Figure4Vocabulary.
Context {A : Type} `{Num A}.

(** The x-coordinates of a design scatter: a hundred times 1, ..., 15 *)
Definition design_xs : list A :=
  ravel (amap of_Z (Mat 15 (replicate 100 (arange 1 16)))).

(** The scatter of a design matrix in the colour [c] *)
Definition design_points (c : color) (d : list (list A)) : artist A :=
  PathCollection design_xs (concat d) (Some c) (Some (dec 5 100)).

(** The fifteen labels with the counts of a design matrix *)
Definition design_labels (Scol : color) (d : list (list A)) : list (artist A) :=
  map (fun i => count_label Scol i (Z.of_nat (count_exceeding (of_Z 8) i d)))
      (seq 0 15).

End Figure4Vocabulary.

(** A data directory on which pk_model.py runs to its end *)
Definition pk_data : gmap string (file Q) :=
  list_to_map
    ([("../data/pk_model/unif_utils.txt", [[2; 3; 4]]%Q);
      ("../data/pk_model/sgd_m1_trace_18m.txt", two_traces);
      ("../data/pk_model/ace_trace_18m.txt", two_traces);
      ("../data/pk_model/sgd_m1_trace_first100k.txt", two_traces);
      ("../data/pk_model/sgd_m10_trace_18m.txt", two_traces);
      ("../data/pk_model/sgd_m100_trace_18m.txt", two_traces)]
     ++ map (fun p => (p, [[3; 4]]%Q)) (take 9 pk_inputs)
     ++ map (fun p => (p, hundred_designs)) (take 6 (drop 12 pk_inputs))).

(** * Part III: properties *)

(** Runs the commands of a script as far as they compute. *)
Ltac plt_step :=
  unfold mbind, st_bind, result_bind, mret, st_ret, result_ret, lift, show;
  cbn -[reverse column linspace mean].
Ltac plt_run := repeat progress plt_step.

(** Rewrites every read of a file by the read of the other file system. *)
Ltac same_reads H :=
  unfold unchanged in H;
  repeat (apply Forall_cons in H as [?Hread H]);
  repeat match goal with
         | Hp : ?fs !! ?p = _ |- context [?fs !! ?p] => rewrite Hp; clear Hp
         end.

(** ** [np.linspace] *)

Section LinspaceFacts.
Context {A : Type} `{Num A}.

Lemma length_linspace start stop num :
  length (linspace start stop num) = num.
Proof.
  unfold linspace, arange0.
  repeat case_decide; try case_match;
    rewrite ?length_insert, !length_map, length_seq; reflexivity.
Qed.

(** The last entry is [stop] itself, whatever the arithmetic. *)
Lemma linspace_last start stop num :
  1 < num → linspace start stop num !! (num - 1) = Some stop.
Proof.
  intros Hn.
  pose proof (length_linspace start stop num) as Hlen.
  unfold linspace in *. rewrite decide_True in * by done.
  apply list_lookup_insert_eq.
  rewrite length_insert in Hlen. lia.
Qed.

End LinspaceFacts.

(** *** Linear interpolation, in exact arithmetic *)

Lemma of_nat_Q_nonzero (n : nat) : 0 < n → ¬ (of_nat (A:=Q) n == 0)%Q.
Proof.
  intros Hn Heq. unfold of_nat, Qeq in Heq. cbn in Heq. lia.
Qed.

(** Every entry before the last is the index scaled by the step. *)
Lemma linspace_Q_interior (start stop : Q) (num i : nat) :
  i < num - 1 →
  ∃ x, linspace start stop num !! i = Some x ∧
       (x == start + of_nat i * ((stop - start) / of_nat (num - 1)))%Q.
Proof.
  intros Hi.
  assert (Hd : ¬ (of_nat (A:=Q) (num - 1) == 0)%Q)
    by (apply of_nat_Q_nonzero; lia).
  unfold linspace, arange0.
  rewrite (decide_True (P := 0 < num - 1)) by lia.
  rewrite (decide_True (P := 1 < num)) by lia.
  rewrite list_lookup_insert_ne by lia.
  cbn [neqb nmul ndiv nadd nsub Q_Num of_Z].
  destruct (Qeq_bool _ _) eqn:Hstep;
    rewrite !list_lookup_fmap, lookup_seq_lt by lia; cbn;
    eexists; (split; [reflexivity|]).
  - apply Qeq_bool_eq in Hstep.
    assert (Hdelta : (stop - start == 0)%Q).
    { rewrite <- (Qmult_div_r (stop - start) (of_nat (num - 1))) by exact Hd.
      unfold of_nat in *. cbn in *. rewrite Hstep. ring. }
    unfold of_nat in *. cbn in *. rewrite Hdelta. field. exact Hd.
  - ring.
Qed.

(** ** Loading *)

Lemma rectangular_Forall {A} (c : nat) (rows : list (list A)) :
  rectangular c rows = true → Forall (fun r => length r = c) rows.
Proof.
  unfold rectangular. rewrite forallb_forall, Forall_forall.
  intros Hall r Hr. apply Nat.eqb_eq, Hall, list_elem_of_In, Hr.
Qed.

(** A file that loads as a matrix is the matrix: at least two rows, all
    of the same length, which is not one. *)
Lemma loadtxt_contents_Mat {A} (f : file A) (n : nat) (rows : list (list A)) :
  loadtxt_contents f = Ok (Mat n rows) →
  rows = f ∧ 2 ≤ length rows ∧ Forall (fun r => length r = n) rows.
Proof.
  destruct f as [|r0 rest]; [discriminate|]. cbn.
  destruct (rectangular (length r0) rest) eqn:Hrect; [|discriminate].
  apply rectangular_Forall in Hrect.
  destruct rest as [|r1 rest]; destruct r0 as [|x [|y r0]];
    try discriminate; intros [= <- <-];
    (split; [reflexivity|split; [cbn; lia|constructor; [reflexivity|exact Hrect]]]).
Qed.

Lemma loadtxt_contents_wf {A} (f : file A) (a : ndarray A) :
  loadtxt_contents f = Ok a → wf_array a.
Proof.
  destruct a as [v|v|n rows]; try (intros; exact I).
  intros Hload. apply loadtxt_contents_Mat in Hload. apply Hload.
Qed.

(** ** C1: the rescaled x-axis *)

Lemma linspace_Q_rescale (total : Z) (n i : nat) :
  2 ≤ n → i < n →
  ∃ x, linspace (A:=Q) (of_Z 0) (of_Z total) n !! i = Some x ∧
       (x == of_nat i * (of_Z total / of_nat (n - 1)))%Q.
Proof.
  intros Hn Hi.
  assert (Hd : ¬ (of_nat (A:=Q) (n - 1) == 0)%Q)
    by (apply of_nat_Q_nonzero; lia).
  destruct (decide (i = n - 1)) as [->|Hne].
  - exists (of_Z total). split; [apply linspace_last; lia|].
    field. exact Hd.
  - destruct (linspace_Q_interior (of_Z 0) (of_Z total) n i) as (x & Hx & Heq);
      [lia|].
    exists x. split; [exact Hx|]. rewrite Heq. cbn. field. exact Hd.
Qed.

Lemma linspace_rescaled (total : Z) (n : nat) :
  2 ≤ n → rescaled total n (Ok (linspace (of_Z 0) (of_Z total) n)).
Proof.
  intros Hn. eexists. split; [reflexivity|].
  split; [apply length_linspace|].
  split; [|split].
  - destruct (linspace_Q_rescale total n 0) as (x & Hx & Heq); [lia..|].
    exists x. split; [exact Hx|]. rewrite Heq. unfold of_nat. cbn.
    unfold Qeq. cbn. lia.
  - apply linspace_last. lia.
  - intros i Hi. apply linspace_Q_rescale; lia.
Qed.

(** C1.  For every trace file that loads as a matrix with [n >= 2]
    columns, each x-vector the scripts compute for it ([x_ace18] and
    [x_sgd18] of pk_model.py, [x_sgd] and [x_ace] of geo_model.py, and the
    x-vectors of figure 5 of pk_model.py) has [n] entries, starts at 0,
    ends at the total evaluation count given for its source (18,700,000;
    50,000; 85,000; in figure 5 also 100,000) and is linear in the column
    index in between. *)
Theorem rescaled_axis_endpoints (f : file Q) (n : nat) (rows : list (list Q)) :
  loadtxt_contents f = Ok (Mat n rows) →
  2 ≤ n →
  rescaled 18700000 n (pk_model.x_ace18 (Mat n rows)) ∧
  rescaled 18700000 n (pk_model.x_sgd18 (Mat n rows)) ∧
  rescaled 50000 n (geo_model.x_sgd (Mat n rows)) ∧
  rescaled 85000 n (geo_model.x_ace (Mat n rows)) ∧
  ∀ total, rescaled total n (pk_model.x_of_trace total (Mat n rows)).
Proof.
  intros Hload Hn.
  apply loadtxt_contents_Mat in Hload as (-> & Hrows & Hwf).
  destruct f as [|r0 rest]; [cbn in Hrows; lia|].
  apply Forall_cons in Hwf as [Hr0 _].
  unfold pk_model.x_ace18, pk_model.x_sgd18, geo_model.x_sgd, geo_model.x_ace,
    pk_model.x_of_trace.
  cbn. rewrite Hr0.
  repeat split; try intros total; apply linspace_rescaled; exact Hn.
Qed.

Lemma rescaled_axis_endpoints_witness :
  rescaled 18700000 3 (pk_model.x_ace18 (Mat 3 two_traces)) ∧
  rescaled 18700000 3 (pk_model.x_sgd18 (Mat 3 two_traces)) ∧
  rescaled 50000 3 (geo_model.x_sgd (Mat 3 two_traces)) ∧
  rescaled 85000 3 (geo_model.x_ace (Mat 3 two_traces)) ∧
  ∀ total, rescaled total 3 (pk_model.x_of_trace total (Mat 3 two_traces)).
Proof.
  apply (rescaled_axis_endpoints two_traces 3 two_traces); [reflexivity|lia].
Defined.

(** The same endpoints in binary64, for a file of 100 columns: the first
    coordinate is 0 and the last is the total itself. *)
Example linspace_float_100 :
  let xs := linspace (A:=float) (of_Z 0) (of_Z 18700000) 100 in
  xs !! 0 = Some 0%float ∧ xs !! 99 = Some 18700000%float ∧
  xs !! 1 = Some (18700000 / 99)%float.
Proof. vm_compute. repeat split. Qed.

(** ** Running scripts *)

Section Binds.
Context {S : Type}.

Lemma bind_ok {T U} (m : st S T) (k : T → st S U) s t s' :
  m s = (Ok t, s') → (m ≫= k) s = k t s'.
Proof. intros Hm. unfold mbind, st_bind. rewrite Hm. reflexivity. Qed.

Lemma bind_raise {T U} (m : st S T) (k : T → st S U) s e s' :
  m s = (Raise e, s') → (m ≫= k) s = (Raise e, s').
Proof. intros Hm. unfold mbind, st_bind. rewrite Hm. reflexivity. Qed.

Lemma bind_ext {T U} (m : st S T) (k k' : T → st S U) s :
  (∀ t s', k t s' = k' t s') → (m ≫= k) s = (m ≫= k') s.
Proof.
  intros Hk. unfold mbind, st_bind.
  destruct (m s) as [[t|e] s']; [apply Hk|reflexivity].
Qed.

Lemma bind_lift_ok {T U} (t : T) (k : T → st S U) s :
  (lift (Ok t) ≫= k) s = k t s.
Proof. reflexivity. Qed.
End Binds.

Section Running.
Context {A : Type} `{Num A}.

Lemma drawn_nil (s : pyplot A) : open_figs s ≠ [] → drawn [] s = s.
Proof.
  destruct s as [[|[ax arts] fs] sh]; [done|]. intros _.
  unfold drawn. cbn. rewrite app_nil_r. reflexivity.
Qed.

Lemma drawn_app (l1 l2 : list (artist A)) (s : pyplot A) :
  drawn l2 (drawn l1 s) = drawn (l1 ++ l2) s.
Proof.
  unfold drawn. destruct (gcf s) as [f fs]. cbn.
  rewrite map_app, app_assoc. reflexivity.
Qed.

Lemma shown_drawn (l : list (artist A)) (s : pyplot A) :
  shown (drawn l s) = shown s.
Proof. unfold drawn. destruct (gcf s). reflexivity. Qed.

(** A loop whose every turn draws one artist draws them in turn. *)
Lemma for_draw_from {T} (l : list T) (body : T → plt A ()) (mk : T → artist A)
    (l0 : list (artist A)) s :
  Forall (fun x => ∀ s', body x s' = (Ok (), drawn [mk x] s')) l →
  for_ l body (drawn l0 s) = (Ok (), drawn (l0 ++ map mk l) s).
Proof.
  intros Hall. revert l0.
  induction Hall as [|x l Hx _ IH]; intros l0.
  - cbn. rewrite app_nil_r. reflexivity.
  - cbn [for_ map]. erewrite bind_ok by apply Hx.
    rewrite drawn_app, IH, <- app_assoc. reflexivity.
Qed.

Lemma for_draw {T} (x : T) (l : list T) (body : T → plt A ())
    (mk : T → artist A) s :
  Forall (fun x => ∀ s', body x s' = (Ok (), drawn [mk x] s')) (x :: l) →
  for_ (x :: l) body s = (Ok (), drawn (map mk (x :: l)) s).
Proof.
  intros Hall. apply Forall_cons in Hall as [Hx Hl].
  cbn [for_ map]. erewrite bind_ok by apply Hx.
  apply (for_draw_from l body mk [mk x] s Hl).
Qed.
End Running.

(** ** C2: the threshold counts *)

Section Counts.
Context {A : Type} `{Num A}.

Lemma sum_rows_lookup (t : A) (n c : nat) (rows : list (list A)) :
  Forall (fun r => length r = n) rows → c < n →
  foldr (zip_with Z.add) (replicate n 0%Z)
    (map (map Z.b2z) (map (map (fun v => ngtb v t)) rows)) !! c
  = Some (Z.of_nat (count_exceeding t c rows)).
Proof.
  intros Hwf Hc. induction Hwf as [|r rows Hr _ IH].
  - cbn. apply lookup_replicate_2. exact Hc.
  - cbn [map foldr]. rewrite lookup_zip_with, IH.
    rewrite !list_lookup_fmap.
    destruct (lookup_lt_is_Some_2 r c) as [v Hv]; [lia|].
    unfold count_exceeding. cbn [List.filter].
    assert (Hex : exceeds t c r = ngtb v t) by (unfold exceeds; rewrite Hv; done).
    rewrite Hex, Hv. cbn [mbind option_bind fmap option_fmap option_map].
    destruct (ngtb v t); cbn [length Z.b2z]; f_equal; lia.
Qed.

Lemma length_sum_rows (n : nat) (rows : list (list Z)) :
  Forall (fun r => length r = n) rows →
  length (foldr (zip_with Z.add) (replicate n 0%Z) rows) = n.
Proof.
  induction 1 as [|r rows Hr _ IH]; cbn.
  - apply length_replicate.
  - rewrite length_zip_with, IH. lia.
Qed.

Lemma count_exceeding_le (t : A) (c : nat) (rows : list (list A)) :
  count_exceeding t c rows ≤ length rows.
Proof. apply List.filter_length_le. Qed.

Lemma sum_bounded (m : Z) (l : list Z) :
  Forall (fun z => (z ≤ m)%Z) l →
  (foldr Z.add 0 l ≤ Z.of_nat (length l) * m)%Z.
Proof. induction 1; cbn [foldr length]; lia. Qed.
End Counts.

Section Labels.
Context {A : Type} `{Num A}.

Lemma even_mod (i : nat) : Nat.even i = bool_decide (i mod 2 = 0).
Proof.
  destruct (Nat.even i) eqn:He; symmetry.
  - apply bool_decide_eq_true. apply Nat.even_spec in He as [k ->].
    rewrite Nat.mul_comm. apply Nat.Div0.mod_mul.
  - apply bool_decide_eq_false. intros Hmod.
    apply Nat.Div0.mod_divides in Hmod as [k ->].
    rewrite Nat.even_mul in He. discriminate.
Qed.

(** With a count for each of the fifteen columns, the loop ends
    normally and has drawn one label per column, in order. *)
Lemma count_labels_run (Scol : color) (counts : list Z) (s : pyplot A) :
  15 ≤ length counts →
  pk_model.count_labels Scol (Vec counts) s
  = (Ok (), drawn (map (fun i => count_label Scol i (nth i counts 0%Z)) (seq 0 15)) s).
Proof.
  intros Hlen. unfold pk_model.count_labels.
  apply (for_draw 0 (seq 1 14)). apply Forall_forall. intros i Hi s'.
  assert (Hi' : i < 15).
  { change (0 :: seq 1 14) with (seq 0 15) in Hi.
    apply elem_of_seq in Hi. lia. }
  destruct (lookup_lt_is_Some_2 counts i) as [z Hz]; [lia|].
  assert (Hnth : nth i counts 0%Z = z).
  { apply nth_lookup_Some with (d := 0%Z) in Hz. exact Hz. }
  unfold count_label. rewrite Hnth, even_mod.
  cbn [getitem]. rewrite Hz.
  destruct (decide (i mod 2 = 0)) as [He|He].
  - rewrite bool_decide_eq_true_2 by exact He. reflexivity.
  - rewrite bool_decide_eq_false_2 by exact He. reflexivity.
Qed.
End Labels.

(** In exact arithmetic [exceeds] is the strict order of the rationals;
    in binary64 it is the strict comparison of floats. *)
Lemma exceeds_Q (t : Q) (c : nat) (r : list Q) :
  exceeds t c r = true ↔ ∃ v, r !! c = Some v ∧ (t < v)%Q.
Proof.
  unfold exceeds. destruct (r !! c) as [v|]; cbn.
  - rewrite negb_true_iff. split.
    + intros Hle. exists v. split; [reflexivity|].
      apply Qnot_le_lt. intros Hvt. apply Qle_bool_iff in Hvt. congruence.
    + intros (v' & [= <-] & Hlt).
      destruct (Qle_bool v t) eqn:Hle; [|reflexivity].
      apply Qle_bool_iff in Hle. exfalso. exact (Qlt_not_le _ _ Hlt Hle).
  - split; [discriminate|]. intros (v & Hv & _). discriminate.
Qed.

Example exceeds_float :
  map (exceeds (A:=float) (of_Z 8) 0) [[8]; [8.5]; [nan]; [infinity]; [-9]]%float
  = [false; true; false; true; false].
Proof. vm_compute. reflexivity. Qed.

(** C2.  For every design matrix, [num_at_8_2] holds for each column the
    number of rows whose value there is above 8; the counts add up to at
    most rows times columns; and the label drawn for each of the fifteen
    columns shows the count of that column. *)
Theorem threshold_counts {A : Type} `{Num A} (Scol : color) (n : nat)
    (rows : list (list A)) (s : pyplot A) :
  wf_array (Mat n rows) →
  ∃ counts,
    pk_model.num_at_8_2 (Mat n rows) = Ok (Vec counts) ∧
    length counts = n ∧
    (∀ c, c < n →
       counts !! c = Some (Z.of_nat (count_exceeding (of_Z 8) c rows))) ∧
    (foldr Z.add 0%Z counts ≤ Z.of_nat (length rows * n))%Z ∧
    (15 ≤ n →
     ∃ labels,
       pk_model.count_labels Scol (Vec counts) s = (Ok (), drawn labels s) ∧
       length labels = 15 ∧
       ∀ c, c < 15 →
         ∃ x y, labels !! c
                = Some (Text x y
                          (LNum (Scalar (Z.of_nat (count_exceeding (of_Z 8) c rows))))
                          Scol)).
Proof.
  intros Hwf. cbn in Hwf.
  eexists. split; [reflexivity|].
  assert (Hlen : length (foldr (zip_with Z.add) (replicate n 0%Z)
      (map (map Z.b2z) (map (map (fun v => ngtb v (of_Z 8))) rows))) = n).
  { apply length_sum_rows. rewrite !Forall_fmap.
    eapply Forall_impl; [exact Hwf|]. intros r Hr. cbn.
    rewrite !length_map. exact Hr. }
  assert (Hcol : ∀ c, c < n →
      foldr (zip_with Z.add) (replicate n 0%Z)
        (map (map Z.b2z) (map (map (fun v => ngtb v (of_Z 8))) rows)) !! c
      = Some (Z.of_nat (count_exceeding (of_Z 8) c rows))).
  { intros c Hc. apply sum_rows_lookup; assumption. }
  split; [exact Hlen|]. split; [exact Hcol|]. split.
  - etransitivity.
    + apply (sum_bounded (Z.of_nat (length rows))).
      apply Forall_lookup. intros c z Hz.
      assert (Hc : c < n) by (apply lookup_lt_Some in Hz; lia).
      rewrite Hcol in Hz by exact Hc. injection Hz as <-.
      pose proof (count_exceeding_le (of_Z 8) c rows). lia.
    + rewrite Hlen. lia.
  - intros Hn. eexists. split; [apply count_labels_run; lia|].
    split; [rewrite length_map, length_seq; reflexivity|].
    intros c Hc. rewrite list_lookup_fmap, lookup_seq_lt by exact Hc.
    cbn. unfold count_label.
    erewrite nth_lookup_Some by (apply Hcol; lia).
    eexists _, _. reflexivity.
Qed.

Lemma threshold_counts_witness :
  ∃ counts,
    pk_model.num_at_8_2 (Mat 15 two_designs) = Ok (Vec counts) ∧
    length counts = 15 ∧
    (∀ c, c < 15 →
       counts !! c = Some (Z.of_nat (count_exceeding (of_Z 8) c two_designs))) ∧
    (foldr Z.add 0%Z counts ≤ Z.of_nat (length two_designs * 15))%Z ∧
    ∃ labels,
      pk_model.count_labels (A:=Q) "C0" (Vec counts) pyplot_init
      = (Ok (), drawn labels pyplot_init) ∧
      length labels = 15 ∧
      ∀ c, c < 15 →
        ∃ x y, labels !! c
               = Some (Text x y
                         (LNum (Scalar (Z.of_nat (count_exceeding (of_Z 8) c two_designs))))
                         "C0").
Proof.
  destruct (threshold_counts (A:=Q) "C0" 15 two_designs pyplot_init)
    as (counts & Hnum & Hlen & Hcol & Hsum & Hlabels).
  - unfold two_designs. cbn. repeat constructor.
  - exists counts. repeat split; try assumption. apply Hlabels. lia.
Defined.

Example num_at_8_2_two_designs :
  pk_model.num_at_8_2 (Mat 15 two_designs)
  = Ok (Vec [0; 1; 0; 1; 0; 1; 0; 1; 2; 2; 2; 2; 2; 2; 2]%Z).
Proof. vm_compute. reflexivity. Qed.

(** C5.  The labels of the fifteen columns stand at two heights, 9.5 for
    an even column index and 6.2 for an odd one, and 9.5 is the higher. *)
Theorem labels_alternate {A : Type} `{Num A} (Scol : color) (counts : list Z)
    (s : pyplot A) :
  15 ≤ length counts →
  (∃ labels,
     pk_model.count_labels Scol (Vec counts) s = (Ok (), drawn labels s) ∧
     length labels = 15 ∧
     ∀ i, i < 15 →
       ∃ x z, labels !! i
              = Some (Text x (if Nat.even i then dec 95 10 else dec 62 10)
                        (LNum (Scalar z)) Scol)) ∧
  (dec (A:=Q) 62 10 < dec (A:=Q) 95 10)%Q.
Proof.
  intros Hlen. split; [|reflexivity].
  eexists. split; [apply count_labels_run; exact Hlen|].
  split; [rewrite length_map, length_seq; reflexivity|].
  intros i Hi. rewrite list_lookup_fmap, lookup_seq_lt by exact Hi.
  cbn. eexists _, _. reflexivity.
Qed.

Lemma labels_alternate_witness :
  (∃ labels,
     pk_model.count_labels (A:=Q) "C0"
       (Vec [0; 1; 0; 1; 0; 1; 0; 1; 2; 2; 2; 2; 2; 2; 2]%Z) pyplot_init
     = (Ok (), drawn labels pyplot_init) ∧
     length labels = 15 ∧
     ∀ i, i < 15 →
       ∃ x z, labels !! i
              = Some (Text x (if Nat.even i then dec 95 10 else dec 62 10)
                        (LNum (Scalar z)) "C0")) ∧
  (dec (A:=Q) 62 10 < dec (A:=Q) 95 10)%Q.
Proof.
  apply (labels_alternate (A:=Q) "C0"
           [0; 1; 0; 1; 0; 1; 0; 1; 2; 2; 2; 2; 2; 2; 2]%Z pyplot_init).
  cbn. lia.
Defined.

(** ** C3: the colours of the boxes *)

Section Boxes.
Context {A : Type} `{Num A}.

Lemma boxplot_data_vecs (vs : list (list A)) :
  vs ≠ [] → boxplot_data (map Vec vs) = Ok vs.
Proof.
  destruct vs as [|v vs]; [done|]. intros _. cbn.
  assert (Hmat : existsb is_mat (map Vec vs) = false).
  { induction vs as [|w vs IH]; [reflexivity|exact IH]. }
  rewrite Hmat. f_equal. f_equal.
  induction vs as [|w vs IH]; [reflexivity|]. cbn. f_equal.
  apply IH. exact Hmat.
Qed.

Lemma boxplot_run (X : list (ndarray A)) (data : list (list A)) s :
  boxplot_data X = Ok data →
  boxplot X s
  = (Ok (seq (length (artists (gcf s).1)) (length data)),
     drawn (map (fun d => BoxPatch d None) data) s).
Proof.
  intros Hdata. unfold boxplot, drawn. rewrite Hdata.
  destruct (gcf s) as [f fs]. cbn. rewrite map_map. reflexivity.
Qed.

(** Painting the boxes that follow [pre] in the current figure, in
    step with the colours [cols]: box [i] takes [cols !! i], and a box
    beyond the colours stays as it is. *)
Lemma paint_boxes_run (ax : axes_id) (pre : list (axes_id * artist A))
    (data : list (list A)) (cols : list color) fs sh :
  for_ (zip (seq (length pre) (length data)) cols)
       (fun pc => set_facecolor (A:=A) pc.1 pc.2)
       (Pyplot (Figure ax (pre ++ map (pair ax) (map (fun d => BoxPatch d None) data)) :: fs) sh)
  = (Ok (),
     Pyplot (Figure ax (pre ++ map (pair ax) (imap (fun i d => BoxPatch d (cols !! i)) data)) :: fs) sh).
Proof.
  revert pre cols. induction data as [|d data IH]; intros pre cols.
  - reflexivity.
  - destruct cols as [|c cols].
    + cbn [length seq zip zip_with for_]. do 6 f_equal.
      rewrite (imap_ext _ (fun _ d => BoxPatch d None)) by reflexivity.
      symmetry. apply (imap_const (fun d => BoxPatch d None)).
    + cbn [length seq zip zip_with for_ map imap].
      unfold mbind at 1, st_bind, set_facecolor at 1. cbn [gcf open_figs fst snd gca artists shown].
      replace (alter _ (length pre) _)
        with ((pre ++ [(ax, BoxPatch d (Some c))])
              ++ map (pair ax) (map (fun d => BoxPatch d None) data)).
      2:{ rewrite <- (Nat.add_0_r (length pre)), alter_app_r.
          rewrite <- app_assoc. reflexivity. }
      replace (S (length pre)) with (length (pre ++ [(ax, BoxPatch d (Some c))]))
        by (rewrite length_app; cbn; lia).
      rewrite IH, <- app_assoc. reflexivity.
Qed.

Lemma colored_boxplot_run (X : list (ndarray A)) (data : list (list A))
    (bp_cols : list color) s :
  boxplot_data X = Ok data →
  (bp ← boxplot X; for_ (zip bp bp_cols) (fun pc => set_facecolor pc.1 pc.2)) s
  = (Ok (), drawn (imap (fun i d => BoxPatch d (bp_cols !! i)) data) s).
Proof.
  intros Hdata. erewrite bind_ok by (apply boxplot_run; exact Hdata).
  unfold drawn. destruct (gcf s) as [[ax pre] fs]. cbn [gca artists fst].
  apply paint_boxes_run.
Qed.

Lemma facecolors_boxes (ax : axes_id) (g : nat → option color)
    (data : list (list A)) :
  facecolors (Figure ax (map (pair ax) (imap (fun i d => BoxPatch d (g i)) data)))
  = map g (seq 0 (length data)).
Proof.
  unfold facecolors. cbn [artists]. revert g.
  induction data as [|d data IH]; intros g; [reflexivity|].
  cbn [length seq map imap]. rewrite <- seq_shift, map_map.
  rewrite <- (IH (fun i => g (S i))). reflexivity.
Qed.

Lemma facecolors_drawn_boxes (data : list (list A)) (cols : list color) s :
  current_facecolors (drawn (imap (fun i d => BoxPatch d (cols !! i)) data) s)
  = current_facecolors s ++ map (fun i => cols !! i) (seq 0 (length data)).
Proof.
  unfold current_facecolors, drawn.
  destruct (gcf s) as [[ax pre] fs]. cbn [gcf open_figs fst artists gca].
  rewrite <- (facecolors_boxes ax (fun i => cols !! i) data).
  unfold facecolors. cbn [artists]. apply omap_app.
Qed.
End Boxes.

(** C3.  When a list of summary vectors is drawn as a boxplot and the
    boxes are painted from [bp_cols], box [i] holds vector [i] and is
    given entry [i] of [bp_cols] (a box beyond the end of [bp_cols] keeps
    the colour it had); and two runs on lists of the same length give
    the boxes the same colours, whatever numbers the vectors hold. *)
Theorem boxplot_colors_positional {A : Type} `{Num A} (bp_cols : list color)
    (vs vs' : list (list A)) (s : pyplot A) :
  vs ≠ [] →
  length vs' = length vs →
  (bp ← boxplot (map Vec vs); pk_model.color_boxes bp bp_cols) s
  = (Ok (), drawn (imap (fun i v => BoxPatch v (bp_cols !! i)) vs) s) ∧
  (bp ← boxplot (map Vec vs); geo_model.color_boxes bp bp_cols) s
  = (Ok (), drawn (imap (fun i v => BoxPatch v (bp_cols !! i)) vs) s) ∧
  current_facecolors
    ((bp ← boxplot (map Vec vs'); pk_model.color_boxes bp bp_cols) s).2
  = current_facecolors
    ((bp ← boxplot (map Vec vs); pk_model.color_boxes bp bp_cols) s).2.
Proof.
  intros Hvs Hlen.
  assert (Hvs' : vs' ≠ []) by (destruct vs, vs'; done).
  unfold pk_model.color_boxes, geo_model.color_boxes.
  rewrite !(colored_boxplot_run _ _ _ _ (boxplot_data_vecs _ Hvs)).
  rewrite (colored_boxplot_run _ _ _ _ (boxplot_data_vecs _ Hvs')).
  repeat split. cbn [snd].
  rewrite !facecolors_drawn_boxes, Hlen. reflexivity.
Qed.

Lemma boxplot_colors_positional_witness :
  (bp ← boxplot (map Vec [[1; 2]; [3]; [4; 5; 6]]%Q);
   pk_model.color_boxes bp ["C0"; "C3"]) pyplot_init
  = (Ok (), drawn [BoxPatch [1; 2]%Q (Some "C0"); BoxPatch [3]%Q (Some "C3");
                   BoxPatch [4; 5; 6]%Q None] pyplot_init) ∧
  (bp ← boxplot (map Vec [[1; 2]; [3]; [4; 5; 6]]%Q);
   geo_model.color_boxes bp ["C0"; "C3"]) pyplot_init
  = (Ok (), drawn [BoxPatch [1; 2]%Q (Some "C0"); BoxPatch [3]%Q (Some "C3");
                   BoxPatch [4; 5; 6]%Q None] pyplot_init) ∧
  current_facecolors
    ((bp ← boxplot (map Vec [[7]; [8; 9]; []]%Q);
      pk_model.color_boxes bp ["C0"; "C3"]) pyplot_init).2
  = current_facecolors
    ((bp ← boxplot (map Vec [[1; 2]; [3]; [4; 5; 6]]%Q);
      pk_model.color_boxes bp ["C0"; "C3"]) pyplot_init).2.
Proof.
  apply (boxplot_colors_positional (A:=Q) ["C0"; "C3"]
           [[1; 2]; [3]; [4; 5; 6]]%Q [[7]; [8; 9]; []]%Q pyplot_init);
    [discriminate|reflexivity].
Defined.

(** Figure 2 of pk_model.py: nine boxes, coloured by method. *)
Lemma figure_2_facecolors {A : Type} `{Num A} (Scol Acol Mcol Mcol2 : color)
    (m2_ph2 m1_ph2 s_ph2 a_ph2 m2 m1 sv a init : list A) (unif : ndarray A)
    (s : pyplot A) :
  ∃ f,
    pk_model.figure_2 Scol Acol Mcol Mcol2 (Vec m2_ph2) (Vec m1_ph2) (Vec s_ph2)
      (Vec a_ph2) (Vec m2) (Vec m1) (Vec sv) (Vec a) (Vec init) unif s
    = (Ok (), Pyplot [] (shown s ++ reverse (open_figs s) ++ [f])) ∧
    facecolors f
    = map Some [Mcol2; Mcol; Scol; Acol; Mcol2; Mcol; Scol; Acol; "lightsteelblue"].
Proof.
  eexists. split.
  - unfold pk_model.figure_2, pk_model.color_boxes. plt_run.
    rewrite reverse_cons. reflexivity.
  - reflexivity.
Qed.

(** Figure 7a of geo_model.py: two boxes, SGO-FIG then ACE. *)
Lemma figure_7a_facecolors {A : Type} `{Num A} (Scol Acol : color)
    (n m : nat) (tr_sgd tr_ace : list (list A)) (s : pyplot A) :
  0 < n → 0 < m →
  ∃ f,
    geo_model.figure_7a Scol Acol (Mat n tr_sgd) (Mat m tr_ace) s
    = (Ok (), Pyplot [] (shown s ++ reverse (open_figs s) ++ [f])) ∧
    facecolors f = [Some Scol; Some Acol].
Proof.
  intros Hn Hm. eexists. split.
  - unfold geo_model.figure_7a, geo_model.color_boxes, getcol_last.
    rewrite !decide_True by lia. plt_run.
    rewrite reverse_cons. reflexivity.
  - reflexivity.
Qed.

(** ** C4: the trace overlays *)

Section Transpose.
Context {A : Type}.

Lemma column_lookup (n j k : nat) (rows : list (list A)) :
  Forall (fun r => length r = n) rows → j < n →
  column j rows !! k = rows !! k ≫= (fun r => r !! j).
Proof.
  intros Hwf Hj. revert k.
  induction Hwf as [|r rows Hr _ IH]; intros k; [reflexivity|].
  unfold column in *. cbn [omap list_omap].
  destruct (lookup_lt_is_Some_2 r j) as [v Hv]; [lia|]. rewrite Hv.
  destruct k as [|k]; [cbn; rewrite Hv; reflexivity|]. cbn. apply IH.
Qed.

Lemma length_column (n j : nat) (rows : list (list A)) :
  Forall (fun r => length r = n) rows → j < n →
  length (column j rows) = length rows.
Proof.
  intros Hwf Hj. induction Hwf as [|r rows Hr _ IH]; [reflexivity|].
  unfold column in *. cbn [omap list_omap].
  destruct (lookup_lt_is_Some_2 r j) as [v Hv]; [lia|]. rewrite Hv.
  cbn. rewrite IH. reflexivity.
Qed.

Lemma omap_lookup_seq (r : list A) :
  omap (fun j => r !! j) (seq 0 (length r)) = r.
Proof.
  induction r as [|x r IH]; [reflexivity|].
  cbn [length seq omap list_omap]. cbn [lookup list_lookup]. f_equal.
  rewrite <- seq_shift. rewrite <- IH at 2.
  generalize (seq 0 (length r)). intros l.
  induction l as [|i l IHl]; [reflexivity|].
  cbn. destruct (r !! i); [f_equal|]; apply IHl.
Qed.

(** Column [k] of the transpose is row [k]. *)
Lemma column_transpose (n k : nat) (rows : list (list A)) (r : list A) :
  Forall (fun r => length r = n) rows → rows !! k = Some r →
  column k (map (fun j => column j rows) (seq 0 n)) = r.
Proof.
  intros Hwf Hk.
  assert (Hr : length r = n).
  { rewrite Forall_lookup in Hwf. exact (Hwf k r Hk). }
  rewrite <- (omap_lookup_seq r) at 1. rewrite Hr.
  unfold column at 1.
  assert (Hin : Forall (fun j => j < n) (seq 0 n)).
  { apply Forall_forall. intros j Hj. apply elem_of_seq in Hj. lia. }
  induction Hin as [|j l Hj _ IH]; [reflexivity|].
  cbn [map omap list_omap].
  rewrite (column_lookup n j k rows Hwf Hj), Hk. cbn.
  destruct (r !! j); [f_equal|]; apply IH.
Qed.

Lemma columns_transpose (n : nat) (rows : list (list A)) {B} (g : list A → B) :
  Forall (fun r => length r = n) rows →
  map (fun k => g (column k (map (fun j => column j rows) (seq 0 n))))
      (seq 0 (length rows))
  = map g rows.
Proof.
  intros Hwf. apply list_eq. intros k.
  rewrite !list_lookup_fmap.
  destruct (rows !! k) as [r|] eqn:Hk.
  - rewrite lookup_seq_lt by (apply lookup_lt_Some in Hk; exact Hk).
    cbn. rewrite (column_transpose n k rows r Hwf Hk). reflexivity.
  - rewrite lookup_seq_ge by (apply lookup_ge_None in Hk; lia). reflexivity.
Qed.
End Transpose.

Section Overlay.
Context {A : Type} `{Num A}.

Lemma plot_transpose_run (xs : list A) (n : nat) (rows : list (list A))
    (c : color) (alpha : A) s :
  Forall (fun r => length r = n) rows → length xs = n →
  plot_xy xs (transpose (Mat n rows)) c (Some alpha) s
  = (Ok (), drawn (overlay xs c alpha rows) s).
Proof.
  intros Hwf Hxs. cbn [transpose plot_xy].
  rewrite length_map, length_seq, decide_True by exact Hxs.
  unfold draw_all, overlay.
  rewrite (columns_transpose n rows (fun r => Line2D xs r c (Some alpha)) Hwf).
  reflexivity.
Qed.

End Overlay.

(** C4, as the code has it.  In figure 7b of geo_model.py and in figure 3
    of pk_model.py every row of a loaded trace matrix is drawn as a line
    of its own; the lines of one method share one colour, one opacity
    below 1 (0.05, 0.2, 0.1) and one x-vector, the [np.linspace] from 0 to
    the evaluation count of the method with one entry per column. *)
Theorem trace_overlays {A : Type} `{Num A} (col : list color)
    (Scol Acol c5 : color) (f_sgd f_ace : file A) (n m : nat)
    (tr_sgd tr_ace : list (list A)) (s : pyplot A) :
  loadtxt_contents f_sgd = Ok (Mat n tr_sgd) →
  loadtxt_contents f_ace = Ok (Mat m tr_ace) →
  col !! 5 = Some c5 →
  open_figs s = [] →
  geo_model.figure_7b col Scol Acol (Mat n tr_sgd) (Mat m tr_ace) s
  = (Ok (),
     Pyplot [] (shown s ++
       [Figure (1, 1, 1) (map (pair (1, 1, 1))
          (RefLine false (dec 2037012 100000) (Some c5)
           :: overlay (linspace (of_Z 0) (of_Z 50000) n) Scol (dec 5 100) tr_sgd
           ++ overlay (linspace (of_Z 0) (of_Z 85000) m) Acol (dec 5 100) tr_ace))])) ∧
  pk_model.figure_3 Scol Acol (Mat n tr_sgd) (Mat m tr_ace) s
  = (Ok (),
     Pyplot [] (shown s ++
       [Figure (1, 1, 1) (map (pair (1, 1, 1))
          (overlay (linspace (of_Z 0) (of_Z 18700000) m) Acol (dec 2 10) tr_ace));
        Figure (1, 1, 1) (map (pair (1, 1, 1))
          (overlay (linspace (of_Z 0) (of_Z 18700000) n) Scol (dec 1 10) tr_sgd))])) ∧
  (dec (A:=Q) 5 100 < 1 ∧ dec (A:=Q) 2 10 < 1 ∧ dec (A:=Q) 1 10 < 1)%Q.
Proof.
  intros Hsgd Hace Hc5 Hopen.
  apply loadtxt_contents_Mat in Hsgd as (-> & Hrs & Hwfs).
  apply loadtxt_contents_Mat in Hace as (-> & Hra & Hwfa).
  destruct s as [op sh]. cbn in Hopen. subst op.
  split; [|split; [|repeat split]].
  - destruct f_sgd as [|s0 f_sgd]; [cbn in Hrs; lia|].
    destruct f_ace as [|a0 f_ace]; [cbn in Hra; lia|].
    pose proof (Forall_inv Hwfs) as Hs0. pose proof (Forall_inv Hwfa) as Ha0.
    cbn beta in Hs0, Ha0.
    assert (Hxs : geo_model.x_sgd (Mat n (s0 :: f_sgd))
                  = Ok (linspace (of_Z 0) (of_Z 50000) n))
      by (unfold geo_model.x_sgd; cbn; rewrite Hs0; reflexivity).
    assert (Hxa : geo_model.x_ace (Mat m (a0 :: f_ace))
                  = Ok (linspace (of_Z 0) (of_Z 85000) m))
      by (unfold geo_model.x_ace; cbn; rewrite Ha0; reflexivity).
    unfold geo_model.figure_7b, palette_get.
    rewrite Hc5, Hxs, Hxa. rewrite !bind_lift_ok.
    erewrite bind_ok by (unfold axhline, draw, draw_all; reflexivity).
    erewrite bind_ok by (apply plot_transpose_run; [exact Hwfs|apply length_linspace]).
    erewrite bind_ok by (apply plot_transpose_run; [exact Hwfa|apply length_linspace]).
    rewrite !drawn_app. unfold drawn. plt_run.
    rewrite !map_app. reflexivity.
  - unfold pk_model.figure_3.
    change (pk_model.x_ace18 (Mat m f_ace))
      with (Ok (linspace (A:=A) (of_Z 0) (of_Z 18700000) m)).
    change (pk_model.x_sgd18 (Mat n f_sgd))
      with (Ok (linspace (A:=A) (of_Z 0) (of_Z 18700000) n)).
    rewrite !bind_lift_ok.
    erewrite bind_ok by (apply plot_transpose_run; [exact Hwfa|apply length_linspace]).
    erewrite bind_ok by (unfold show; reflexivity).
    rewrite bind_lift_ok.
    erewrite bind_ok by (apply plot_transpose_run; [exact Hwfs|apply length_linspace]).
    unfold drawn. plt_run. rewrite <- app_assoc. reflexivity.
Qed.

Lemma trace_overlays_witness :
  geo_model.figure_7b (A:=Q) tab10 "#1f77b4" "#d62728"
    (Mat 3 two_traces) (Mat 3 two_traces) pyplot_init
  = (Ok (),
     Pyplot [] (shown pyplot_init ++
       [Figure (1, 1, 1) (map (pair (1, 1, 1))
          (RefLine false (dec 2037012 100000) (Some "#8c564b")
           :: overlay (linspace (of_Z 0) (of_Z 50000) 3) "#1f77b4" (dec 5 100) two_traces
           ++ overlay (linspace (of_Z 0) (of_Z 85000) 3) "#d62728" (dec 5 100) two_traces))])) ∧
  pk_model.figure_3 (A:=Q) "#1f77b4" "#d62728"
    (Mat 3 two_traces) (Mat 3 two_traces) pyplot_init
  = (Ok (),
     Pyplot [] (shown pyplot_init ++
       [Figure (1, 1, 1) (map (pair (1, 1, 1))
          (overlay (linspace (of_Z 0) (of_Z 18700000) 3) "#d62728" (dec 2 10) two_traces));
        Figure (1, 1, 1) (map (pair (1, 1, 1))
          (overlay (linspace (of_Z 0) (of_Z 18700000) 3) "#1f77b4" (dec 1 10) two_traces))])) ∧
  (dec (A:=Q) 5 100 < 1 ∧ dec (A:=Q) 2 10 < 1 ∧ dec (A:=Q) 1 10 < 1)%Q.
Proof.
  apply (trace_overlays (A:=Q) tab10 "#1f77b4" "#d62728" "#8c564b"
           two_traces two_traces 3 3 two_traces two_traces pyplot_init);
    reflexivity.
Defined.

(** Figure 1b of death_model.py is drawn otherwise: eleven lines for
    twelve rows, over the column indices 0 and 1, opaque, and in a colour
    that changes from line to line. *)
Example figure_1b_twelve_traces :
  ∃ f, death_model.figure_1b tab10 death_data pyplot_init = (Ok (), Pyplot [] [f]) ∧
       take 3 (lines f)
       = [Line2D [0; 1] [1; 2] "#ff7f0e" None;
          Line2D [0; 1] [3; 4] "#2ca02c" None;
          Line2D [0; 1] [5; 6] "#d62728" None]%Q ∧
       length (lines f) = 11.
Proof. eexists. split; [vm_compute; reflexivity|]. split; reflexivity. Qed.

(** C4 fails as stated: the figure drawn for these twelve traces is not an
    overlay of its rows, nor of the eleven rows that are drawn. *)
Lemma death_traces_not_overlay :
  ∃ f, death_model.figure_1b tab10 death_data pyplot_init = (Ok (), Pyplot [] [f]) ∧
       ¬ is_trace_overlay twelve_traces f ∧
       ¬ is_trace_overlay (take 11 twelve_traces) f.
Proof.
  eexists. split; [vm_compute; reflexivity|].
  split; intros (xs & c & alpha & Heq); vm_compute in Heq; discriminate Heq.
Qed.

(** ** C6: the sweep over a directory *)

Section Sweep.
Context {A : Type} `{Num A}.
Variable fs : gmap string (file A).

Lemma loadtxt_Mat_wf (path : string) (n : nat) (rows : list (list A)) :
  loadtxt fs path = Ok (Mat n rows) → Forall (fun r => length r = n) rows.
Proof.
  unfold loadtxt. destruct (fs !! path) as [f|]; [|discriminate].
  intros Hload. apply loadtxt_contents_Mat in Hload. apply Hload.
Qed.

Lemma sweep_file_run (files : list string) (i : nat) (name : string)
    (n : nat) (rows : list (list A)) (sh : list (figure A)) :
  files !! i = Some name →
  loadtxt fs (sweep_path name) = Ok (Mat n rows) → 2 ≤ n →
  geo_model.sweep_file fs files i (Pyplot [] sh)
  = (Ok (), Pyplot [] (sh ++ [scatter_figure rows])).
Proof.
  intros Hi Hload Hn. pose proof (loadtxt_Mat_wf _ _ _ Hload) as Hwf.
  unfold geo_model.sweep_file. rewrite Hi, bind_lift_ok.
  fold (sweep_path name). rewrite Hload, bind_lift_ok.
  unfold getcol. rewrite !decide_True by lia. rewrite !bind_lift_ok.
  unfold scatter. cbn [size].
  rewrite decide_True
    by (rewrite (length_column n 0), (length_column n 1) by (done || lia); done).
  reflexivity.
Qed.

Lemma sweep_loop (l1 l2 : list string) (sh : list (figure A)) :
  Forall (point_set fs) l2 →
  ∃ figs,
    for_ (seq (length l1) (length l2)) (geo_model.sweep_file fs (l1 ++ l2))
         (Pyplot [] sh)
    = (Ok (), Pyplot [] (sh ++ figs)) ∧
    Forall2 (figure_of fs) l2 figs.
Proof.
  intros Hall. revert l1 sh.
  induction Hall as [|name l2 (n & rows & Hload & Hn) _ IH]; intros l1 sh.
  - exists []. rewrite !app_nil_r. split; [reflexivity|constructor].
  - destruct (IH (l1 ++ [name]) (sh ++ [scatter_figure rows])) as (figs & Hrun & Hfigs).
    exists (scatter_figure rows :: figs). split.
    + cbn [length seq for_].
      erewrite bind_ok.
      2:{ apply (sweep_file_run _ _ name n rows); [|exact Hload|exact Hn].
          rewrite lookup_app_r, Nat.sub_diag by lia. reflexivity. }
      rewrite <- app_assoc in Hrun. cbn [app] in Hrun.
      rewrite length_app, Nat.add_1_r in Hrun.
      rewrite Hrun, <- app_assoc. reflexivity.
    + constructor; [exists n, rows; split; [exact Hload|reflexivity]|exact Hfigs].
Qed.
End Sweep.

(** C6, as the code has it.  When every file of the sweep directory loads
    as a matrix with at least two columns, the sweep displays one figure
    per file, in the order of the listing, each holding the scatter of
    that file alone; and a directory with one such file more displays
    one figure more. *)
Theorem sweep_one_figure_per_file {A : Type} `{Num A}
    (fs fs' : gmap string (file A)) (dirs dirs' : gmap string (list string))
    (names names' : list string) (extra : string) (s : pyplot A) :
  dirs !! "../data/geo_model/change_l_gamma" = Some names →
  Forall (point_set fs) names →
  dirs' !! "../data/geo_model/change_l_gamma" = Some names' →
  Forall (point_set fs') names' →
  names' ≡ₚ extra :: names →
  open_figs s = [] →
  (∃ figs,
     geo_model.sweep fs dirs s = (Ok (), Pyplot [] (shown s ++ figs)) ∧
     length figs = length names ∧
     Forall2 (figure_of fs) names figs) ∧
  figure_count (geo_model.sweep fs' dirs' s)
  = S (figure_count (geo_model.sweep fs dirs s)).
Proof.
  intros Hdir Hall Hdir' Hall' Hperm Hopen.
  destruct s as [op sh]. cbn in Hopen. subst op.
  destruct (sweep_loop fs [] names sh Hall) as (figs & Hrun & Hfigs).
  destruct (sweep_loop fs' [] names' sh Hall') as (figs' & Hrun' & Hfigs').
  assert (Hsweep : geo_model.sweep fs dirs (Pyplot [] sh)
                   = (Ok (), Pyplot [] (sh ++ figs))).
  { unfold geo_model.sweep, geo_model.listdir. rewrite Hdir, bind_lift_ok.
    exact Hrun. }
  assert (Hsweep' : geo_model.sweep fs' dirs' (Pyplot [] sh)
                    = (Ok (), Pyplot [] (sh ++ figs'))).
  { unfold geo_model.sweep, geo_model.listdir. rewrite Hdir', bind_lift_ok.
    exact Hrun'. }
  split.
  - exists figs. split; [exact Hsweep|].
    split; [symmetry; exact (Forall2_length _ _ _ Hfigs)|exact Hfigs].
  - rewrite Hsweep, Hsweep'. unfold figure_count. cbn [snd shown].
    rewrite !length_app.
    rewrite <- (Forall2_length _ _ _ Hfigs), <- (Forall2_length _ _ _ Hfigs').
    rewrite (Permutation_length Hperm). cbn. lia.
Qed.

Lemma sweep_data_point_sets :
  Forall (point_set sweep_data) ["l2_g1.txt"; "l1_g1.txt"].
Proof.
  repeat constructor; eexists _, _; (split; [vm_compute; reflexivity|lia]).
Defined.

Lemma sweep_one_figure_per_file_witness :
  (∃ figs,
     geo_model.sweep sweep_data sweep_dir_1 pyplot_init
     = (Ok (), Pyplot [] (shown pyplot_init ++ figs)) ∧
     length figs = length ["l1_g1.txt"] ∧
     Forall2 (figure_of sweep_data) ["l1_g1.txt"] figs) ∧
  figure_count (geo_model.sweep sweep_data sweep_dir_2 pyplot_init)
  = S (figure_count (geo_model.sweep sweep_data sweep_dir_1 pyplot_init)).
Proof.
  apply (sweep_one_figure_per_file (A:=Q) sweep_data sweep_data
           sweep_dir_1 sweep_dir_2 ["l1_g1.txt"] ["l2_g1.txt"; "l1_g1.txt"]
           "l2_g1.txt" pyplot_init).
  - vm_compute. reflexivity.
  - exact (Forall_inv_tail sweep_data_point_sets).
  - vm_compute. reflexivity.
  - exact sweep_data_point_sets.
  - reflexivity.
  - reflexivity.
Defined.

(** C6 fails as stated: a directory whose one file holds a single point.
    [np.loadtxt] reads the file as a vector, [x[:,0]] raises, and no
    figure is displayed for the one file. *)
Lemma sweep_single_point_no_figure :
  sweep_dir_1 !! "../data/geo_model/change_l_gamma" = Some ["l1_g1.txt"] ∧
  geo_model.sweep one_point_data sweep_dir_1 pyplot_init
  = (Raise IndexError, pyplot_init) ∧
  figure_count (geo_model.sweep one_point_data sweep_dir_1 pyplot_init) = 0.
Proof. vm_compute. repeat split. Qed.

(** ** C7: too few columns *)

Section TooFewColumns.
Context {A : Type} `{Num A}.

(** A file with fewer than two columns does not load, or loads as an
    array that has no column to take. *)
Lemma narrow_file_no_column (f : file A) :
  file_columns f < 2 →
  loadtxt_contents f = Raise ValueError ∨
  ∃ a, loadtxt_contents f = Ok a ∧ ∀ k, getcol a k = Raise IndexError.
Proof.
  intros Hc. destruct f as [|r0 rest]; cbn in *.
  - right. eexists. split; reflexivity.
  - destruct (rectangular (length r0) rest); [right|left; reflexivity].
    destruct r0 as [|x [|y r0]]; [| |cbn in Hc; lia];
      destruct rest; eexists; (split; [reflexivity|]); intros k; reflexivity.
Qed.
End TooFewColumns.

(** C7.  A file with fewer than two columns stops the script at the plot
    call that takes its columns 0 and 1, with an exception and before the
    figure is displayed: in the sweep of geo_model.py nothing is drawn or
    displayed for the file, and in figure 1a of death_model.py nothing is
    displayed. *)
Theorem narrow_file_fails_fast {A : Type} `{Num A} (col : list color)
    (fs : gmap string (file A)) (files : list string) (i : nat)
    (name : string) (f : file A) (s : pyplot A) :
  file_columns f < 2 →
  files !! i = Some name →
  fs !! ("../data/geo_model/change_l_gamma/" +:+ name) = Some f →
  fs !! "../data/death_model/simpledeath_1d_util.txt" = Some f →
  (∃ e, geo_model.sweep_file fs files i s = (Raise e, s)) ∧
  (∃ e s', death_model.figure_1a col fs s = (Raise e, s') ∧
           shown s' = shown s).
Proof.
  intros Hc Hi Hf Hf'. split.
  - unfold geo_model.sweep_file, loadtxt.
    rewrite Hi, bind_lift_ok, Hf.
    destruct (narrow_file_no_column f Hc) as [->|(a & -> & Hcol)].
    + eexists. reflexivity.
    + rewrite bind_lift_ok, (Hcol 0). eexists. reflexivity.
  - unfold death_model.figure_1a, loadtxt. rewrite Hf'.
    destruct (narrow_file_no_column f Hc) as [->|(a & -> & Hcol)].
    + eexists _, _. split; reflexivity.
    + rewrite bind_lift_ok.
      destruct (palette_get col 0) as [c0|e]; [|eexists _, _; split; reflexivity].
      rewrite bind_lift_ok.
      erewrite bind_ok by (unfold axvline, draw, draw_all; reflexivity).
      rewrite (Hcol 0). eexists _, _. split; [reflexivity|apply shown_drawn].
Qed.

Lemma narrow_file_fails_fast_witness :
  (∃ e, geo_model.sweep_file one_column_data ["l1_g1.txt"] 0 pyplot_init
        = (Raise e, pyplot_init)) ∧
  (∃ e s', death_model.figure_1a tab10 one_column_data pyplot_init = (Raise e, s') ∧
           shown s' = shown pyplot_init).
Proof.
  apply (narrow_file_fails_fast (A:=Q) tab10 one_column_data ["l1_g1.txt"] 0
           "l1_g1.txt" one_column pyplot_init).
  - cbn. lia.
  - reflexivity.
  - vm_compute. reflexivity.
  - vm_compute. reflexivity.
Defined.

(** What the two scripts do on the one-column file *)
Example one_column_runs :
  geo_model.sweep_file one_column_data ["l1_g1.txt"] 0 pyplot_init
  = (Raise IndexError, pyplot_init) ∧
  death_model.figure_1a tab10 one_column_data pyplot_init
  = (Raise IndexError,
     drawn [RefLine true (dec 161 100) (Some "#1f77b4")] pyplot_init).
Proof. vm_compute. split; reflexivity. Qed.

(** ** C8: running a script again *)

Section Rerun.
Context {A : Type} `{Num A}.

Lemma unchanged_insert (paths : list string) (fs : gmap string (file A))
    (p : string) (f : file A) :
  p ∉ paths → unchanged paths fs (<[p := f]> fs).
Proof.
  intros Hp. apply Forall_forall. intros q Hq.
  rewrite lookup_insert_ne; [reflexivity|]. intros ->. exact (Hp Hq).
Qed.

Lemma for_ext {T} (l : list T) (body body' : T → plt A ()) :
  Forall (fun x => ∀ s, body x s = body' x s) l →
  ∀ s, for_ l body s = for_ l body' s.
Proof.
  induction 1 as [|x l Hx _ IH]; intros s; [reflexivity|].
  cbn [for_]. unfold mbind, st_bind. rewrite Hx.
  destruct (body' x s) as [[[]|e] s']; [apply IH|reflexivity].
Qed.

Lemma sweep_file_unchanged (fs fs' : gmap string (file A))
    (files : list string) (i : nat) (s : pyplot A) :
  unchanged (map sweep_path files) fs fs' →
  geo_model.sweep_file fs files i s = geo_model.sweep_file fs' files i s.
Proof.
  intros Hsame. unfold geo_model.sweep_file.
  destruct (files !! i) as [name|] eqn:Hi; [|reflexivity].
  rewrite !bind_lift_ok. unfold loadtxt.
  unfold unchanged in Hsame. rewrite Forall_fmap, Forall_lookup in Hsame.
  specialize (Hsame i name Hi). cbn in Hsame. unfold sweep_path in Hsame.
  rewrite Hsame. reflexivity.
Qed.
End Rerun.

(** C8.  What a script computes and draws is determined by its colour
    cycle, the listing of the sweep directory and the contents of the
    files it reads: two runs that find the same contents in those files
    end in the same way and with the same figures, and so with the same
    x-vectors and the same threshold counts. *)
Theorem rerun_same_data {A : Type} `{Num A} (col : list color)
    (dirs : gmap string (list string)) (fs fs' : gmap string (file A))
    (s : pyplot A) :
  unchanged (pk_inputs ++ geo_inputs dirs ++ death_inputs) fs fs' →
  pk_model.main col fs s = pk_model.main col fs' s ∧
  geo_model.main col fs dirs s = geo_model.main col fs' dirs s ∧
  death_model.main col fs s = death_model.main col fs' s.
Proof.
  intros Hsame. unfold unchanged in Hsame.
  apply Forall_app in Hsame as [Hpk Hsame].
  apply Forall_app in Hsame as [Hgeo Hdeath].
  split; [|split].
  - unfold pk_model.main, pk_model.load, loadtxt, pk_inputs in *.
    same_reads Hpk. reflexivity.
  - unfold geo_inputs in Hgeo.
    apply Forall_app in Hgeo as [Hgeo Hsweep].
    assert (Hloop : ∀ s, geo_model.sweep fs dirs s = geo_model.sweep fs' dirs s).
    { intros s0. unfold geo_model.sweep, geo_model.listdir.
      destruct (dirs !! "../data/geo_model/change_l_gamma") as [names|];
        [|reflexivity].
      rewrite !bind_lift_ok. apply for_ext. apply Forall_forall.
      intros i _ s1. apply sweep_file_unchanged. exact Hsweep. }
    unfold geo_model.main, loadtxt.
    same_reads Hgeo.
    do 6 (apply bind_ext; intros).
    apply Hloop.
  - unfold death_model.main, death_model.figure_1a, death_model.figure_1b,
      loadtxt, death_inputs in *.
    same_reads Hdeath. reflexivity.
Qed.

Lemma rerun_same_data_witness :
  pk_model.main tab10 rerun_data pyplot_init
  = pk_model.main tab10 rerun_data' pyplot_init ∧
  geo_model.main tab10 rerun_data sweep_dir_1 pyplot_init
  = geo_model.main tab10 rerun_data' sweep_dir_1 pyplot_init ∧
  death_model.main tab10 rerun_data pyplot_init
  = death_model.main tab10 rerun_data' pyplot_init.
Proof.
  apply (rerun_same_data (A:=Q) tab10 sweep_dir_1 rerun_data rerun_data' pyplot_init).
  apply unchanged_insert. apply (bool_decide_unpack _). vm_compute. reflexivity.
Defined.

(** The geo script on this data: two figures of traces, then the sweep *)
Example geo_main_rerun_data :
  ∃ f7a f7b f6,
    geo_model.main tab10 rerun_data sweep_dir_1 pyplot_init
    = (Ok (), Pyplot [] [f7a; f7b; f6]) ∧
    facecolors f7a = [Some "#1f77b4"; Some "#d62728"] ∧
    length (lines f7b) = 4 ∧
    f6 = scatter_figure [[0; 1]; [1; 0]]%Q.
Proof.
  eexists _, _, _. split; [vm_compute; reflexivity|]. repeat split.
Qed.

(** ** C10: the x-coordinates of the design scatters *)

Lemma concat_lookup {A} (n r c : nat) (rows : list (list A)) (row : list A) (v : A) :
  Forall (fun r => length r = n) rows →
  rows !! r = Some row → row !! c = Some v →
  concat rows !! (r * n + c) = Some v.
Proof.
  intros Hwf. revert r.
  induction Hwf as [|r0 rows Hr0 _ IH]; intros r Hr Hc; [discriminate|].
  destruct r as [|r]; cbn [concat].
  - injection Hr as ->. rewrite lookup_app_l by (apply lookup_lt_Some in Hc; lia).
    exact Hc.
  - cbn in Hr. rewrite lookup_app_r by lia.
    replace (S r * n + c - length r0) with (r * n + c) by lia.
    apply IH; assumption.
Qed.

(** The matrix of x-coordinates: a hundred rows, each [1, 2, ..., 15] *)
Lemma x_matrix : pk_model.x = Ok (Mat 15 (replicate 100 (arange 1 16))).
Proof. vm_compute. reflexivity. Qed.

(** C10.  The x-coordinates of the design scatters are built from no
    file: a matrix of 100 rows and 15 columns whose column [c] holds
    [c + 1] throughout.  Against a design matrix of 100 rows and 15
    columns every value is plotted at its observation index, the value of
    row [r] and column [c] at x = [c + 1]; a design matrix with another
    number of entries is refused by the scatter call. *)
Theorem design_x_coordinates {A : Type} `{Num A} (c : color)
    (rows : list (list A)) (s : pyplot A) :
  Forall (fun r => length r = 15) rows →
  length rows = 100 →
  ∃ xm,
    pk_model.x = Ok (Mat 15 xm) ∧
    length xm = 100 ∧
    (∀ r k, r < 100 → k < 15 →
       xm !! r ≫= (fun row => row !! k) = Some (Z.of_nat k + 1)%Z) ∧
    (∃ xs ys,
       pk_model.design_scatter (Mat 15 xm) (Mat 15 rows) c s
       = (Ok (), drawn [PathCollection xs ys (Some c) (Some (dec 5 100))] s) ∧
       ∀ r k row v, rows !! r = Some row → row !! k = Some v →
         xs !! (r * 15 + k) = Some (of_Z (Z.of_nat k + 1)) ∧
         ys !! (r * 15 + k) = Some v) ∧
    (∀ d : ndarray A, size d ≠ 1500 →
       pk_model.design_scatter (Mat 15 xm) d c s = (Raise ValueError, s)).
Proof.
  intros Hwf Hlen. exists (replicate 100 (arange 1 16)).
  assert (Hx : ∀ r k, r < 100 → k < 15 →
            replicate 100 (arange 1 16) !! r = Some (arange 1 16) ∧
            arange 1 16 !! k = Some (Z.of_nat k + 1)%Z).
  { intros r k Hr Hk. split; [apply lookup_replicate_2; exact Hr|].
    unfold arange. rewrite list_lookup_fmap, lookup_seq_lt by (cbn; lia).
    cbn. f_equal. lia. }
  split; [exact x_matrix|]. split; [apply length_replicate|]. split; [|split].
  - intros r k Hr Hk. destruct (Hx r k Hr Hk) as [-> Hk']. exact Hk'.
  - unfold pk_model.design_scatter, scatter. cbn [amap size].
    rewrite length_map, length_replicate, Hlen, decide_True by reflexivity.
    eexists _, _. split; [reflexivity|].
    intros r k row v Hr Hk.
    assert (Hr' : r < 100) by (apply lookup_lt_Some in Hr; lia).
    assert (Hk' : k < 15).
    { apply lookup_lt_Some in Hk. rewrite Forall_lookup in Hwf.
      rewrite (Hwf r row Hr) in Hk. exact Hk. }
    destruct (Hx r k Hr' Hk') as [Hxr Hxk]. cbn [ravel]. split.
    + apply (concat_lookup 15 r k _ (map of_Z (arange 1 16))).
      * apply Forall_fmap, Forall_forall. intros row' Hrow'.
        apply elem_of_replicate in Hrow' as [-> _]. reflexivity.
      * rewrite list_lookup_fmap, Hxr. reflexivity.
      * rewrite list_lookup_fmap, Hxk. reflexivity.
    + apply (concat_lookup 15 r k rows row v Hwf Hr Hk).
  - intros d Hd. unfold pk_model.design_scatter, scatter. cbn [amap size].
    rewrite length_map, length_replicate, decide_False by (cbn; lia).
    reflexivity.
Qed.

Lemma design_x_coordinates_witness :
  ∃ xm,
    pk_model.x = Ok (Mat 15 xm) ∧
    length xm = 100 ∧
    (∀ r k, r < 100 → k < 15 →
       xm !! r ≫= (fun row => row !! k) = Some (Z.of_nat k + 1)%Z) ∧
    (∃ xs ys,
       pk_model.design_scatter (Mat 15 xm) (Mat 15 hundred_designs) "C0" pyplot_init
       = (Ok (), drawn [PathCollection xs ys (Some "C0") (Some (dec 5 100))] pyplot_init) ∧
       ∀ r k row v, hundred_designs !! r = Some row → row !! k = Some v →
         xs !! (r * 15 + k) = Some (of_Z (Z.of_nat k + 1)) ∧
         ys !! (r * 15 + k) = Some v) ∧
    (∀ d : ndarray Q, size d ≠ 1500 →
       pk_model.design_scatter (Mat 15 xm) d "C0" pyplot_init
       = (Raise ValueError, pyplot_init)).
Proof.
  apply (design_x_coordinates (A:=Q) "C0" hundred_designs pyplot_init).
  - apply Forall_forall. intros row Hrow.
    apply elem_of_replicate in Hrow as [-> _]. reflexivity.
  - reflexivity.
Defined.

(** The scatter call compares sizes only: a design matrix of 150 rows
    and 10 columns is accepted, and its second row is then drawn from
    x = 11 on. *)
Example design_scatter_150_by_10 :
  ∃ xm xs ys,
    pk_model.x = Ok xm ∧
    pk_model.design_scatter (A:=Q) xm (Mat 10 (replicate 150 (replicate 10 7%Q)))
      "C0" pyplot_init
    = (Ok (), drawn [PathCollection xs ys (Some "C0") (Some (dec 5 100))] pyplot_init) ∧
    xs !! 10 = Some 11%Q.
Proof. eexists _, _, _. split; [exact x_matrix|]. split; reflexivity. Qed.

(** ** C9: the loaded array in memory *)

Section StoreFacts.
Context {A : Type} `{Num A}.
Import store.

Lemma fetch_new (h k : heap A) (b : buffer A) :
  fetch (length h) (h ++ b :: k) = (Ok b, h ++ b :: k).
Proof. unfold fetch. rewrite list_lookup_middle by reflexivity. reflexivity. Qed.

Lemma fetch_heap (l : nat) (h : heap A) : (fetch l h).2 = h.
Proof. unfold fetch. destruct (h !! l); reflexivity. Qed.

Lemma fetch_floats_heap (l : nat) (h : heap A) : (fetch_floats l h).2 = h.
Proof.
  unfold fetch_floats, mbind, st_bind, fetch.
  destruct (h !! l) as [[d|d|d]|]; reflexivity.
Qed.

Lemma update_new (h k : heap A) (d : list A) (g : list A → list A) :
  update_floats (length h) g (h ++ Floats d :: k)
  = (Ok (), h ++ Floats (g d) :: k).
Proof.
  unfold update_floats, fetch_floats.
  unfold mbind, st_bind. rewrite fetch_new. cbn.
  unfold overwrite. rewrite insert_app_r_alt, Nat.sub_diag by lia. reflexivity.
Qed.

Lemma fetch_floats_new (h k : heap A) (d : list A) :
  fetch_floats (length h) (h ++ Floats d :: k) = (Ok d, h ++ Floats d :: k).
Proof.
  unfold fetch_floats, mbind, st_bind. rewrite fetch_new. reflexivity.
Qed.

(** [np.linspace] leaves the memory it finds as it is and adds its
    result, which holds what [linspace] computes (and, for [num <= 1],
    the indices it started from). *)
Lemma np_linspace_run (start stop : A) (num : nat) (h : heap A) :
  ∃ scratch,
    np_linspace start stop num h
    = (Ok (Array (length h + length scratch) [num] false),
       h ++ scratch ++ [Floats (linspace start stop num)]).
Proof.
  unfold np_linspace, linspace.
  erewrite bind_ok by reflexivity.
  assert (Hnext : ∀ b : buffer A, length (h ++ [b]) = S (length h))
    by (intros b; rewrite length_app; cbn; lia).
  destruct (decide (0 < num - 1)) as [Hdiv|Hdiv];
    [destruct (neqb _ _)|].
  - exists []. cbn [length app]. rewrite Nat.add_0_r.
    erewrite bind_ok.
    2:{ erewrite bind_ok.
        2:{ erewrite bind_ok by apply (update_new _ []). apply (update_new _ []). }
        reflexivity. }
    erewrite bind_ok by apply (update_new _ []).
    rewrite !map_map.
    destruct (decide (1 < num)); [|lia].
    erewrite bind_ok by apply (update_new _ []). reflexivity.
  - exists []. cbn [length app]. rewrite Nat.add_0_r.
    erewrite bind_ok.
    2:{ erewrite bind_ok by apply (update_new _ []). reflexivity. }
    erewrite bind_ok by apply (update_new _ []).
    destruct (decide (1 < num)); [|lia].
    erewrite bind_ok by apply (update_new _ []). reflexivity.
  - exists [Floats (arange0 num)]. cbn [length app]. rewrite Nat.add_1_r.
    erewrite bind_ok.
    2:{ erewrite bind_ok by apply (fetch_floats_new _ []). reflexivity. }
    rewrite Hnext. rewrite <- (Hnext (Floats (arange0 num))).
    erewrite bind_ok by apply (update_new _ []).
    destruct (decide (1 < num)); [lia|].
    rewrite Hnext, <- app_assoc. reflexivity.
Qed.

Lemma trace_transforms_prefix (total : Z) (a : array) (h : heap A) :
  h `prefix_of` (trace_transforms total a h).2.
Proof.
  unfold trace_transforms.
  destruct (tuple_get (ashape a) 1) as [n|e]; [|reflexivity].
  rewrite bind_lift_ok.
  destruct (np_linspace_run (of_Z 0) (of_Z total) n h) as [scratch Hrun].
  erewrite bind_ok by exact Hrun. cbn. apply prefix_app_r. reflexivity.
Qed.

Lemma np_gt_prefix (a : array) (t : A) (h : heap A) :
  h `prefix_of` (np_gt a t h).2 ∧
  ∀ m h', np_gt a t h = (Ok m, h') → base m = length h ∧ length h < length h'.
Proof.
  unfold np_gt, fetch_floats, mbind, st_bind, fetch.
  destruct (h !! base a) as [[d|d|d]|]; cbn;
    (split; [try reflexivity|intros m h' [= <- <-] || (intros m h'; discriminate)]).
  - apply prefix_app_r. reflexivity.
  - cbn. rewrite length_app. cbn. lia.
Qed.

Lemma np_sum0_prefix (m : array) (h : heap A) :
  h `prefix_of` (np_sum0 m h).2.
Proof.
  unfold np_sum0, mbind, st_bind, fetch.
  destruct (h !! base m) as [[d|d|d]|]; cbn; try reflexivity.
  unfold lift. destruct (view d (ashape m) (transposed m)) as [v|e]; cbn;
    [|reflexivity].
  destruct (sum_axis0 v) as [r|e]; cbn; [|reflexivity].
  apply prefix_app_r. reflexivity.
Qed.

Lemma design_transforms_prefix (d : array) (h : heap A) :
  h `prefix_of` (design_transforms d h).2.
Proof.
  unfold design_transforms. unfold mbind, st_bind.
  pose proof (np_gt_prefix d (of_Z 8) h) as [Hgt _].
  destruct (np_gt d (of_Z 8) h) as [[m|e] h1]; cbn in *; [|exact Hgt].
  etransitivity; [exact Hgt|apply np_sum0_prefix].
Qed.
End StoreFacts.

Section StoreFrame.
Context {A : Type} `{Num A}.
Import store.

Lemma np_loadtxt_run (f : file A) (h h1 : heap A) (a : array) :
  np_loadtxt f h = (Ok a, h1) →
  ∃ v, loadtxt_contents f = Ok v ∧
       a = Array (length h) (shape v) false ∧
       h1 = h ++ [Floats (ravel v)].
Proof.
  unfold np_loadtxt. destruct (loadtxt_contents f) as [v|e]; [|discriminate].
  rewrite bind_lift_ok. cbn. intros [= <- <-]. exists v. repeat split.
Qed.

Lemma np_sum0_base (m r : array) (h h' : heap A) :
  np_sum0 m h = (Ok r, h') → base r = length h.
Proof.
  unfold np_sum0, mbind, st_bind, fetch.
  destruct (h !! base m) as [[d|d|d]|]; cbn; try discriminate.
  unfold lift. destruct (view d (ashape m) (transposed m)) as [v|e]; cbn;
    [|discriminate].
  destruct (sum_axis0 v) as [r'|e]; cbn; [|discriminate].
  intros [= <- <-]. reflexivity.
Qed.

Lemma prefix_lookup_kept (h h' : heap A) (l : nat) (b : buffer A) :
  h `prefix_of` h' → h !! l = Some b → h' !! l = Some b.
Proof. intros [k ->] Hl. apply lookup_app_l_Some. exact Hl. Qed.
End StoreFrame.

(** C9.  The transforms do not write into a loaded array.  Whatever is
    in memory when a file has been loaded, the buffer of the loaded array
    holds the same elements after the x-axis is computed and the array
    transposed, and after the threshold counts are computed; the x-vector
    and the counts are arrays on buffers of their own, and the transpose
    is a second array on the buffer of the loaded one, which reads the
    same elements before and after. *)
Theorem loaded_array_unchanged {A : Type} `{Num A} (f : file A) (total : Z)
    (h h1 : store.heap A) (a : store.array) :
  store.np_loadtxt f h = (Ok a, h1) →
  ∃ v,
    loadtxt_contents f = Ok v ∧
    h1 !! store.base a = Some (store.Floats (ravel v)) ∧
    (store.trace_transforms total a h1).2 !! store.base a
    = Some (store.Floats (ravel v)) ∧
    (store.design_transforms a h1).2 !! store.base a
    = Some (store.Floats (ravel v)) ∧
    (∀ x t h2, store.trace_transforms total a h1 = (Ok (x, t), h2) →
       store.base x ≠ store.base a ∧ store.base t = store.base a ∧
       (store.read t h2).1 = (store.read t h1).1) ∧
    (∀ num h2, store.design_transforms a h1 = (Ok num, h2) →
       store.base num ≠ store.base a).
Proof.
  intros Hload. apply np_loadtxt_run in Hload as (v & Hv & -> & ->).
  exists v. cbn [store.base].
  assert (Hcell : (h ++ [store.Floats (ravel v)]) !! length h
                  = Some (store.Floats (ravel v)))
    by (apply list_lookup_middle; reflexivity).
  split; [exact Hv|]. split; [exact Hcell|].
  pose proof (trace_transforms_prefix total
                (store.Array (length h) (shape v) false)
                (h ++ [store.Floats (ravel v)])) as Htr.
  pose proof (design_transforms_prefix
                (store.Array (length h) (shape v) false)
                (h ++ [store.Floats (ravel v)])) as Hde.
  split; [exact (prefix_lookup_kept _ _ _ _ Htr Hcell)|].
  split; [exact (prefix_lookup_kept _ _ _ _ Hde Hcell)|].
  split.
  - intros x t h2 Hrun. rewrite Hrun in Htr. cbn [snd] in Htr.
    unfold store.trace_transforms in Hrun. cbn [store.ashape] in Hrun.
    destruct (tuple_get (shape v) 1) as [n|e]; [|discriminate].
    rewrite bind_lift_ok in Hrun.
    destruct (np_linspace_run (of_Z 0) (of_Z total) n
                (h ++ [store.Floats (ravel v)])) as [scratch Hlin].
    erewrite bind_ok in Hrun by exact Hlin.
    injection Hrun as <- <- <-. cbn [store.base store.np_transpose].
    split; [rewrite length_app; cbn; lia|]. split; [reflexivity|].
    unfold store.read, store.fetch_floats, mbind, st_bind, store.fetch.
    cbn [store.base store.np_transpose].
    rewrite (prefix_lookup_kept _ _ _ _ Htr Hcell), Hcell. cbn.
    destruct (store.view _ _ _); reflexivity.
  - intros num h2 Hrun. unfold store.design_transforms in Hrun.
    unfold mbind, st_bind in Hrun.
    pose proof (np_gt_prefix (store.Array (length h) (shape v) false) (of_Z 8)
                  (h ++ [store.Floats (ravel v)])) as [_ Hgt].
    destruct (store.np_gt _ _ _) as [[m|e] h'] eqn:Hm; [|discriminate].
    destruct (Hgt m h' eq_refl) as [_ Hlen].
    apply np_sum0_base in Hrun. rewrite Hrun.
    rewrite length_app in Hlen. cbn in Hlen. lia.
Qed.

Lemma loaded_array_unchanged_witness :
  ∃ v,
    loadtxt_contents two_traces = Ok v ∧
    [store.Floats (ravel (Mat 3 two_traces))] !! 0 = Some (store.Floats (ravel v)) ∧
    (store.trace_transforms 18700000
       (store.Array 0 [2; 3] false) [store.Floats (ravel (Mat 3 two_traces))]).2 !! 0
    = Some (store.Floats (ravel v)) ∧
    (store.design_transforms
       (store.Array 0 [2; 3] false) [store.Floats (ravel (Mat 3 two_traces))]).2 !! 0
    = Some (store.Floats (ravel v)) ∧
    (∀ x t h2,
       store.trace_transforms 18700000 (store.Array 0 [2; 3] false)
         [store.Floats (ravel (Mat 3 two_traces))] = (Ok (x, t), h2) →
       store.base x ≠ 0 ∧ store.base t = 0 ∧
       (store.read t h2).1
       = (store.read t [store.Floats (ravel (Mat 3 two_traces))]).1) ∧
    (∀ num h2,
       store.design_transforms (store.Array 0 [2; 3] false)
         [store.Floats (ravel (Mat 3 two_traces))] = (Ok num, h2) →
       store.base num ≠ 0).
Proof.
  apply (loaded_array_unchanged (A:=Q) two_traces 18700000 []
           [store.Floats (ravel (Mat 3 two_traces))] (store.Array 0 [2; 3] false)).
  reflexivity.
Defined.

(** The transforms of the two traces in memory: the loaded buffer is
    still the first, and the counts read back are those of
    [num_at_8_2]. *)
Example design_transforms_two_designs :
  ∃ d num h1 h2,
    store.np_loadtxt two_designs [] = (Ok d, h1) ∧
    store.design_transforms d h1 = (Ok num, h2) ∧
    h2 !! 0 = h1 !! 0 ∧
    (store.read_ints num h2).1 = pk_model.num_at_8_2 (Mat 15 two_designs).
Proof. eexists _, _, _, _. repeat split. Qed.


(** * Part IV: further properties of the scripts *)

(** ** Loops *)

Section Loops.
Context {S : Type}.

Lemma for_app {T} (l1 l2 : list T) (body : T → st S ()) (s : S) :
  for_ (l1 ++ l2) body s = (for_ l1 body ;; for_ l2 body) s.
Proof.
  revert s. induction l1 as [|x l1 IH]; intros s; [reflexivity|].
  cbn [app for_]. unfold mbind, st_bind.
  destruct (body x s) as [[[]|e] s1]; [|reflexivity].
  rewrite IH. reflexivity.
Qed.

(** A loop stops at the first turn that raises: the turns after it are
    not run. *)
Lemma for_stops {T} (l1 l2 : list T) (x : T) (body : T → st S ())
    (s s1 s2 : S) (e : exn) :
  for_ l1 body s = (Ok (), s1) →
  body x s1 = (Raise e, s2) →
  for_ (l1 ++ x :: l2) body s = (Raise e, s2).
Proof.
  intros H1 Hx. rewrite for_app. erewrite bind_ok by exact H1.
  cbn [for_]. erewrite bind_raise by exact Hx. reflexivity.
Qed.

(** What every turn keeps, the loop keeps. *)
Lemma for_keeps {T} (P : S → Prop) (l : list T) (body : T → st S ()) (s : S) :
  (∀ x s, P s → P (body x s).2) → P s → P (for_ l body s).2.
Proof.
  intros Hbody. revert s. induction l as [|x l IH]; intros s Hs; [exact Hs|].
  cbn [for_]. unfold mbind, st_bind.
  pose proof (Hbody x s Hs) as Hx.
  destruct (body x s) as [[[]|e] s1]; cbn in *; [apply IH|]; exact Hx.
Qed.

(** A loop with a turn that raises in every state raises, with the
    exception of a turn. *)
Lemma for_raises {T} (E : exn → Prop) (l : list T) (x0 : T)
    (body : T → st S ()) (s : S) :
  (∀ x s e, (body x s).1 = Raise e → E e) →
  x0 ∈ l →
  (∀ s, ∃ e, (body x0 s).1 = Raise e) →
  ∃ e, (for_ l body s).1 = Raise e ∧ E e.
Proof.
  intros HE Hin Hx0. revert s.
  induction l as [|x l IH]; intros s; [inversion Hin|].
  cbn [for_]. unfold mbind, st_bind.
  destruct (body x s) as [[[]|e] s1] eqn:Hx.
  - apply elem_of_cons in Hin as [->|Hin].
    + destruct (Hx0 s) as [e He]. rewrite Hx in He. discriminate.
    + apply IH. exact Hin.
  - exists e. split; [reflexivity|]. apply (HE x s). rewrite Hx. reflexivity.
Qed.
End Loops.

(** ** death_model.py *)

(** Figure 1a.  A utility file that loads as a matrix with at least two
    columns is displayed as one figure: the line marking the optimum at
    1.61 in colour 0, the curve of column 1 against column 0 in colour 3,
    and the annotation in colour 0. *)
Theorem figure_1a_draws {A : Type} `{Num A} (col : list color)
    (fs : gmap string (file A)) (n : nat) (rows : list (list A))
    (c0 c3 : color) (s : pyplot A) :
  loadtxt fs "../data/death_model/simpledeath_1d_util.txt" = Ok (Mat n rows) →
  2 ≤ n →
  col !! 0 = Some c0 →
  col !! 3 = Some c3 →
  open_figs s = [] →
  death_model.figure_1a col fs s
  = (Ok (),
     Pyplot [] (shown s ++
       [Figure (1, 1, 1) (map (pair (1, 1, 1))
          [RefLine true (dec 161 100) (Some c0);
           Line2D (column 0 rows) (column 1 rows) c3 None;
           Text (dec 18 10) (of_Z 1) (LStr "$\tau* \approx 1.61$") c0])])).
Proof.
  intros Hload Hn Hc0 Hc3 Hopen.
  pose proof (loadtxt_Mat_wf fs _ _ _ Hload) as Hwf.
  destruct s as [op sh]. cbn in Hopen. subst op.
  assert (Hlen : length (column 0 rows) = length (column 1 rows))
    by (rewrite (length_column n 0), (length_column n 1) by (done || lia); done).
  unfold death_model.figure_1a, palette_get.
  rewrite Hload, Hc0, Hc3, !bind_lift_ok.
  erewrite bind_ok by (unfold axvline, draw, draw_all; reflexivity).
  unfold getcol. rewrite !decide_True by lia. rewrite !bind_lift_ok.
  unfold plot_xy. rewrite decide_True by exact Hlen.
  reflexivity.
Qed.

Lemma figure_1a_draws_witness :
  death_model.figure_1a tab10 util_data pyplot_init
  = (Ok (),
     Pyplot [] (shown pyplot_init ++
       [Figure (1, 1, 1) (map (pair (1, 1, 1))
          [RefLine true (dec 161 100) (Some "#1f77b4");
           Line2D (column 0 [[0; 1]; [1; 2]; [2; 1]]%Q)
                  (column 1 [[0; 1]; [1; 2]; [2; 1]]%Q) "#d62728" None;
           Text (dec 18 10) (of_Z 1) (LStr "$\tau* \approx 1.61$") "#1f77b4"])])).
Proof.
  apply (figure_1a_draws (A:=Q) tab10 util_data 2 [[0; 1]; [1; 2]; [2; 1]]%Q
           "#1f77b4" "#d62728" pyplot_init);
    (vm_compute; reflexivity) || lia.
Defined.

Lemma length_arange0 {A : Type} `{Num A} (n : nat) : length (arange0 (A:=A) n) = n.
Proof. unfold arange0. rewrite length_map, length_seq. reflexivity. Qed.

(** One turn of the loop of figure 1b on a row that exists, with a
    colour that exists *)
Lemma figure_1b_turn {A : Type} `{Num A} (col : list color) (n : nat)
    (rows : list (list A)) (i : nat) (row : list A) (c : color) (s : pyplot A) :
  Forall (fun r => length r = n) rows →
  rows !! i = Some row →
  col !! (i mod 6 + 1) = Some c →
  (row ← lift (getitem (Mat n rows) i);
   c ← lift (palette_get col (i mod 6 + 1));
   plot_y row c) s
  = (Ok (), drawn [Line2D (arange0 n) row c None] s).
Proof.
  intros Hwf Hrow Hc. cbn [getitem]. unfold palette_get.
  rewrite Hrow, Hc, !bind_lift_ok.
  assert (Hn : length row = n) by (rewrite Forall_lookup in Hwf; eauto).
  unfold plot_y, plot_xy. rewrite Hn, length_arange0, decide_True by reflexivity.
  reflexivity.
Qed.

(** Figure 1b.  Of a trace file that loads as a matrix with at least
    eleven rows, the rows 0 to 10 are displayed in one figure, row [i]
    as an opaque line over the column indices in colour [i mod 6 + 1] of
    the cycle, followed by the line marking the optimum and its
    annotation in colour 0. *)
Theorem figure_1b_draws {A : Type} `{Num A} (col : list color)
    (fs : gmap string (file A)) (n : nat) (rows : list (list A))
    (c0 : color) (s : pyplot A) :
  loadtxt fs "../data/death_model/simpledeath_traces.txt" = Ok (Mat n rows) →
  11 ≤ length rows →
  7 ≤ length col →
  col !! 0 = Some c0 →
  open_figs s = [] →
  ∃ ls,
    death_model.figure_1b col fs s
    = (Ok (),
       Pyplot [] (shown s ++
         [Figure (1, 1, 1) (map (pair (1, 1, 1))
            (ls ++ [RefLine false (dec 161 100) (Some c0);
                    Text (of_Z 95) (of_Z 1) (LStr "$\tau^*$") c0]))])) ∧
    length ls = 11 ∧
    ∀ i row c, i < 11 → rows !! i = Some row → col !! (i mod 6 + 1) = Some c →
      ls !! i = Some (Line2D (arange0 n) row c None).
Proof.
  intros Hload Hrows Hcol Hc0 Hopen.
  pose proof (loadtxt_Mat_wf fs _ _ _ Hload) as Hwf.
  destruct s as [op sh]. cbn in Hopen. subst op.
  set (mk := fun i => Line2D (arange0 n) (nth i rows [])
                        (nth (A:=color) (i mod 6 + 1) col EmptyString) None).
  exists (map mk (seq 0 11)).
  split; [|split].
  - unfold death_model.figure_1b, palette_get.
    rewrite Hload, Hc0, !bind_lift_ok.
    erewrite bind_ok by reflexivity.
    erewrite bind_ok.
    2:{ apply (for_draw 0 (seq 1 10) _ mk). apply Forall_forall. intros i Hi s'.
        change (0 :: seq 1 10) with (seq 0 11) in Hi. apply elem_of_seq in Hi.
        destruct (lookup_lt_is_Some_2 rows i) as [row Hrow]; [lia|].
        assert (Hlt : i mod 6 + 1 < length col).
        { pose proof (Nat.mod_upper_bound i 6). lia. }
        destruct (lookup_lt_is_Some_2 col (i mod 6 + 1) Hlt) as [c Hc].
        unfold mk.
        rewrite (nth_lookup_Some _ _ [] _ Hrow).
        rewrite (nth_lookup_Some (A:=color) _ _ EmptyString _ Hc).
        apply (figure_1b_turn col n rows i row c s'); assumption. }
    rewrite !bind_lift_ok.
    unfold axhline, text, draw. plt_run. reflexivity.
  - rewrite length_map, length_seq. reflexivity.
  - intros i row c Hi Hrow Hc.
    rewrite list_lookup_fmap, lookup_seq_lt by exact Hi. cbn. unfold mk.
    rewrite (nth_lookup_Some _ _ [] _ Hrow).
    rewrite (nth_lookup_Some (A:=color) _ _ EmptyString _ Hc).
    reflexivity.
Qed.

Lemma figure_1b_draws_witness :
  ∃ ls,
    death_model.figure_1b tab10 death_data pyplot_init
    = (Ok (),
       Pyplot [] (shown pyplot_init ++
         [Figure (1, 1, 1) (map (pair (1, 1, 1))
            (ls ++ [RefLine false (dec 161 100) (Some "#1f77b4");
                    Text (of_Z 95) (of_Z 1) (LStr "$\tau^*$") "#1f77b4"]))])) ∧
    length ls = 11 ∧
    ∀ i row c, i < 11 → twelve_traces !! i = Some row →
      tab10 !! (i mod 6 + 1) = Some c →
      ls !! i = Some (Line2D (arange0 2) row c None).
Proof.
  apply (figure_1b_draws (A:=Q) tab10 death_data 2 twelve_traces "#1f77b4" pyplot_init);
    (vm_compute; reflexivity) || (cbn; lia).
Defined.

(** One turn of the loop of figure 1b, whatever the row and the colour:
    it draws one line, or raises [IndexError] and draws nothing. *)
Lemma figure_1b_turn_cases {A : Type} `{Num A} (col : list color) (n : nat)
    (rows : list (list A)) (i : nat) (s : pyplot A) :
  let turn := (row ← lift (getitem (Mat n rows) i);
               c ← lift (palette_get col (i mod 6 + 1));
               plot_y row c) in
  (∃ l, turn s = (Ok (), drawn [l] s) ∧ i < length rows) ∨
  turn s = (Raise IndexError, s).
Proof.
  cbn [getitem]. unfold palette_get.
  destruct (rows !! i) as [row|] eqn:Hrow; [|right; reflexivity].
  rewrite bind_lift_ok.
  destruct (col !! (i mod 6 + 1)) as [c|]; [|right; reflexivity].
  rewrite bind_lift_ok. left.
  unfold plot_y, plot_xy. rewrite length_arange0, decide_True by reflexivity.
  eexists. split; [reflexivity|]. apply lookup_lt_Some in Hrow. exact Hrow.
Qed.

(** Figure 1b needs eleven traces: with fewer rows in the matrix the
    loop raises [IndexError], and the figure it has begun is never
    displayed. *)
Theorem figure_1b_too_few_traces {A : Type} `{Num A} (col : list color)
    (fs : gmap string (file A)) (n : nat) (rows : list (list A)) (s : pyplot A) :
  loadtxt fs "../data/death_model/simpledeath_traces.txt" = Ok (Mat n rows) →
  length rows < 11 →
  ∃ s', death_model.figure_1b col fs s = (Raise IndexError, s') ∧
        shown s' = shown s.
Proof.
  intros Hload Hrows.
  unfold death_model.figure_1b. rewrite Hload, bind_lift_ok.
  erewrite bind_ok by reflexivity.
  set (s1 := Pyplot (new_figure :: open_figs s) (shown s)).
  set (body := fun i : nat => _).
  destruct (for_raises (fun e => e = IndexError) (seq 0 11) (length rows) body s1)
    as (e & He & ->).
  - intros i st e He. subst body. cbn beta in He.
    destruct (figure_1b_turn_cases col n rows i st) as [(l & Hl & _)|Hr];
      rewrite ?Hl, ?Hr in He; cbn in He; congruence.
  - apply elem_of_seq. lia.
  - intros st. subst body. cbn beta.
    destruct (figure_1b_turn_cases col n rows (length rows) st) as [(l & _ & Hlt)|Hr];
      [lia|]. rewrite Hr. eexists. reflexivity.
  - pose proof (for_keeps (fun st => shown st = shown s) (seq 0 11) body s1) as Hkeep.
    destruct (for_ (seq 0 11) body s1) as [r s2] eqn:Hfor. cbn in He. subst r.
    exists s2. split; [exact (bind_raise _ _ _ _ _ Hfor)|].
    apply Hkeep; [|reflexivity].
    intros i st Hst. subst body. cbn beta.
    destruct (figure_1b_turn_cases col n rows i st) as [(l & Hl & _)|Hr];
      rewrite ?Hl, ?Hr; cbn; rewrite ?shown_drawn; exact Hst.
Qed.

Lemma figure_1b_too_few_traces_witness :
  ∃ s', death_model.figure_1b tab10 three_traces_data pyplot_init
        = (Raise IndexError, s') ∧
        shown s' = shown pyplot_init.
Proof.
  apply (figure_1b_too_few_traces (A:=Q) tab10 three_traces_data 2
           [[1; 2]; [3; 4]; [5; 6]]%Q pyplot_init);
    (vm_compute; reflexivity) || (cbn; lia).
Defined.

(** ** geo_model.py: the sweep *)

Section SweepMore.
Context {A : Type} `{Num A}.
Variable fs : gmap string (file A).

Lemma sweep_loop_part (l1 l2 l3 : list string) (sh : list (figure A)) :
  Forall (point_set fs) l2 →
  ∃ figs,
    for_ (seq (length l1) (length l2)) (geo_model.sweep_file fs (l1 ++ l2 ++ l3))
         (Pyplot [] sh)
    = (Ok (), Pyplot [] (sh ++ figs)) ∧
    Forall2 (figure_of fs) l2 figs.
Proof.
  intros Hall. revert l1 sh.
  induction Hall as [|name l2 (n & rows & Hload & Hn) _ IH]; intros l1 sh.
  - exists []. rewrite app_nil_r. split; [reflexivity|constructor].
  - destruct (IH (l1 ++ [name]) (sh ++ [scatter_figure rows])) as (figs & Hrun & Hfigs).
    exists (scatter_figure rows :: figs). split.
    + cbn [length seq for_].
      erewrite bind_ok.
      2:{ apply (sweep_file_run _ _ _ name n rows); [|exact Hload|exact Hn].
          rewrite lookup_app_r, Nat.sub_diag by lia. reflexivity. }
      rewrite <- !app_assoc in Hrun. cbn [app] in Hrun.
      rewrite length_app, Nat.add_1_r in Hrun. cbn [app].
      exact Hrun.
    + constructor; [exists n, rows; split; [exact Hload|reflexivity]|exact Hfigs].
Qed.

(** A file that is no point set stops the loop where it stands, and
    nothing is drawn for it. *)
Lemma sweep_file_bad (files : list string) (i : nat) (name : string)
    (s : pyplot A) :
  files !! i = Some name →
  ¬ point_set fs name →
  ∃ e, geo_model.sweep_file fs files i s = (Raise e, s).
Proof.
  intros Hi Hbad. unfold geo_model.sweep_file. rewrite Hi, bind_lift_ok.
  fold (sweep_path name).
  destruct (loadtxt fs (sweep_path name)) as [[v|v|n rows]|e] eqn:Hload;
    try (eexists; reflexivity).
  rewrite bind_lift_ok. unfold getcol.
  destruct (decide (0 < n)); [|eexists; reflexivity].
  destruct (decide (1 < n)); [|eexists; reflexivity].
  exfalso. apply Hbad. exists n, rows. split; [exact Hload|lia].
Qed.

Lemma figure_of_sweep_figure (names : list string) (figs : list (figure A)) :
  Forall2 (figure_of fs) names figs → figs = omap (sweep_figure fs) names.
Proof.
  induction 1 as [|name f names figs (n & rows & Hload & ->) _ IH]; [reflexivity|].
  cbn. unfold sweep_figure at 1. rewrite Hload. cbn. f_equal. exact IH.
Qed.
End SweepMore.

(** The sweep draws the files in the order of the listing until one of
    them is no point set: the figures of the files before it have been
    displayed, the script ends there with an exception, and the files
    after it are not read. *)
Theorem sweep_stops_at_bad_file {A : Type} `{Num A} (fs : gmap string (file A))
    (dirs : gmap string (list string)) (good rest : list string) (bad : string)
    (s : pyplot A) :
  dirs !! "../data/geo_model/change_l_gamma" = Some (good ++ bad :: rest) →
  Forall (point_set fs) good →
  ¬ point_set fs bad →
  open_figs s = [] →
  ∃ e figs,
    geo_model.sweep fs dirs s = (Raise e, Pyplot [] (shown s ++ figs)) ∧
    Forall2 (figure_of fs) good figs.
Proof.
  intros Hdir Hgood Hbad Hopen.
  destruct s as [op sh]. cbn in Hopen. subst op. cbn [shown].
  destruct (sweep_loop_part fs [] good (bad :: rest) sh Hgood) as (figs & Hrun & Hfigs).
  destruct (sweep_file_bad fs (good ++ bad :: rest) (length good) bad
              (Pyplot [] (sh ++ figs))) as [e He].
  { rewrite lookup_app_r, Nat.sub_diag by lia. reflexivity. }
  { exact Hbad. }
  exists e, figs. split; [|exact Hfigs].
  unfold geo_model.sweep, geo_model.listdir. rewrite Hdir, bind_lift_ok.
  rewrite length_app. cbn [length]. rewrite seq_app. cbn [seq].
  apply (for_stops _ _ _ _ _ _ _ _ Hrun He).
Qed.

Lemma sweep_data_bad_good :
  Forall (point_set sweep_data_bad) ["l1_g1.txt"].
Proof.
  repeat constructor; eexists _, _; (split; [vm_compute; reflexivity|lia]).
Defined.

Lemma sweep_data_bad_bad : ¬ point_set sweep_data_bad "l1_g2.txt".
Proof. intros (n & rows & Hload & Hn). vm_compute in Hload. discriminate Hload. Defined.

Lemma sweep_stops_at_bad_file_witness :
  ∃ e figs,
    geo_model.sweep sweep_data_bad sweep_dir_3 pyplot_init
    = (Raise e, Pyplot [] (shown pyplot_init ++ figs)) ∧
    Forall2 (figure_of sweep_data_bad) ["l1_g1.txt"] figs.
Proof.
  apply (sweep_stops_at_bad_file (A:=Q) sweep_data_bad sweep_dir_3
           ["l1_g1.txt"] ["l2_g1.txt"] "l1_g2.txt" pyplot_init).
  - vm_compute. reflexivity.
  - exact sweep_data_bad_good.
  - exact sweep_data_bad_bad.
  - reflexivity.
Defined.

(** The order of the listing decides the order of the figures and
    nothing else: two listings of the same point sets, in any order,
    display the same figures up to their order. *)
Theorem sweep_figures_permuted {A : Type} `{Num A} (fs : gmap string (file A))
    (dirs dirs' : gmap string (list string)) (names names' : list string)
    (s : pyplot A) :
  dirs !! "../data/geo_model/change_l_gamma" = Some names →
  dirs' !! "../data/geo_model/change_l_gamma" = Some names' →
  names' ≡ₚ names →
  Forall (point_set fs) names →
  open_figs s = [] →
  ∃ figs figs',
    geo_model.sweep fs dirs s = (Ok (), Pyplot [] (shown s ++ figs)) ∧
    geo_model.sweep fs dirs' s = (Ok (), Pyplot [] (shown s ++ figs')) ∧
    figs' ≡ₚ figs.
Proof.
  intros Hdir Hdir' Hperm Hall Hopen.
  assert (Hall' : Forall (point_set fs) names') by (rewrite Hperm; exact Hall).
  destruct s as [op sh]. cbn in Hopen. subst op. cbn [shown].
  destruct (sweep_loop fs [] names sh Hall) as (figs & Hrun & Hfigs).
  destruct (sweep_loop fs [] names' sh Hall') as (figs' & Hrun' & Hfigs').
  exists figs, figs'. split; [|split].
  - unfold geo_model.sweep, geo_model.listdir. rewrite Hdir, bind_lift_ok.
    exact Hrun.
  - unfold geo_model.sweep, geo_model.listdir. rewrite Hdir', bind_lift_ok.
    exact Hrun'.
  - rewrite (figure_of_sweep_figure fs _ _ Hfigs),
      (figure_of_sweep_figure fs _ _ Hfigs').
    apply omap_Permutation. exact Hperm.
Qed.

Lemma sweep_figures_permuted_witness :
  ∃ figs figs',
    geo_model.sweep sweep_data sweep_dir_2 pyplot_init
    = (Ok (), Pyplot [] (shown pyplot_init ++ figs)) ∧
    geo_model.sweep sweep_data sweep_dir_2r pyplot_init
    = (Ok (), Pyplot [] (shown pyplot_init ++ figs')) ∧
    figs' ≡ₚ figs.
Proof.
  apply (sweep_figures_permuted (A:=Q) sweep_data sweep_dir_2 sweep_dir_2r
           ["l2_g1.txt"; "l1_g1.txt"] ["l1_g1.txt"; "l2_g1.txt"] pyplot_init).
  - vm_compute. reflexivity.
  - vm_compute. reflexivity.
  - apply perm_swap.
  - exact sweep_data_point_sets.
  - reflexivity.
Defined.

(** ** geo_model.py: the whole script *)

Section GeoFigures.
Context {A : Type} `{Num A}.

(** Figure 7a holds two boxes, one for the last column of each trace
    matrix. *)
Lemma figure_7a_run (Scol Acol : color) (n m : nat)
    (tr_sgd tr_ace : list (list A)) (sh : list (figure A)) :
  0 < n → 0 < m →
  geo_model.figure_7a Scol Acol (Mat n tr_sgd) (Mat m tr_ace) (Pyplot [] sh)
  = (Ok (),
     Pyplot [] (sh ++
       [Figure (1, 1, 1) (map (pair (1, 1, 1))
          [BoxPatch (column (n - 1) tr_sgd) (Some Scol);
           BoxPatch (column (m - 1) tr_ace) (Some Acol)])])).
Proof.
  intros Hn Hm. unfold geo_model.figure_7a, geo_model.color_boxes, getcol_last.
  rewrite !decide_True by lia. plt_run. reflexivity.
Qed.

Lemma figure_7b_run (col : list color) (Scol Acol c5 : color) (n m : nat)
    (tr_sgd tr_ace : list (list A)) (sh : list (figure A)) :
  Forall (fun r => length r = n) tr_sgd → tr_sgd ≠ [] →
  Forall (fun r => length r = m) tr_ace → tr_ace ≠ [] →
  col !! 5 = Some c5 →
  geo_model.figure_7b col Scol Acol (Mat n tr_sgd) (Mat m tr_ace) (Pyplot [] sh)
  = (Ok (),
     Pyplot [] (sh ++
       [Figure (1, 1, 1) (map (pair (1, 1, 1))
          (RefLine false (dec 2037012 100000) (Some c5)
           :: overlay (linspace (of_Z 0) (of_Z 50000) n) Scol (dec 5 100) tr_sgd
           ++ overlay (linspace (of_Z 0) (of_Z 85000) m) Acol (dec 5 100) tr_ace))])).
Proof.
  intros Hwfs Hs Hwfa Ha Hc5.
  destruct tr_sgd as [|s0 tr_sgd]; [done|].
  destruct tr_ace as [|a0 tr_ace]; [done|].
  pose proof (Forall_inv Hwfs) as Hs0. pose proof (Forall_inv Hwfa) as Ha0.
  cbn beta in Hs0, Ha0.
  assert (Hxs : geo_model.x_sgd (Mat n (s0 :: tr_sgd))
                = Ok (linspace (of_Z 0) (of_Z 50000) n))
    by (unfold geo_model.x_sgd; cbn; rewrite Hs0; reflexivity).
  assert (Hxa : geo_model.x_ace (Mat m (a0 :: tr_ace))
                = Ok (linspace (of_Z 0) (of_Z 85000) m))
    by (unfold geo_model.x_ace; cbn; rewrite Ha0; reflexivity).
  unfold geo_model.figure_7b, palette_get.
  rewrite Hc5, Hxs, Hxa. rewrite !bind_lift_ok.
  erewrite bind_ok by (unfold axhline, draw, draw_all; reflexivity).
  erewrite bind_ok by (apply plot_transpose_run; [exact Hwfs|apply length_linspace]).
  erewrite bind_ok by (apply plot_transpose_run; [exact Hwfa|apply length_linspace]).
  rewrite !drawn_app. unfold drawn. plt_run.
  rewrite !map_app. reflexivity.
Qed.
End GeoFigures.

(** geo_model.py as a whole.  With a colour cycle of at least six
    entries, two trace files that load as matrices and a sweep directory
    of point sets, the script ends normally and has displayed, in this
    order: the boxplot of the last columns of the two trace matrices, the
    overlay of all their rows, and one scatter per file of the listing. *)
Theorem geo_main_figures {A : Type} `{Num A} (col : list color)
    (fs : gmap string (file A)) (dirs : gmap string (list string))
    (Scol Acol c5 : color) (n m : nat) (tr_sgd tr_ace : list (list A))
    (names : list string) (s : pyplot A) :
  col !! 0 = Some Scol →
  col !! 3 = Some Acol →
  col !! 5 = Some c5 →
  loadtxt fs "../data/geo_model/sgd_traces.txt" = Ok (Mat n tr_sgd) →
  loadtxt fs "../data/geo_model/ace_traces.txt" = Ok (Mat m tr_ace) →
  0 < n → 0 < m →
  dirs !! "../data/geo_model/change_l_gamma" = Some names →
  Forall (point_set fs) names →
  open_figs s = [] →
  ∃ figs,
    geo_model.main col fs dirs s
    = (Ok (),
       Pyplot [] (shown s ++
         Figure (1, 1, 1) (map (pair (1, 1, 1))
           [BoxPatch (column (n - 1) tr_sgd) (Some Scol);
            BoxPatch (column (m - 1) tr_ace) (Some Acol)])
         :: Figure (1, 1, 1) (map (pair (1, 1, 1))
              (RefLine false (dec 2037012 100000) (Some c5)
               :: overlay (linspace (of_Z 0) (of_Z 50000) n) Scol (dec 5 100) tr_sgd
               ++ overlay (linspace (of_Z 0) (of_Z 85000) m) Acol (dec 5 100) tr_ace))
         :: figs)) ∧
    Forall2 (figure_of fs) names figs.
Proof.
  intros HS HA Hc5 Hsgd Hace Hn Hm Hdir Hall Hopen.
  destruct s as [op sh]. cbn in Hopen. subst op. cbn [shown].
  pose proof (loadtxt_Mat_wf fs _ _ _ Hsgd) as Hwfs.
  pose proof (loadtxt_Mat_wf fs _ _ _ Hace) as Hwfa.
  assert (Hs : tr_sgd ≠ []).
  { unfold loadtxt in Hsgd. destruct (fs !! _) as [f|]; [|discriminate].
    apply loadtxt_contents_Mat in Hsgd as (-> & Hlen & _).
    intros ->. cbn in Hlen. lia. }
  assert (Ha : tr_ace ≠ []).
  { unfold loadtxt in Hace. destruct (fs !! _) as [f|]; [|discriminate].
    apply loadtxt_contents_Mat in Hace as (-> & Hlen & _).
    intros ->. cbn in Hlen. lia. }
  unfold geo_model.main, palette_get.
  rewrite HS, HA, Hsgd, Hace, !bind_lift_ok.
  erewrite bind_ok by (apply figure_7a_run; assumption).
  erewrite bind_ok by (apply (figure_7b_run col Scol Acol c5); assumption).
  unfold geo_model.sweep, geo_model.listdir. rewrite Hdir, bind_lift_ok.
  match goal with
  | |- context [for_ _ _ (Pyplot [] ?sh')] =>
      destruct (sweep_loop fs [] names sh' Hall) as (figs & Hrun & Hfigs)
  end.
  exists figs. split; [|exact Hfigs].
  cbn [app length] in Hrun. rewrite Hrun, <- !app_assoc. reflexivity.
Qed.

Lemma rerun_data_point_sets : Forall (point_set rerun_data) ["l1_g1.txt"].
Proof.
  repeat constructor; eexists _, _; (split; [vm_compute; reflexivity|lia]).
Defined.

Lemma geo_main_figures_witness :
  ∃ figs,
    geo_model.main tab10 rerun_data sweep_dir_1 pyplot_init
    = (Ok (),
       Pyplot [] (shown pyplot_init ++
         Figure (1, 1, 1) (map (pair (1, 1, 1))
           [BoxPatch (column (3 - 1) two_traces) (Some "#1f77b4");
            BoxPatch (column (3 - 1) two_traces) (Some "#d62728")])
         :: Figure (1, 1, 1) (map (pair (1, 1, 1))
              (RefLine false (dec 2037012 100000) (Some "#8c564b")
               :: overlay (linspace (of_Z 0) (of_Z 50000) 3) "#1f77b4" (dec 5 100) two_traces
               ++ overlay (linspace (of_Z 0) (of_Z 85000) 3) "#d62728" (dec 5 100) two_traces))
         :: figs)) ∧
    Forall2 (figure_of rerun_data) ["l1_g1.txt"] figs.
Proof.
  apply (geo_main_figures (A:=Q) tab10 rerun_data sweep_dir_1
           "#1f77b4" "#d62728" "#8c564b" 3 3 two_traces two_traces
           ["l1_g1.txt"] pyplot_init);
    try (vm_compute; reflexivity); try lia.
  exact rerun_data_point_sets.
Defined.

(** ** Inputs the scripts stop on *)

(** A trace file with a single run.  [np.loadtxt] reads a file of one
    line as a vector, not as a matrix of one row, and then
    [tr_sgd[:,-1]] in geo_model.py and [np.shape(ace18)[1]] in
    pk_model.py raise [IndexError]: geo_model.py ends before it has
    displayed a figure, and figure 3 of pk_model.py before it has drawn a
    line. *)
Theorem single_run_trace_file {A : Type} `{Num A} (col : list color)
    (fs : gmap string (file A)) (dirs : gmap string (list string))
    (Scol Acol : color) (r : list A) (tr_ace sgd18 : ndarray A) (s : pyplot A) :
  2 ≤ length r →
  col !! 0 = Some Scol →
  col !! 3 = Some Acol →
  fs !! "../data/geo_model/sgd_traces.txt" = Some [r] →
  loadtxt fs "../data/geo_model/ace_traces.txt" = Ok tr_ace →
  loadtxt_contents [r] = Ok (Vec r) ∧
  (∃ s', geo_model.main col fs dirs s = (Raise IndexError, s') ∧
         shown s' = shown s) ∧
  pk_model.figure_3 Scol Acol sgd18 (Vec r) s = (Raise IndexError, s).
Proof.
  intros Hr HS HA Hsgd Hace.
  assert (Hload : loadtxt_contents [r] = Ok (Vec r)).
  { destruct r as [|x [|y r]]; cbn in Hr; try lia. reflexivity. }
  split; [exact Hload|]. split; [|reflexivity].
  assert (Hsgd' : loadtxt fs "../data/geo_model/sgd_traces.txt" = Ok (Vec r))
    by (unfold loadtxt, file in *; rewrite Hsgd; exact Hload).
  unfold geo_model.main, palette_get.
  rewrite HS, HA, Hsgd', Hace, !bind_lift_ok.
  eexists. split; [reflexivity|reflexivity].
Qed.

Lemma single_run_trace_file_witness :
  loadtxt_contents [[1; 2; 3]%Q] = Ok (Vec [1; 2; 3]%Q) ∧
  (∃ s', geo_model.main tab10 single_run_data sweep_dir_1 pyplot_init
         = (Raise IndexError, s') ∧
         shown s' = shown pyplot_init) ∧
  pk_model.figure_3 "#1f77b4" "#d62728" (Mat 3 two_traces) (Vec [1; 2; 3]%Q)
    pyplot_init
  = (Raise IndexError, pyplot_init).
Proof.
  apply (single_run_trace_file (A:=Q) tab10 single_run_data sweep_dir_1
           "#1f77b4" "#d62728" [1; 2; 3]%Q (Mat 3 two_traces) (Mat 3 two_traces)
           pyplot_init);
    try (vm_compute; reflexivity). cbn. lia.
Defined.

(** The colour cycle.  pk_model.py takes the colours 0, 3, 6 and 5 of the
    cycle in its first lines, geo_model.py the colours 0 and 3: with a
    cycle of fewer than seven colours (fewer than four for geo_model.py)
    the script ends there with [IndexError], whatever the data directory
    holds, and nothing is read or displayed. *)
Theorem short_colour_cycle {A : Type} `{Num A} (col col' : list color)
    (fs : gmap string (file A)) (dirs : gmap string (list string))
    (s : pyplot A) :
  length col ≤ 6 →
  length col' ≤ 3 →
  pk_model.main col fs s = (Raise IndexError, s) ∧
  geo_model.main col' fs dirs s = (Raise IndexError, s).
Proof.
  intros Hlen Hlen'. split.
  - unfold pk_model.main, palette_get.
    rewrite (lookup_ge_None_2 col 6) by lia.
    destruct (col !! 0); [|reflexivity].
    destruct (col !! 3); reflexivity.
  - unfold geo_model.main, palette_get.
    rewrite (lookup_ge_None_2 col' 3) by lia.
    destruct (col' !! 0); reflexivity.
Qed.

Lemma short_colour_cycle_witness :
  pk_model.main (take 6 tab10) rerun_data pyplot_init
  = (Raise IndexError, pyplot_init) ∧
  geo_model.main (take 3 tab10) rerun_data sweep_dir_1 pyplot_init
  = (Raise IndexError, pyplot_init).
Proof.
  apply (short_colour_cycle (A:=Q) (take 6 tab10) (take 3 tab10) rerun_data
           sweep_dir_1 pyplot_init); cbn; lia.
Defined.

(** pk_model.py reads its ten files of utilities before it draws
    anything: when one of them does not load, the script ends with an
    exception and without a figure. *)
Theorem pk_no_figure_without_utils {A : Type} `{Num A} (col : list color)
    (fs : gmap string (file A)) (p : string) (e : exn) (s : pyplot A) :
  p ∈ take 10 pk_inputs →
  loadtxt fs p = Raise e →
  ∃ e', pk_model.main col fs s = (Raise e', s).
Proof.
  intros Hp Hfail. unfold pk_model.main, pk_model.load.
  repeat match goal with
         | |- ∃ e', (lift ?r ≫= _) s = _ =>
             let Hr := fresh "Hr" in
             destruct r eqn:Hr; [rewrite bind_lift_ok|eexists; reflexivity]
         end.
  exfalso. cbn in Hp.
  repeat (apply elem_of_cons in Hp as [->|Hp]; [congruence|]).
  inversion Hp.
Qed.

Lemma pk_no_figure_without_utils_witness :
  ∃ e', pk_model.main tab10 rerun_data pyplot_init = (Raise e', pyplot_init).
Proof.
  apply (pk_no_figure_without_utils (A:=Q) tab10 rerun_data
           "../data/pk_model/unif_utils.txt" OSError pyplot_init).
  - apply (bool_decide_unpack _). vm_compute. reflexivity.
  - vm_compute. reflexivity.
Defined.

(** ** pk_model.py: figure 4 *)

Section Figure4.
Context {A : Type} `{Num A}.

Lemma drawn_open (l : list (artist A)) (ax : axes_id)
    (arts : list (axes_id * artist A)) (fs sh : list (figure A)) :
  drawn l (Pyplot (Figure ax arts :: fs) sh)
  = Pyplot (Figure ax (arts ++ map (pair ax) l) :: fs) sh.
Proof. reflexivity. Qed.

Lemma subplot_open (r c i : nat) (ax : axes_id)
    (arts : list (axes_id * artist A)) (fs sh : list (figure A)) :
  subplot r c i (Pyplot (Figure ax arts :: fs) sh)
  = (Ok (), Pyplot (Figure (r, c, i) arts :: fs) sh).
Proof. reflexivity. Qed.

Lemma design_scatter_run (c : color) (n : nat) (d : list (list A)) (s : pyplot A) :
  length d * n = 1500 →
  pk_model.design_scatter (Mat 15 (replicate 100 (arange 1 16))) (Mat n d) c s
  = (Ok (), drawn [design_points c d] s).
Proof.
  intros Hsize. unfold pk_model.design_scatter, scatter. cbn [amap size].
  rewrite length_map, length_replicate, Hsize, decide_True by reflexivity.
  reflexivity.
Qed.

Lemma length_num_at_8_2 (n : nat) (d : list (list A)) :
  Forall (fun r => length r = n) d →
  ∃ counts, pk_model.num_at_8_2 (Mat n d) = Ok (Vec counts) ∧
            length counts = n ∧
            ∀ i, i < n →
              nth i counts 0%Z = Z.of_nat (count_exceeding (of_Z 8) i d).
Proof.
  intros Hwf. eexists. split; [reflexivity|]. split.
  - apply length_sum_rows. rewrite !Forall_fmap.
    eapply Forall_impl; [exact Hwf|]. intros r Hr. cbn.
    rewrite !length_map. exact Hr.
  - intros i Hi. apply nth_lookup_Some. apply sum_rows_lookup; assumption.
Qed.

(** The counts computed and the labels drawn, for a design matrix with
    at least fifteen columns *)
Lemma design_labels_run (Scol : color) (n : nat) (d : list (list A)) :
  Forall (fun r => length r = n) d → 15 ≤ n →
  ∃ counts,
    pk_model.num_at_8_2 (Mat n d) = Ok (Vec counts) ∧
    ∀ s, pk_model.count_labels Scol (Vec counts) s
         = (Ok (), drawn (design_labels Scol d) s).
Proof.
  intros Hwf Hn.
  destruct (length_num_at_8_2 n d Hwf) as (counts & Hnum & Hlen & Hnth).
  exists counts. split; [exact Hnum|]. intros s.
  rewrite count_labels_run by lia.
  do 2 f_equal. unfold design_labels. apply map_ext_in.
  intros i Hi. apply in_seq in Hi. rewrite Hnth by lia. reflexivity.
Qed.
End Figure4.

Lemma figure_4_run {A : Type} `{Num A} (Scol Acol Mcol : color)
    (d_a d_s d_m d2_a d2_s d2_m : list (list A)) (s : pyplot A) :
  Forall is_design [d_a; d_s; d_m; d2_a; d2_s; d2_m] →
  open_figs s = [] →
  pk_model.figure_4 Scol Acol Mcol (Mat 15 d_a) (Mat 15 d_s) (Mat 15 d_m)
    (Mat 15 d2_a) (Mat 15 d2_s) (Mat 15 d2_m) s
  = (Ok (),
     Pyplot [] (shown s ++
       [Figure (2, 3, 6)
          (map (pair (2, 3, 1)) (design_points Scol d_s :: design_labels Scol d_s)
           ++ map (pair (2, 3, 2)) [design_points Acol d_a]
           ++ map (pair (2, 3, 3)) [design_points Mcol d_m]
           ++ map (pair (2, 3, 4)) (design_points Scol d2_s :: design_labels Scol d2_s)
           ++ map (pair (2, 3, 5)) [design_points Acol d2_a]
           ++ map (pair (2, 3, 6)) [design_points Mcol d2_m])])).
Proof.
  intros Hall Hopen.
  destruct s as [op sh]. cbn in Hopen. subst op. cbn [shown].
  repeat (apply Forall_cons in Hall as [[?Hlen ?Hwf] Hall]).
  destruct (design_labels_run Scol 15 d_s) as (c1 & Hc1 & Hl1); [assumption|lia|].
  destruct (design_labels_run Scol 15 d2_s) as (c2 & Hc2 & Hl2); [assumption|lia|].
  unfold pk_model.figure_4. rewrite x_matrix, Hc1, Hc2, bind_lift_ok.
  erewrite bind_ok by reflexivity.
  erewrite bind_ok by apply subplot_open.
  erewrite bind_ok by (apply design_scatter_run; lia). rewrite drawn_open.
  rewrite bind_lift_ok.
  erewrite bind_ok by apply Hl1. rewrite drawn_open.
  erewrite bind_ok by apply subplot_open.
  erewrite bind_ok by (apply design_scatter_run; lia). rewrite drawn_open.
  erewrite bind_ok by apply subplot_open.
  erewrite bind_ok by (apply design_scatter_run; lia). rewrite drawn_open.
  erewrite bind_ok by apply subplot_open.
  erewrite bind_ok by (apply design_scatter_run; lia). rewrite drawn_open.
  rewrite bind_lift_ok.
  erewrite bind_ok by apply Hl2. rewrite drawn_open.
  erewrite bind_ok by apply subplot_open.
  erewrite bind_ok by (apply design_scatter_run; lia). rewrite drawn_open.
  erewrite bind_ok by apply subplot_open.
  erewrite bind_ok by (apply design_scatter_run; lia). rewrite drawn_open.
  unfold show. cbn [open_figs shown reverse rev_append app].
  cbn [map]. rewrite <- !app_assoc. reflexivity.
Qed.


(** Figure 4 of pk_model.py.  Six design matrices of a hundred trials
    and fifteen observations are displayed in one figure of six panels:
    SGO-FIG, ACE and Muller in the first row and their phase II designs
    in the second, each as one scatter in the colour of its method over
    the observation indices, and under the two SGO-FIG panels, and under
    no other, the fifteen counts of times above 8: label [i] shows the
    number of trials of its own matrix whose observation [i] is above 8,
    a number of at most 100. *)
Theorem figure_4_draws {A : Type} `{Num A} (Scol Acol Mcol : color)
    (d_a d_s d_m d2_a d2_s d2_m : list (list A)) (s : pyplot A) :
  Forall is_design [d_a; d_s; d_m; d2_a; d2_s; d2_m] →
  open_figs s = [] →
  pk_model.figure_4 Scol Acol Mcol (Mat 15 d_a) (Mat 15 d_s) (Mat 15 d_m)
    (Mat 15 d2_a) (Mat 15 d2_s) (Mat 15 d2_m) s
  = (Ok (),
     Pyplot [] (shown s ++
       [Figure (2, 3, 6)
          (map (pair (2, 3, 1)) (design_points Scol d_s :: design_labels Scol d_s)
           ++ map (pair (2, 3, 2)) [design_points Acol d_a]
           ++ map (pair (2, 3, 3)) [design_points Mcol d_m]
           ++ map (pair (2, 3, 4)) (design_points Scol d2_s :: design_labels Scol d2_s)
           ++ map (pair (2, 3, 5)) [design_points Acol d2_a]
           ++ map (pair (2, 3, 6)) [design_points Mcol d2_m])])) ∧
  Forall (fun d => ∀ i, i < 15 →
            design_labels Scol d !! i
            = Some (count_label Scol i (Z.of_nat (count_exceeding (of_Z 8) i d))) ∧
            count_exceeding (of_Z 8) i d ≤ 100)
         [d_s; d2_s].
Proof.
  intros Hdesigns Hopen. split.
  - exact (figure_4_run Scol Acol Mcol d_a d_s d_m d2_a d2_s d2_m s Hdesigns Hopen).
  - apply Forall_cons in Hdesigns as [_ Hdesigns].
    apply Forall_cons in Hdesigns as [[Hs _] Hdesigns].
    apply Forall_cons in Hdesigns as [_ Hdesigns].
    apply Forall_cons in Hdesigns as [_ Hdesigns].
    apply Forall_cons in Hdesigns as [[Hs2 _] _].
    assert (Hlabel : ∀ d, length d = 100 → ∀ i, i < 15 →
              design_labels Scol d !! i
              = Some (count_label Scol i (Z.of_nat (count_exceeding (of_Z 8) i d))) ∧
              count_exceeding (of_Z 8) i d ≤ 100).
    { intros d Hd i Hi. split.
      - unfold design_labels.
        rewrite list_lookup_fmap, lookup_seq_lt by exact Hi. reflexivity.
      - rewrite <- Hd. apply count_exceeding_le. }
    apply List.Forall_cons; [exact (Hlabel d_s Hs)|].
    apply List.Forall_cons; [exact (Hlabel d2_s Hs2)|]. apply List.Forall_nil.
Qed.

Lemma hundred_designs_is_design : is_design hundred_designs.
Proof.
  split; [reflexivity|]. apply Forall_forall. intros row Hrow.
  apply elem_of_replicate in Hrow as [-> _]. reflexivity.
Defined.

Lemma figure_4_draws_witness :
  pk_model.figure_4 "C0" "C3" "C6" (Mat 15 hundred_designs) (Mat 15 hundred_designs)
    (Mat 15 hundred_designs) (Mat 15 hundred_designs) (Mat 15 hundred_designs)
    (Mat 15 hundred_designs) pyplot_init
  = (Ok (),
     Pyplot [] (shown pyplot_init ++
       [Figure (2, 3, 6)
          (map (pair (2, 3, 1))
             (design_points "C0" hundred_designs :: design_labels "C0" hundred_designs)
           ++ map (pair (2, 3, 2)) [design_points "C3" hundred_designs]
           ++ map (pair (2, 3, 3)) [design_points "C6" hundred_designs]
           ++ map (pair (2, 3, 4))
                (design_points "C0" hundred_designs :: design_labels "C0" hundred_designs)
           ++ map (pair (2, 3, 5)) [design_points "C3" hundred_designs]
           ++ map (pair (2, 3, 6)) [design_points "C6" hundred_designs])])).
Proof.
  refine (proj1 (figure_4_draws (A:=Q) "C0" "C3" "C6" hundred_designs hundred_designs
           hundred_designs hundred_designs hundred_designs hundred_designs
           pyplot_init _ _)).
  - repeat (constructor; [exact hundred_designs_is_design|]). constructor.
  - reflexivity.
Defined.

(** The label loop on fewer than fifteen counts: [IndexError], and
    nothing displayed. *)
Lemma count_labels_short {A : Type} `{Num A} (Scol : color) (counts : list Z)
    (s : pyplot A) :
  length counts < 15 →
  ∃ s', pk_model.count_labels Scol (Vec counts) s = (Raise IndexError, s') ∧
        shown s' = shown s.
Proof.
  intros Hlen. unfold pk_model.count_labels.
  set (body := fun i : nat => _).
  assert (Hturn : ∀ i st,
            (∃ l, body i st = (Ok (), drawn [l] st) ∧ i < length counts) ∨
            (body i st = (Raise IndexError, st) ∧ length counts ≤ i)).
  { intros i st. subst body. cbn beta. cbn [getitem].
    destruct (counts !! i) as [z|] eqn:Hz.
    - left. apply lookup_lt_Some in Hz.
      destruct (decide (i mod 2 = 0)); rewrite bind_lift_ok;
        eexists; (split; [reflexivity|exact Hz]).
    - right. apply lookup_ge_None in Hz.
      destruct (decide (i mod 2 = 0)); (split; [reflexivity|exact Hz]). }
  destruct (for_raises (fun e => e = IndexError) (seq 0 15) (length counts) body s)
    as (e & He & ->).
  - intros i st e He.
    destruct (Hturn i st) as [(l & Hl & _)|[Hr _]];
      rewrite ?Hl, ?Hr in He; cbn in He; congruence.
  - apply elem_of_seq. lia.
  - intros st. destruct (Hturn (length counts) st) as [(l & _ & Hlt)|[Hr _]];
      [lia|]. rewrite Hr. eexists. reflexivity.
  - pose proof (for_keeps (fun st => shown st = shown s) (seq 0 15) body s) as Hkeep.
    destruct (for_ (seq 0 15) body s) as [r s2] eqn:Hfor. cbn in He. subst r.
    exists s2. split; [reflexivity|].
    apply Hkeep; [|reflexivity].
    intros i st Hst.
    destruct (Hturn i st) as [(l & Hl & _)|[Hr _]];
      rewrite ?Hl, ?Hr; cbn; rewrite ?shown_drawn; exact Hst.
Qed.

(** Figure 4 labels fifteen columns.  A first design matrix with the
    1500 entries that the scatter call asks for but fewer than fifteen
    columns passes the scatter call; the label loop then raises
    [IndexError] at the first column that is missing, and the figure is
    not displayed. *)
Theorem figure_4_needs_15_columns {A : Type} `{Num A} (Scol Acol Mcol : color)
    (n : nat) (d_s : list (list A)) (d_a d_m d2_a d2_s d2_m : ndarray A)
    (s : pyplot A) :
  Forall (fun r => length r = n) d_s →
  length d_s * n = 1500 →
  n < 15 →
  ∃ s',
    pk_model.figure_4 Scol Acol Mcol d_a (Mat n d_s) d_m d2_a d2_s d2_m s
    = (Raise IndexError, s') ∧
    shown s' = shown s.
Proof.
  intros Hwf Hsize Hn.
  destruct (length_num_at_8_2 n d_s Hwf) as (counts & Hnum & Hlen & _).
  unfold pk_model.figure_4. rewrite x_matrix, Hnum, bind_lift_ok.
  erewrite bind_ok by reflexivity.
  erewrite bind_ok by apply subplot_open.
  erewrite bind_ok by (apply design_scatter_run; exact Hsize).
  rewrite drawn_open, bind_lift_ok.
  match goal with
  | |- ∃ s', (pk_model.count_labels Scol (Vec counts) ≫= _) ?st = _ ∧ _ =>
      destruct (count_labels_short Scol counts st) as (s' & Hrun & Hshown);
        [lia|]
  end.
  exists s'. split; [exact (bind_raise _ _ _ _ _ Hrun)|exact Hshown].
Qed.

Lemma figure_4_needs_15_columns_witness :
  ∃ s',
    pk_model.figure_4 "C0" "C3" "C6" (Mat 15 hundred_designs)
      (Mat 10 (replicate 150 (replicate 10 7%Q))) (Mat 15 hundred_designs)
      (Mat 15 hundred_designs) (Mat 15 hundred_designs) (Mat 15 hundred_designs)
      pyplot_init
    = (Raise IndexError, s') ∧
    shown s' = shown pyplot_init.
Proof.
  apply (figure_4_needs_15_columns (A:=Q) "C0" "C3" "C6" 10
           (replicate 150 (replicate 10 7%Q))).
  - apply Forall_forall. intros row Hrow.
    apply elem_of_replicate in Hrow as [-> _]. reflexivity.
  - reflexivity.
  - lia.
Defined.

(** ** pk_model.py: figure 5 *)

Lemma figure_5_run {A : Type} `{Num A} (col : list color) (c0 c3 c6 : color)
    (nf n1 n10 n100 : nat) (first100k sgd1 sgd10 sgd100 : list (list A))
    (s : pyplot A) :
  col !! 0 = Some c0 → col !! 3 = Some c3 → col !! 6 = Some c6 →
  Forall (fun r => length r = nf) first100k →
  Forall (fun r => length r = n1) sgd1 →
  Forall (fun r => length r = n10) sgd10 →
  Forall (fun r => length r = n100) sgd100 →
  open_figs s = [] →
  let x_first := linspace (of_Z 0) (of_Z 100000) nf in
  let x_sgd1 := linspace (of_Z 0) (of_Z 18700000) n1 in
  let x_sgd10 := linspace (of_Z 0) (of_Z 18700000) n10 in
  let x_sgd100 := linspace (of_Z 0) (of_Z 18700000) n100 in
  pk_model.figure_5 col (Mat nf first100k) x_first (Mat n1 sgd1) (Mat n10 sgd10)
    (Mat n100 sgd100) x_sgd1 x_sgd10 x_sgd100 s
  = (Ok (),
     Pyplot [] (shown s ++
       [Figure (2, 3, 6)
          (map (pair (2, 3, 1)) (overlay x_first c0 (dec 2 10) first100k)
           ++ map (pair (2, 3, 2))
                (overlay (pk_model.scaled x_sgd10 10) c3 (dec 2 10) sgd10)
           ++ map (pair (2, 3, 3))
                (overlay (pk_model.scaled x_sgd100 100) c6 (dec 2 10) sgd100)
           ++ map (pair (2, 3, 4)) (overlay x_sgd1 c0 (dec 2 10) sgd1)
           ++ map (pair (2, 3, 5)) (overlay x_sgd10 c3 (dec 2 10) sgd10)
           ++ map (pair (2, 3, 6)) (overlay x_sgd100 c6 (dec 2 10) sgd100))])).
Proof.
  intros Hc0 Hc3 Hc6 Hwff Hwf1 Hwf10 Hwf100 Hopen. cbn zeta.
  destruct s as [op sh]. cbn in Hopen. subst op. cbn [shown].
  unfold pk_model.figure_5, palette_get. rewrite Hc0, Hc3, Hc6.
  erewrite bind_ok by reflexivity.
  erewrite bind_ok by apply subplot_open. rewrite bind_lift_ok.
  erewrite bind_ok
    by (apply plot_transpose_run; [eassumption|apply length_linspace]).
  rewrite drawn_open.
  erewrite bind_ok by apply subplot_open. rewrite bind_lift_ok.
  erewrite bind_ok
    by (apply plot_transpose_run;
        [eassumption|unfold pk_model.scaled; rewrite length_map; apply length_linspace]).
  rewrite drawn_open.
  erewrite bind_ok by apply subplot_open. rewrite bind_lift_ok.
  erewrite bind_ok
    by (apply plot_transpose_run;
        [eassumption|unfold pk_model.scaled; rewrite length_map; apply length_linspace]).
  rewrite drawn_open.
  erewrite bind_ok by apply subplot_open. rewrite bind_lift_ok.
  erewrite bind_ok
    by (apply plot_transpose_run; [eassumption|apply length_linspace]).
  rewrite drawn_open.
  erewrite bind_ok by apply subplot_open. rewrite bind_lift_ok.
  erewrite bind_ok
    by (apply plot_transpose_run; [eassumption|apply length_linspace]).
  rewrite drawn_open.
  erewrite bind_ok by apply subplot_open. rewrite bind_lift_ok.
  erewrite bind_ok
    by (apply plot_transpose_run; [eassumption|apply length_linspace]).
  rewrite drawn_open.
  unfold show. cbn [open_figs shown reverse rev_append app].
  rewrite <- !app_assoc. reflexivity.
Qed.

(** Figure 5 of pk_model.py, with the x-vectors that the script computes
    for it.  The traces of three batch sizes are displayed in one figure
    of six panels, every row of a matrix as one line of opacity 0.2 in
    the colour of its batch size (colours 0, 3 and 6 of the cycle).  The
    second row of panels shows the traces over utility evaluations; the
    first row shows the first 100,000 evaluations of batch size 1, and
    the same traces of batch sizes 10 and 100 as below but over
    iterations, their x-vectors divided by the batch size, so that the
    last column stands at 1,870,000 and at 187,000. *)
Theorem figure_5_draws {A : Type} `{Num A} (col : list color) (c0 c3 c6 : color)
    (nf n1 n10 n100 : nat) (first100k sgd1 sgd10 sgd100 : list (list A))
    (s : pyplot A) :
  col !! 0 = Some c0 → col !! 3 = Some c3 → col !! 6 = Some c6 →
  Forall (fun r => length r = nf) first100k →
  Forall (fun r => length r = n1) sgd1 →
  Forall (fun r => length r = n10) sgd10 →
  Forall (fun r => length r = n100) sgd100 →
  open_figs s = [] →
  let x_first := linspace (of_Z 0) (of_Z 100000) nf in
  let x_sgd1 := linspace (of_Z 0) (of_Z 18700000) n1 in
  let x_sgd10 := linspace (of_Z 0) (of_Z 18700000) n10 in
  let x_sgd100 := linspace (of_Z 0) (of_Z 18700000) n100 in
  pk_model.figure_5 col (Mat nf first100k) x_first (Mat n1 sgd1) (Mat n10 sgd10)
    (Mat n100 sgd100) x_sgd1 x_sgd10 x_sgd100 s
  = (Ok (),
     Pyplot [] (shown s ++
       [Figure (2, 3, 6)
          (map (pair (2, 3, 1)) (overlay x_first c0 (dec 2 10) first100k)
           ++ map (pair (2, 3, 2))
                (overlay (pk_model.scaled x_sgd10 10) c3 (dec 2 10) sgd10)
           ++ map (pair (2, 3, 3))
                (overlay (pk_model.scaled x_sgd100 100) c6 (dec 2 10) sgd100)
           ++ map (pair (2, 3, 4)) (overlay x_sgd1 c0 (dec 2 10) sgd1)
           ++ map (pair (2, 3, 5)) (overlay x_sgd10 c3 (dec 2 10) sgd10)
           ++ map (pair (2, 3, 6)) (overlay x_sgd100 c6 (dec 2 10) sgd100))])) ∧
  (∀ n, 2 ≤ n →
     (∃ x, pk_model.scaled (linspace (A:=Q) (of_Z 0) (of_Z 18700000) n) 10 !! (n - 1)
           = Some x ∧ (x == 1870000)%Q) ∧
     (∃ x, pk_model.scaled (linspace (A:=Q) (of_Z 0) (of_Z 18700000) n) 100 !! (n - 1)
           = Some x ∧ (x == 187000)%Q)).
Proof.
  intros Hc0 Hc3 Hc6 Hwff Hwf1 Hwf10 Hwf100 Hopen. cbn zeta.
  split.
  - apply (figure_5_run col c0 c3 c6); assumption.
  - intros n Hn. unfold pk_model.scaled.
    rewrite !list_lookup_fmap, linspace_last by lia. cbn.
    split; eexists; (split; [reflexivity|]); reflexivity.
Qed.

Lemma figure_5_draws_witness :
  pk_model.figure_5 tab10 (Mat 3 two_traces)
    (linspace (A:=Q) (of_Z 0) (of_Z 100000) 3) (Mat 3 two_traces) (Mat 3 two_traces)
    (Mat 3 two_traces) (linspace (of_Z 0) (of_Z 18700000) 3)
    (linspace (of_Z 0) (of_Z 18700000) 3) (linspace (of_Z 0) (of_Z 18700000) 3)
    pyplot_init
  = (Ok (),
     Pyplot [] (shown pyplot_init ++
       [Figure (2, 3, 6)
          (map (pair (2, 3, 1))
             (overlay (linspace (of_Z 0) (of_Z 100000) 3) "#1f77b4" (dec 2 10) two_traces)
           ++ map (pair (2, 3, 2))
                (overlay (pk_model.scaled (linspace (of_Z 0) (of_Z 18700000) 3) 10)
                   "#d62728" (dec 2 10) two_traces)
           ++ map (pair (2, 3, 3))
                (overlay (pk_model.scaled (linspace (of_Z 0) (of_Z 18700000) 3) 100)
                   "#e377c2" (dec 2 10) two_traces)
           ++ map (pair (2, 3, 4))
                (overlay (linspace (of_Z 0) (of_Z 18700000) 3) "#1f77b4" (dec 2 10) two_traces)
           ++ map (pair (2, 3, 5))
                (overlay (linspace (of_Z 0) (of_Z 18700000) 3) "#d62728" (dec 2 10) two_traces)
           ++ map (pair (2, 3, 6))
                (overlay (linspace (of_Z 0) (of_Z 18700000) 3) "#e377c2" (dec 2 10) two_traces))])) ∧
  (∀ n, 2 ≤ n →
     (∃ x, pk_model.scaled (linspace (A:=Q) (of_Z 0) (of_Z 18700000) n) 10 !! (n - 1)
           = Some x ∧ (x == 1870000)%Q) ∧
     (∃ x, pk_model.scaled (linspace (A:=Q) (of_Z 0) (of_Z 18700000) n) 100 !! (n - 1)
           = Some x ∧ (x == 187000)%Q)).
Proof.
  apply (figure_5_draws (A:=Q) tab10 "#1f77b4" "#d62728" "#e377c2" 3 3 3 3
           two_traces two_traces two_traces two_traces pyplot_init);
    try reflexivity; unfold two_traces; repeat constructor.
Defined.

(** ** numpy calls of the scripts *)


(** [np.transpose] on a matrix: the transpose of an [r] by [n] matrix is
    an [n] by [r] matrix, and transposing it again gives the matrix
    back. *)
Theorem transpose_involutive {A : Type} (n : nat) (rows : list (list A)) :
  Forall (fun r => length r = n) rows →
  shape (transpose (Mat n rows)) = [n; length rows] ∧
  wf_array (transpose (Mat n rows)) ∧
  transpose (transpose (Mat n rows)) = Mat n rows.
Proof.
  intros Hwf. cbn [transpose shape wf_array].
  rewrite length_map, length_seq. split; [reflexivity|]. split.
  - apply Forall_fmap, Forall_forall. intros k Hk. apply elem_of_seq in Hk.
    cbn. apply (length_column n); [exact Hwf|lia].
  - f_equal. rewrite <- (map_id rows) at 2.
    apply (columns_transpose n rows id Hwf).
Qed.

Lemma transpose_involutive_witness :
  shape (transpose (Mat 3 two_traces)) = [3; length two_traces] ∧
  wf_array (transpose (Mat 3 two_traces)) ∧
  transpose (transpose (Mat 3 two_traces)) = Mat 3 two_traces.
Proof.
  apply (transpose_involutive 3 two_traces). unfold two_traces. repeat constructor.
Defined.

Section RepeatReshape.
Context {A : Type}.

Lemma chunks_repeat_each (v : list A) (n : nat) :
  chunks (length v) n (repeat_each v n) = map (replicate n) v.
Proof.
  induction v as [|x v IH]; [reflexivity|].
  cbn [length chunks repeat_each flat_map map].
  rewrite take_app_length' by (symmetry; apply length_replicate).
  rewrite drop_app_length' by (symmetry; apply length_replicate).
  f_equal. exact IH.
Qed.

Lemma column_replicated (v : list A) (n k : nat) :
  k < n → column k (map (replicate n) v) = v.
Proof.
  intros Hk. unfold column. induction v as [|x v IH]; [reflexivity|].
  cbn [map omap list_omap]. rewrite lookup_replicate_2 by exact Hk.
  f_equal. exact IH.
Qed.

Lemma length_repeat_each (v : list A) (n : nat) :
  length (repeat_each v n) = length v * n.
Proof.
  induction v as [|x v IH]; [reflexivity|].
  cbn [repeat_each flat_map length]. rewrite length_app, length_replicate.
  unfold repeat_each in IH. rewrite IH. lia.
Qed.
End RepeatReshape.

(** The construction of line 89 of pk_model.py, for any vector and any
    number of repetitions: [np.repeat(v, n).reshape((len(v), n)).transpose()]
    is the matrix of [n] rows that are all [v].  (The script takes the
    vector 1, ..., 15 and a hundred repetitions.) *)
Theorem repeat_reshape_transpose {A : Type} (v : list A) (n : nat) :
  (m ← reshape (repeat_each v n) (length v) n; mret (transpose m))
  = Ok (Mat (length v) (replicate n v)).
Proof.
  unfold reshape. rewrite decide_True by apply length_repeat_each.
  cbn [mbind result_bind mret result_ret transpose].
  rewrite chunks_repeat_each, length_map. do 2 f_equal.
  apply list_eq. intros k. rewrite list_lookup_fmap.
  destruct (decide (k < n)) as [Hk|Hk].
  - rewrite lookup_seq_lt, lookup_replicate_2 by exact Hk. cbn.
    f_equal. apply column_replicated. exact Hk.
  - rewrite lookup_seq_ge by lia. symmetry. apply lookup_replicate_None. lia.
Qed.

(** The x-vectors of the trace plots run from left to right: for a
    positive total the entries of [np.linspace(0, total, n)] increase
    strictly with the column, by the same step [total / (n - 1)] from
    each column to the next. *)
Theorem linspace_increasing (total : Z) (n i : nat) :
  (0 < total)%Z →
  S i < n →
  ∃ x y,
    linspace (A:=Q) (of_Z 0) (of_Z total) n !! i = Some x ∧
    linspace (A:=Q) (of_Z 0) (of_Z total) n !! S i = Some y ∧
    (x < y)%Q ∧
    (y - x == inject_Z total / inject_Z (Z.of_nat (n - 1)))%Q.
Proof.
  intros Htotal Hi.
  destruct (linspace_Q_rescale total n i) as (x & Hx & Hxq); [lia..|].
  destruct (linspace_Q_rescale total n (S i)) as (y & Hy & Hyq); [lia..|].
  exists x, y. split; [exact Hx|]. split; [exact Hy|].
  assert (Hd : ¬ (of_nat (A:=Q) (n - 1) == 0)%Q)
    by (apply of_nat_Q_nonzero; lia).
  assert (Hstep : (0 < inject_Z total / inject_Z (Z.of_nat (n - 1)))%Q).
  { apply Qlt_shift_div_l.
    - unfold Qlt. cbn. lia.
    - rewrite Qmult_0_l. unfold Qlt. cbn. lia. }
  assert (Hdiff : (y - x == inject_Z total / inject_Z (Z.of_nat (n - 1)))%Q).
  { rewrite Hxq, Hyq. unfold of_nat, of_Z in *. cbn in *.
    rewrite Nat2Z.inj_succ. unfold Z.succ. rewrite inject_Z_plus. field. exact Hd. }
  split; [|exact Hdiff].
  apply Qlt_minus_iff. change (y + - x)%Q with (y - x)%Q.
  rewrite Hdiff. exact Hstep.
Qed.

Lemma linspace_increasing_witness :
  ∃ x y,
    linspace (A:=Q) (of_Z 0) (of_Z 18700000) 100 !! 41 = Some x ∧
    linspace (A:=Q) (of_Z 0) (of_Z 18700000) 100 !! 42 = Some y ∧
    (x < y)%Q ∧
    (y - x == inject_Z 18700000 / inject_Z (Z.of_nat (100 - 1)))%Q.
Proof.
  apply (linspace_increasing 18700000 100 41); lia.
Defined.

(** ** The arrays in memory and their values *)

Section StoreValues.
Context {A : Type} `{Num A}.
Import store.



End StoreValues.



(** ** pk_model.py: the whole script *)

Section PkFigures.
Context {A : Type} `{Num A}.

Lemma figure_2_run (Scol Acol Mcol Mcol2 : color)
    (m2_ph2 m1_ph2 s_ph2 a_ph2 m2 m1 sv a init : list A) (unif : ndarray A)
    (sh : list (figure A)) :
  pk_model.figure_2 Scol Acol Mcol Mcol2 (Vec m2_ph2) (Vec m1_ph2) (Vec s_ph2)
    (Vec a_ph2) (Vec m2) (Vec m1) (Vec sv) (Vec a) (Vec init) unif (Pyplot [] sh)
  = (Ok (),
     Pyplot [] (sh ++
       [Figure (1, 1, 1) (map (pair (1, 1, 1))
          [BoxPatch m2_ph2 (Some Mcol2); BoxPatch m1_ph2 (Some Mcol);
           BoxPatch s_ph2 (Some Scol); BoxPatch a_ph2 (Some Acol);
           BoxPatch m2 (Some Mcol2); BoxPatch m1 (Some Mcol);
           BoxPatch sv (Some Scol); BoxPatch a (Some Acol);
           BoxPatch init (Some "lightsteelblue");
           RefLine true (mean unif) None])])).
Proof.
  unfold pk_model.figure_2, pk_model.color_boxes. plt_run. reflexivity.
Qed.

Lemma figure_3_run (Scol Acol : color) (n m : nat)
    (sgd18 ace18 : list (list A)) (sh : list (figure A)) :
  Forall (fun r => length r = n) sgd18 →
  Forall (fun r => length r = m) ace18 →
  pk_model.figure_3 Scol Acol (Mat n sgd18) (Mat m ace18) (Pyplot [] sh)
  = (Ok (),
     Pyplot [] (sh ++
       [Figure (1, 1, 1) (map (pair (1, 1, 1))
          (overlay (linspace (of_Z 0) (of_Z 18700000) m) Acol (dec 2 10) ace18));
        Figure (1, 1, 1) (map (pair (1, 1, 1))
          (overlay (linspace (of_Z 0) (of_Z 18700000) n) Scol (dec 1 10) sgd18))])).
Proof.
  intros Hwfs Hwfa. unfold pk_model.figure_3.
  change (pk_model.x_ace18 (Mat m ace18))
    with (Ok (linspace (A:=A) (of_Z 0) (of_Z 18700000) m)).
  change (pk_model.x_sgd18 (Mat n sgd18))
    with (Ok (linspace (A:=A) (of_Z 0) (of_Z 18700000) n)).
  rewrite !bind_lift_ok.
  erewrite bind_ok by (apply plot_transpose_run; [exact Hwfa|apply length_linspace]).
  erewrite bind_ok by (unfold show; reflexivity).
  rewrite bind_lift_ok.
  erewrite bind_ok by (apply plot_transpose_run; [exact Hwfs|apply length_linspace]).
  unfold drawn. plt_run. rewrite <- app_assoc. reflexivity.
Qed.
End PkFigures.

(** pk_model.py as a whole.  With a colour cycle of at least seven
    entries, utility files that load as vectors, trace files that load
    as matrices and design files of a hundred trials and fifteen
    observations, the script ends normally and has displayed five
    figures in this order: the boxplot of the nine utility vectors with
    the mean of the uniform utilities marked; the traces of ACE; the
    traces of SGO-FIG; the six panels of designs; the six panels of
    traces by batch size, whose fourth panel shows the matrix of the
    third figure again. *)
Theorem pk_main_figures {A : Type} `{Num A} (col : list color)
    (fs : gmap string (file A)) (Scol Acol Mcol Mcol2 : color)
    (a sv m1 m2 a_ph2 s_ph2 m1_ph2 m2_ph2 init : list A) (unif : ndarray A)
    (ns na nf n10 n100 : nat) (sgd18 ace18 first100k sgd10 sgd100 : list (list A))
    (d_a d_s d_m d2_a d2_s d2_m : list (list A)) (s : pyplot A) :
  col !! 0 = Some Scol → col !! 3 = Some Acol →
  col !! 6 = Some Mcol → col !! 5 = Some Mcol2 →
  loadtxt fs "../data/pk_model/ace_utils_18m.txt" = Ok (Vec a) →
  loadtxt fs "../data/pk_model/sgd_m1_utils_18m.txt" = Ok (Vec sv) →
  loadtxt fs "../data/pk_model/muller_J1_utils_18m.txt" = Ok (Vec m1) →
  loadtxt fs "../data/pk_model/muller_J2_utils_18m.txt" = Ok (Vec m2) →
  loadtxt fs "../data/pk_model/ace_utils_ph2_18m.txt" = Ok (Vec a_ph2) →
  loadtxt fs "../data/pk_model/sgd_utils_ph2_18m.txt" = Ok (Vec s_ph2) →
  loadtxt fs "../data/pk_model/muller_J1_utils_ph2_18m.txt" = Ok (Vec m1_ph2) →
  loadtxt fs "../data/pk_model/muller_J2_utils_ph2_18m.txt" = Ok (Vec m2_ph2) →
  loadtxt fs "../data/pk_model/init_utils.txt" = Ok (Vec init) →
  loadtxt fs "../data/pk_model/unif_utils.txt" = Ok unif →
  loadtxt fs "../data/pk_model/sgd_m1_trace_18m.txt" = Ok (Mat ns sgd18) →
  loadtxt fs "../data/pk_model/ace_trace_18m.txt" = Ok (Mat na ace18) →
  loadtxt fs "../data/pk_model/ace_designs_18m.txt" = Ok (Mat 15 d_a) →
  loadtxt fs "../data/pk_model/sgd_designs_18m.txt" = Ok (Mat 15 d_s) →
  loadtxt fs "../data/pk_model/muller_J1_designs_18m.txt" = Ok (Mat 15 d_m) →
  loadtxt fs "../data/pk_model/ace_designs_ph2_18m.txt" = Ok (Mat 15 d2_a) →
  loadtxt fs "../data/pk_model/sgd_designs_ph2_18m.txt" = Ok (Mat 15 d2_s) →
  loadtxt fs "../data/pk_model/muller_J1_designs_ph2_18m.txt" = Ok (Mat 15 d2_m) →
  loadtxt fs "../data/pk_model/sgd_m1_trace_first100k.txt" = Ok (Mat nf first100k) →
  loadtxt fs "../data/pk_model/sgd_m10_trace_18m.txt" = Ok (Mat n10 sgd10) →
  loadtxt fs "../data/pk_model/sgd_m100_trace_18m.txt" = Ok (Mat n100 sgd100) →
  Forall (fun d => length d = 100) [d_a; d_s; d_m; d2_a; d2_s; d2_m] →
  open_figs s = [] →
  let x_first := linspace (of_Z 0) (of_Z 100000) nf in
  let x_sgd1 := linspace (of_Z 0) (of_Z 18700000) ns in
  let x_ace := linspace (of_Z 0) (of_Z 18700000) na in
  let x_sgd10 := linspace (of_Z 0) (of_Z 18700000) n10 in
  let x_sgd100 := linspace (of_Z 0) (of_Z 18700000) n100 in
  pk_model.main col fs s
  = (Ok (),
     Pyplot [] (shown s ++
       [Figure (1, 1, 1) (map (pair (1, 1, 1))
          [BoxPatch m2_ph2 (Some Mcol2); BoxPatch m1_ph2 (Some Mcol);
           BoxPatch s_ph2 (Some Scol); BoxPatch a_ph2 (Some Acol);
           BoxPatch m2 (Some Mcol2); BoxPatch m1 (Some Mcol);
           BoxPatch sv (Some Scol); BoxPatch a (Some Acol);
           BoxPatch init (Some "lightsteelblue");
           RefLine true (mean unif) None]);
        Figure (1, 1, 1) (map (pair (1, 1, 1))
          (overlay x_ace Acol (dec 2 10) ace18));
        Figure (1, 1, 1) (map (pair (1, 1, 1))
          (overlay x_sgd1 Scol (dec 1 10) sgd18));
        Figure (2, 3, 6)
          (map (pair (2, 3, 1)) (design_points Scol d_s :: design_labels Scol d_s)
           ++ map (pair (2, 3, 2)) [design_points Acol d_a]
           ++ map (pair (2, 3, 3)) [design_points Mcol d_m]
           ++ map (pair (2, 3, 4)) (design_points Scol d2_s :: design_labels Scol d2_s)
           ++ map (pair (2, 3, 5)) [design_points Acol d2_a]
           ++ map (pair (2, 3, 6)) [design_points Mcol d2_m]);
        Figure (2, 3, 6)
          (map (pair (2, 3, 1)) (overlay x_first Scol (dec 2 10) first100k)
           ++ map (pair (2, 3, 2))
                (overlay (pk_model.scaled x_sgd10 10) Acol (dec 2 10) sgd10)
           ++ map (pair (2, 3, 3))
                (overlay (pk_model.scaled x_sgd100 100) Mcol (dec 2 10) sgd100)
           ++ map (pair (2, 3, 4)) (overlay x_sgd1 Scol (dec 2 10) sgd18)
           ++ map (pair (2, 3, 5)) (overlay x_sgd10 Acol (dec 2 10) sgd10)
           ++ map (pair (2, 3, 6)) (overlay x_sgd100 Mcol (dec 2 10) sgd100))])).
Proof.
  intros HS HA HM HM2 Ha Hs Hm1 Hm2 Ha2 Hs2 Hm12 Hm22 Hinit Hunif Hsgd Hace
    Hda Hds Hdm Hd2a Hd2s Hd2m Hfirst H10 H100 Hlens Hopen. cbn zeta.
  destruct s as [op sh]. cbn in Hopen. subst op. cbn [shown].
  pose proof (loadtxt_Mat_wf fs _ _ _ Hsgd) as Wsgd.
  pose proof (loadtxt_Mat_wf fs _ _ _ Hace) as Wace.
  pose proof (loadtxt_Mat_wf fs _ _ _ Hfirst) as Wfirst.
  pose proof (loadtxt_Mat_wf fs _ _ _ H10) as W10.
  pose proof (loadtxt_Mat_wf fs _ _ _ H100) as W100.
  assert (Hdesigns : Forall is_design [d_a; d_s; d_m; d2_a; d2_s; d2_m]).
  { repeat (apply Forall_cons in Hlens as [?Hlen Hlens]).
    repeat constructor; try assumption;
      eapply (loadtxt_Mat_wf fs); eassumption. }
  unfold pk_model.main, pk_model.load, palette_get.
  rewrite HS, HA, HM, HM2, Ha, Hs, Hm1, Hm2, Ha2, Hs2, Hm12, Hm22, Hinit, Hunif,
    !bind_lift_ok.
  erewrite bind_ok by apply figure_2_run.
  rewrite Hsgd, Hace, !bind_lift_ok.
  erewrite bind_ok by (apply figure_3_run; assumption).
  rewrite Hda, Hds, Hdm, Hd2a, Hd2s, Hd2m, !bind_lift_ok.
  erewrite bind_ok by (apply figure_4_run; [exact Hdesigns|reflexivity]).
  rewrite Hfirst, H10, H100, !bind_lift_ok.
  change (pk_model.x_of_trace 100000 (Mat nf first100k))
    with (Ok (linspace (A:=A) (of_Z 0) (of_Z 100000) nf)).
  rewrite !bind_lift_ok.
  change (pk_model.x_of_trace 18700000 (Mat ns sgd18))
    with (Ok (linspace (A:=A) (of_Z 0) (of_Z 18700000) ns)).
  change (pk_model.x_of_trace 18700000 (Mat n10 sgd10))
    with (Ok (linspace (A:=A) (of_Z 0) (of_Z 18700000) n10)).
  change (pk_model.x_of_trace 18700000 (Mat n100 sgd100))
    with (Ok (linspace (A:=A) (of_Z 0) (of_Z 18700000) n100)).
  rewrite !bind_lift_ok.
  rewrite (figure_5_run col Scol Acol Mcol) by (assumption || reflexivity).
  cbn [shown]. rewrite <- !app_assoc. reflexivity.
Qed.

Lemma pk_main_figures_witness :
  ∃ figs, pk_model.main tab10 pk_data pyplot_init = (Ok (), Pyplot [] figs)
          ∧ length figs = 5.
Proof.
  eexists. split.
  - apply (pk_main_figures (A:=Q) tab10 pk_data "#1f77b4" "#d62728" "#e377c2"
             "#8c564b"
             [3; 4]%Q [3; 4]%Q [3; 4]%Q [3; 4]%Q [3; 4]%Q [3; 4]%Q [3; 4]%Q
             [3; 4]%Q [3; 4]%Q (Vec [2; 3; 4]%Q) 3 3 3 3 3
             two_traces two_traces two_traces two_traces two_traces
             hundred_designs hundred_designs hundred_designs
             hundred_designs hundred_designs hundred_designs pyplot_init);
      try (vm_compute; reflexivity).
    repeat constructor.
  - reflexivity.
Defined.
